(** * The workflow host of the trigger SDK (packages/trigger-sdk/src/client.ts)

    A shallow embedding of [TriggerClient]: the seven pending-callback maps,
    the handlers installed by [#initializeRPC], the context operations built
    inside the TRIGGER_WORKFLOW handler, the promise chain that runs the
    user's workflow function, and the retrying [#send] wrapper.

    Asynchronous code is written in a small monad over a [World]: the
    client's private maps, the promises it has allocated, the ordered trace
    of what it did, and a script of what the transport and the server do
    next (inbound messages and the outcomes of outbound sends). *)

From stdpp Require Import gmap strings list pretty.
From Stdlib Require Import ZArith Ascii String.

Set Warnings "-register-all".

Open Scope string_scope.
Open Scope Z_scope.
Open Scope list_scope.

(** ** JavaScript values *)

Module Js.

Inductive ErrorClass := ErrorClass_Error | ErrorClass_TimeoutError | ErrorClass_ZodError.

(** The values user code, the server and the libraries exchange.  Numbers
    are the integers, [VBigInt] is a BigInt; objects are plain objects
    with their properties in insertion order; [VError] is an instance of
    [Error] or of a subclass, with its [name], its [message] and its
    [stack]. *)
Inductive Value :=
| VUndefined
| VNull
| VBool (b : bool)
| VNum (n : Z)
| VBigInt (n : Z)
| VStr (s : string)
| VArr (items : list Value)
| VObj (fields : list (string * Value))
| VError (cls : ErrorClass) (name message : string) (stack : option string).

(** [v ? a : b] and [if (v)] *)
Definition truthy (v : Value) : bool :=
  match v with
  | VUndefined | VNull => false
  | VBool b => b
  | VNum n | VBigInt n => negb (n =? 0)
  | VStr s => negb (String.eqb s EmptyString)
  | VArr _ | VObj _ | VError _ _ _ _ => true
  end.


Definition instanceofTimeoutError (v : Value) : bool :=
  match v with VError ErrorClass_TimeoutError _ _ _ => true | _ => false end.

(** [o[k]] on the property list of a plain object *)
Fixpoint get (k : string) (fields : list (string * Value)) : option Value :=
  match fields with
  | [] => None
  | (k', v) :: rest => if String.eqb k k' then Some v else get k rest
  end.

(** [parts.join(sep)] *)
Fixpoint join (sep : string) (parts : list string) : string :=
  match parts with
  | [] => EmptyString
  | [p] => p
  | p :: rest => p +:+ sep +:+ join sep rest
  end.

End Js.
Import Js.

(** ** Messages on the wire *)

(** Requests the client sends ([ServerRPCSchema]), one constructor per
    method, with the payload the client builds for it. *)
Module ServerRPC.

Record FetchRequest := {
  url : string;
  method : string;
  headers : Value;
  body : Value;
  retry : Value }.

Inductive Wait :=
| DELAY (seconds minutes hours days : option Z)
| SCHEDULE_FOR (scheduledFor : string).

Inductive RunOnceType := REMOTE | LOCAL_ONLY.

Record Request := {
  service : string;
  endpoint : string;
  params : Value;
  version : option string }.

Inductive Rpc :=
| INITIALIZE_HOST_V2 (request : Value)
| START_WORKFLOW_RUN (runId timestamp : string)
| COMPLETE_WORKFLOW_RUN (runId : string) (output : option string) (timestamp : string)
| SEND_WORKFLOW_ERROR (runId : string) (error : Value) (timestamp : string)
| SEND_FETCH (runId key : string) (fetch : FetchRequest) (timestamp : string)
| SEND_KV_GET (runId key namespace kvKey timestamp : string)
| SEND_KV_SET (runId key namespace kvKey : string) (value : Value) (timestamp : string)
| SEND_KV_DELETE (runId key namespace kvKey timestamp : string)
| INITIALIZE_DELAY (runId key : string) (wait : Wait) (timestamp : string)
| INITIALIZE_RUN_ONCE (runId key : string) (type : RunOnceType) (timestamp : string)
| COMPLETE_RUN_ONCE (runId key idempotencyKey : string) (output : option string)
    (timestamp : string)
| SEND_REQUEST (runId key : string) (request : Request) (timestamp : string).

Definition methodName (r : Rpc) : string :=
  match r with
  | INITIALIZE_HOST_V2 _ => "INITIALIZE_HOST_V2"
  | START_WORKFLOW_RUN _ _ => "START_WORKFLOW_RUN"
  | COMPLETE_WORKFLOW_RUN _ _ _ => "COMPLETE_WORKFLOW_RUN"
  | SEND_WORKFLOW_ERROR _ _ _ => "SEND_WORKFLOW_ERROR"
  | SEND_FETCH _ _ _ _ => "SEND_FETCH"
  | SEND_KV_GET _ _ _ _ _ => "SEND_KV_GET"
  | SEND_KV_SET _ _ _ _ _ _ => "SEND_KV_SET"
  | SEND_KV_DELETE _ _ _ _ _ => "SEND_KV_DELETE"
  | INITIALIZE_DELAY _ _ _ _ => "INITIALIZE_DELAY"
  | INITIALIZE_RUN_ONCE _ _ _ _ => "INITIALIZE_RUN_ONCE"
  | COMPLETE_RUN_ONCE _ _ _ _ _ => "COMPLETE_RUN_ONCE"
  | SEND_REQUEST _ _ _ _ => "SEND_REQUEST"
  end.

End ServerRPC.
Import ServerRPC.

(** Requests the server sends and the client handles ([HostRPCSchema]). *)
Module HostRPC.

Record FetchOutput := {
  status : Z;
  ok : bool;
  headers : Value;
  body : Value }.

(** [type RunOnceOutput = { idempotencyKey; hasRun; output? }] *)
Record RunOnceOutput := {
  idempotencyKey : string;
  hasRun : bool;
  output : Value }.

(** Every message carries [meta.runId] and [key]. *)
Inductive Msg :=
| RESOLVE_DELAY (runId key : string)
| RESOLVE_RUN_ONCE (runId key : string) (output : RunOnceOutput)
| RESOLVE_REQUEST (runId key : string) (output : Value)
| REJECT_REQUEST (runId key : string) (error : Value)
| RESOLVE_FETCH_REQUEST (runId key : string) (output : FetchOutput)
| REJECT_FETCH_REQUEST (runId key : string) (error : Value)
| RESOLVE_KV_GET (runId key : string) (output : Value)
| RESOLVE_KV_SET (runId key : string)
| RESOLVE_KV_DELETE (runId key : string).

Record Meta := {
  environment : string;
  workflowId : string;
  organizationId : string;
  apiKey : string;
  isTest : bool;
  appOrigin : string;
  attempt : option Z }.

(** The payload of TRIGGER_WORKFLOW: [data.id], [data.trigger.input],
    [data.meta]. *)
Record TriggerWorkflow := {
  id : string;
  trigger_input : Value;
  meta : Meta }.

End HostRPC.

(** ** The world the client runs in *)

(** What a pending promise is resolved with. *)
Inductive Reply :=
| RVoid
| RAny (v : Value)
| RFetch (o : HostRPC.FetchOutput)
| RRunOnce (o : HostRPC.RunOnceOutput).

Inductive Promise :=
| Pending
| Fulfilled (r : Reply)
| Rejected (e : Value).

(** The seven private maps.  An entry [{resolve, reject}] is the promise
    the two closures belong to. *)
Inductive Table :=
| ResponseComplete | WaitFor | Fetch | RunOnce | KvGet | KvSet | KvDelete.

(** [#serverRPC] is set; the url of [#registerResponse], which is
    [undefined] until the server has answered INITIALIZE_HOST_V2; the
    seven maps. *)
Record Client := {
  serverRPC_initialized : bool;
  registerResponse_url : option string;
  responseCompleteCallbacks : gmap string nat;
  waitForCallbacks : gmap string nat;
  fetchCallbacks : gmap string nat;
  runOnceCallbacks : gmap string nat;
  kvGetCallbacks : gmap string nat;
  kvSetCallbacks : gmap string nat;
  kvDeleteCallbacks : gmap string nat }.

Definition callbacks (t : Table) (c : Client) : gmap string nat :=
  match t with
  | ResponseComplete => responseCompleteCallbacks c
  | WaitFor => waitForCallbacks c
  | Fetch => fetchCallbacks c
  | RunOnce => runOnceCallbacks c
  | KvGet => kvGetCallbacks c
  | KvSet => kvSetCallbacks c
  | KvDelete => kvDeleteCallbacks c
  end.

(** [this.#table.set(key, {resolve, reject})] *)
Definition callbacks_set (t : Table) (key : string) (p : nat) (c : Client) : Client :=
  match t with
  | ResponseComplete =>
      {| serverRPC_initialized := serverRPC_initialized c;
         registerResponse_url := registerResponse_url c;
         responseCompleteCallbacks := <[key := p]> (responseCompleteCallbacks c);
         waitForCallbacks := waitForCallbacks c; fetchCallbacks := fetchCallbacks c;
         runOnceCallbacks := runOnceCallbacks c; kvGetCallbacks := kvGetCallbacks c;
         kvSetCallbacks := kvSetCallbacks c; kvDeleteCallbacks := kvDeleteCallbacks c |}
  | WaitFor =>
      {| serverRPC_initialized := serverRPC_initialized c;
         registerResponse_url := registerResponse_url c;
         responseCompleteCallbacks := responseCompleteCallbacks c;
         waitForCallbacks := <[key := p]> (waitForCallbacks c);
         fetchCallbacks := fetchCallbacks c;
         runOnceCallbacks := runOnceCallbacks c; kvGetCallbacks := kvGetCallbacks c;
         kvSetCallbacks := kvSetCallbacks c; kvDeleteCallbacks := kvDeleteCallbacks c |}
  | Fetch =>
      {| serverRPC_initialized := serverRPC_initialized c;
         registerResponse_url := registerResponse_url c;
         responseCompleteCallbacks := responseCompleteCallbacks c;
         waitForCallbacks := waitForCallbacks c;
         fetchCallbacks := <[key := p]> (fetchCallbacks c);
         runOnceCallbacks := runOnceCallbacks c; kvGetCallbacks := kvGetCallbacks c;
         kvSetCallbacks := kvSetCallbacks c; kvDeleteCallbacks := kvDeleteCallbacks c |}
  | RunOnce =>
      {| serverRPC_initialized := serverRPC_initialized c;
         registerResponse_url := registerResponse_url c;
         responseCompleteCallbacks := responseCompleteCallbacks c;
         waitForCallbacks := waitForCallbacks c; fetchCallbacks := fetchCallbacks c;
         runOnceCallbacks := <[key := p]> (runOnceCallbacks c);
         kvGetCallbacks := kvGetCallbacks c;
         kvSetCallbacks := kvSetCallbacks c; kvDeleteCallbacks := kvDeleteCallbacks c |}
  | KvGet =>
      {| serverRPC_initialized := serverRPC_initialized c;
         registerResponse_url := registerResponse_url c;
         responseCompleteCallbacks := responseCompleteCallbacks c;
         waitForCallbacks := waitForCallbacks c; fetchCallbacks := fetchCallbacks c;
         runOnceCallbacks := runOnceCallbacks c;
         kvGetCallbacks := <[key := p]> (kvGetCallbacks c);
         kvSetCallbacks := kvSetCallbacks c; kvDeleteCallbacks := kvDeleteCallbacks c |}
  | KvSet =>
      {| serverRPC_initialized := serverRPC_initialized c;
         registerResponse_url := registerResponse_url c;
         responseCompleteCallbacks := responseCompleteCallbacks c;
         waitForCallbacks := waitForCallbacks c; fetchCallbacks := fetchCallbacks c;
         runOnceCallbacks := runOnceCallbacks c; kvGetCallbacks := kvGetCallbacks c;
         kvSetCallbacks := <[key := p]> (kvSetCallbacks c);
         kvDeleteCallbacks := kvDeleteCallbacks c |}
  | KvDelete =>
      {| serverRPC_initialized := serverRPC_initialized c;
         registerResponse_url := registerResponse_url c;
         responseCompleteCallbacks := responseCompleteCallbacks c;
         waitForCallbacks := waitForCallbacks c; fetchCallbacks := fetchCallbacks c;
         runOnceCallbacks := runOnceCallbacks c; kvGetCallbacks := kvGetCallbacks c;
         kvSetCallbacks := kvSetCallbacks c;
         kvDeleteCallbacks := <[key := p]> (kvDeleteCallbacks c) |}
  end.

Inductive Level := Debug | Log | Error.

(** What the client does, in the order it does it. *)
Inductive Event :=
| ESet (t : Table) (key : string)
| ESend (rpc : Rpc)
| ELog (level : Level) (message : string)
| ERun (eventData : Value)
| ECallback (idempotencyKey : string)
| ESleep (ms : Z).

(** What the transport and the server do: deliver a message to a handler,
    or settle the outbound send that is in flight, with the response or
    with the error it rejects with. *)
Inductive EnvEvent :=
| Inbound (msg : HostRPC.Msg)
| SendSettled (outcome : Value + Value).

Record World := {
  client : Client;
  promises : list Promise;
  trace : list Event;
  inbox : list EnvEvent;
  clock : nat }.

Definition set_client (c : Client) (w : World) : World :=
  {| client := c; promises := promises w; trace := trace w;
     inbox := inbox w; clock := clock w |}.
Definition set_promises (ps : list Promise) (w : World) : World :=
  {| client := client w; promises := ps; trace := trace w;
     inbox := inbox w; clock := clock w |}.
Definition set_trace (tr : list Event) (w : World) : World :=
  {| client := client w; promises := promises w; trace := tr;
     inbox := inbox w; clock := clock w |}.
Definition set_inbox (evs : list EnvEvent) (w : World) : World :=
  {| client := client w; promises := promises w; trace := trace w;
     inbox := evs; clock := clock w |}.
Definition set_clock (n : nat) (w : World) : World :=
  {| client := client w; promises := promises w; trace := trace w;
     inbox := inbox w; clock := n |}.

(** ** Asynchronous code *)

(** How an awaited computation ends: with a value, with a thrown value (a
    rejection), or not at all as far as the script goes. *)
Inductive Res (A : Type) :=
| Done (a : A)
| Raised (e : Value)
| Blocked.
Arguments Done {A} a.
Arguments Raised {A} e.
Arguments Blocked {A}.

Definition M (A : Type) : Type := World -> Res A * World.

Definition ret {A} (a : A) : M A := fun w => (Done a, w).
Definition raise {A} (e : Value) : M A := fun w => (Raised e, w).
Definition never {A} : M A := fun w => (Blocked, w).

Definition bind {A B} (m : M A) (k : A -> M B) : M B :=
  fun w =>
    match m w with
    | (Done a, w') => k a w'
    | (Raised e, w') => (Raised e, w')
    | (Blocked, w') => (Blocked, w')
    end.

Notation "x <- m ;; k" := (bind m (fun x => k))
  (at level 100, m at next level, k at level 200, only parsing).
Notation "m ;; k" := (bind m (fun _ => k))
  (at level 100, k at level 200, only parsing).

(** [try { m } catch (e) { h e }], and [promise.catch(h)] *)
Definition try_catch {A} (m : M A) (h : Value -> M A) : M A :=
  fun w =>
    match m w with
    | (Raised e, w') => h e w'
    | r => r
    end.

(** A promise chain nobody awaits: it runs, its outcome is dropped. *)
Definition detached {A} (m : M A) : M unit :=
  fun w => (Done tt, snd (m w)).

(** An earlier result (of user code) brought back into the computation. *)
Definition settle {A} (r : Res A) : M A := fun w => (r, w).

Definition emit (e : Event) : M unit :=
  fun w => (Done tt, set_trace (trace w ++ [e]) w).

Definition logger (level : Level) (message : string) : M unit :=
  emit (ELog level message).

Definition get_callbacks (t : Table) (key : string) : M (option nat) :=
  fun w => (Done (callbacks t (client w) !! key), w).

(** [new Promise((resolve, reject) => this.#table.set(key, {resolve, reject}))]:
    the executor runs at once, so the entry is in the map when the
    expression returns the promise. *)
Definition new_promise (t : Table) (key : string) : M nat :=
  fun w =>
    let p := List.length (promises w) in
    (Done p,
     set_trace (trace w ++ [ESet t key])
       (set_client (callbacks_set t key p (client w))
          (set_promises (promises w ++ [Pending]) w))).

(** [resolve(r)] and [reject(e)] of promise [p]: a settled promise stays
    as it is. *)
Definition settle_promise (p : nat) (s : Promise) : M unit :=
  fun w =>
    match promises w !! p with
    | Some Pending => (Done tt, set_promises (<[p := s]> (promises w)) w)
    | _ => (Done tt, w)
    end.
Definition resolve (p : nat) (r : Reply) : M unit := settle_promise p (Fulfilled r).
Definition reject (p : nat) (e : Value) : M unit := settle_promise p (Rejected e).

Definition sleep (ms : Z) : M unit := emit (ESleep ms).

Definition messageKey (runId key : string) : string := runId +:+ ":" +:+ key.

(** ** The handlers of [#initializeRPC] *)

Definition resumed : string := ". This can happen when a workflow run is resumed".

Module handlers.

Definition RESOLVE_DELAY (runId key : string) : M bool :=
  logger Debug "Handling RESOLVE_DELAY";;
  waitCallbacks <- get_callbacks WaitFor (messageKey runId key);;
  match waitCallbacks with
  | None =>
      logger Debug ("Could not find wait callbacks for wait ID "
                    +:+ messageKey runId key +:+ resumed);;
      ret true
  | Some p => resolve p RVoid;; ret true
  end.

Definition RESOLVE_RUN_ONCE (runId key : string) (output : HostRPC.RunOnceOutput) : M bool :=
  logger Debug "Handling RESOLVE_RUN_ONCE";;
  runOnceCallbacks <- get_callbacks RunOnce (messageKey runId key);;
  match runOnceCallbacks with
  | None =>
      logger Debug ("Could not find runOnce callbacks for request ID "
                    +:+ messageKey runId key +:+ resumed);;
      ret true
  | Some p => resolve p (RRunOnce output);; ret true
  end.

Definition RESOLVE_REQUEST (runId key : string) (output : Value) : M bool :=
  logger Debug "Handling RESOLVE_REQUEST";;
  requestCallbacks <- get_callbacks ResponseComplete (messageKey runId key);;
  match requestCallbacks with
  | None =>
      logger Debug ("Could not find request callbacks for request ID "
                    +:+ messageKey runId key +:+ resumed);;
      ret true
  | Some p => resolve p (RAny output);; ret true
  end.

Definition REJECT_REQUEST (runId key : string) (error : Value) : M bool :=
  logger Debug "Handling REJECT_REQUEST";;
  requestCallbacks <- get_callbacks ResponseComplete (messageKey runId key);;
  match requestCallbacks with
  | None =>
      logger Debug ("Could not find request callbacks for request ID "
                    +:+ messageKey runId key +:+ resumed);;
      ret true
  | Some p => reject p error;; ret true
  end.

Definition RESOLVE_FETCH_REQUEST (runId key : string) (output : HostRPC.FetchOutput) : M bool :=
  logger Debug "Handling RESOLVE_FETCH_REQUEST";;
  fetchCallbacks <- get_callbacks Fetch (messageKey runId key);;
  match fetchCallbacks with
  | None =>
      logger Debug ("Could not find fetch callbacks for request ID "
                    +:+ messageKey runId key +:+ resumed);;
      ret true
  | Some p => resolve p (RFetch output);; ret true
  end.

Definition REJECT_FETCH_REQUEST (runId key : string) (error : Value) : M bool :=
  logger Debug "Handling REJECT_FETCH_REQUEST";;
  fetchCallbacks <- get_callbacks Fetch (messageKey runId key);;
  match fetchCallbacks with
  | None =>
      logger Debug ("Could not find fetch callbacks for request ID "
                    +:+ messageKey runId key +:+ resumed);;
      ret true
  | Some p => reject p error;; ret true
  end.

Definition RESOLVE_KV_GET (runId key : string) (output : Value) : M bool :=
  logger Debug "Handling RESOLVE_KV_GET";;
  getCallbacks <- get_callbacks KvGet (messageKey runId key);;
  match getCallbacks with
  | None =>
      logger Debug ("Could not find kvGet callbacks for request ID "
                    +:+ messageKey runId key +:+ resumed);;
      ret true
  | Some p => resolve p (RAny output);; ret true
  end.

Definition RESOLVE_KV_SET (runId key : string) : M bool :=
  logger Debug "Handling RESOLVE_KV_SET";;
  setCallbacks <- get_callbacks KvSet (messageKey runId key);;
  match setCallbacks with
  | None =>
      logger Debug ("Could not find kvSet callbacks for request ID "
                    +:+ messageKey runId key +:+ resumed);;
      ret true
  | Some p => resolve p RVoid;; ret true
  end.

Definition RESOLVE_KV_DELETE (runId key : string) : M bool :=
  logger Debug "Handling RESOLVE_KV_DELETE";;
  deleteCallbacks <- get_callbacks KvDelete (messageKey runId key);;
  match deleteCallbacks with
  | None =>
      logger Debug ("Could not find kvDelete callbacks for request ID "
                    +:+ messageKey runId key +:+ resumed);;
      ret true
  | Some p => resolve p RVoid;; ret true
  end.

End handlers.

(** The RPC layer hands an inbound request to the handler of its method. *)
Definition handle (msg : HostRPC.Msg) : M bool :=
  match msg with
  | HostRPC.RESOLVE_DELAY runId key => handlers.RESOLVE_DELAY runId key
  | HostRPC.RESOLVE_RUN_ONCE runId key output => handlers.RESOLVE_RUN_ONCE runId key output
  | HostRPC.RESOLVE_REQUEST runId key output => handlers.RESOLVE_REQUEST runId key output
  | HostRPC.REJECT_REQUEST runId key error => handlers.REJECT_REQUEST runId key error
  | HostRPC.RESOLVE_FETCH_REQUEST runId key output =>
      handlers.RESOLVE_FETCH_REQUEST runId key output
  | HostRPC.REJECT_FETCH_REQUEST runId key error =>
      handlers.REJECT_FETCH_REQUEST runId key error
  | HostRPC.RESOLVE_KV_GET runId key output => handlers.RESOLVE_KV_GET runId key output
  | HostRPC.RESOLVE_KV_SET runId key => handlers.RESOLVE_KV_SET runId key
  | HostRPC.RESOLVE_KV_DELETE runId key => handlers.RESOLVE_KV_DELETE runId key
  end.

(** The table a message is looked up in, and the key it is looked up under. *)
Definition table_of (msg : HostRPC.Msg) : Table :=
  match msg with
  | HostRPC.RESOLVE_DELAY _ _ => WaitFor
  | HostRPC.RESOLVE_RUN_ONCE _ _ _ => RunOnce
  | HostRPC.RESOLVE_REQUEST _ _ _ | HostRPC.REJECT_REQUEST _ _ _ => ResponseComplete
  | HostRPC.RESOLVE_FETCH_REQUEST _ _ _ | HostRPC.REJECT_FETCH_REQUEST _ _ _ => Fetch
  | HostRPC.RESOLVE_KV_GET _ _ _ => KvGet
  | HostRPC.RESOLVE_KV_SET _ _ => KvSet
  | HostRPC.RESOLVE_KV_DELETE _ _ => KvDelete
  end.

Definition key_of (msg : HostRPC.Msg) : string :=
  match msg with
  | HostRPC.RESOLVE_DELAY runId key
  | HostRPC.RESOLVE_RUN_ONCE runId key _
  | HostRPC.RESOLVE_REQUEST runId key _
  | HostRPC.REJECT_REQUEST runId key _
  | HostRPC.RESOLVE_FETCH_REQUEST runId key _
  | HostRPC.REJECT_FETCH_REQUEST runId key _
  | HostRPC.RESOLVE_KV_GET runId key _
  | HostRPC.RESOLVE_KV_SET runId key
  | HostRPC.RESOLVE_KV_DELETE runId key => messageKey runId key
  end.

(** ** Awaiting *)

(** [await serverRPC.send(...)]: the request goes out, and the caller is
    suspended until the transport settles it; handlers of messages that
    arrive meanwhile run first. *)
Fixpoint await_send (script : list EnvEvent) (w : World) : Res Value * World :=
  match script with
  | [] => (Blocked, set_inbox [] w)
  | Inbound msg :: rest => await_send rest (snd (handle msg w))
  | SendSettled (inl response) :: rest => (Done response, set_inbox rest w)
  | SendSettled (inr err) :: rest => (Raised err, set_inbox rest w)
  end.

Definition serverRPC_send (rpc : Rpc) : M Value :=
  fun w => await_send (inbox w) (set_trace (trace w ++ [ESend rpc]) w).

(** [await result]: handlers run until one of them has settled the
    promise.  An outcome for a send that is not in flight is dropped. *)
Fixpoint await_promise (p : nat) (script : list EnvEvent) (w : World)
  {struct script} : Res Reply * World :=
  match promises w !! p with
  | Some (Fulfilled r) => (Done r, set_inbox script w)
  | Some (Rejected e) => (Raised e, set_inbox script w)
  | _ =>
      match script with
      | [] => (Blocked, set_inbox [] w)
      | Inbound msg :: rest => await_promise p rest (snd (handle msg w))
      | SendSettled _ :: rest => await_promise p rest w
      end
  end.

Definition await (p : nat) : M Reply := fun w => await_promise p (inbox w) w.

(** The static type of each promise: the maps are only resolved with the
    reply of their own kind, the other cases do not arise. *)
Definition typeError : Value :=
  VError ErrorClass_Error "TypeError" "reply of another kind" None.

Definition the_value (r : Reply) : M Value :=
  match r with RAny v => ret v | _ => raise typeError end.
Definition the_FetchOutput (r : Reply) : M HostRPC.FetchOutput :=
  match r with RFetch o => ret o | _ => raise typeError end.
Definition the_RunOnceOutput (r : Reply) : M HostRPC.RunOnceOutput :=
  match r with RRunOnce o => ret o | _ => raise typeError end.

(** ** Schemas (zod) and the options user code passes *)

Module z.

(** A schema, as [schema.parse] sees it: the parsed value, or the
    [ZodError] it throws. *)
Definition ZodType := Value -> Value + Value.

Definition any : ZodType := inl.

Definition parse (schema : ZodType) (v : Value) : M Value :=
  match schema v with
  | inl parsed => ret parsed
  | inr zodError => raise zodError
  end.

Record ZodIssue := {
  code : string;
  path : list string;
  message : string }.

(** The result of [schema.safeParse]. *)
Inductive SafeParse :=
| success (data : Value)
| failure (issues : list ZodIssue).

(** [z.object({ name: z.string(), message: z.string() }).passthrough().safeParse(v)]:
    the data of a successful parse has the two declared keys first and
    then every other property of [v]. *)
Definition name_message_passthrough (v : Value) : option Value :=
  match v with
  | VObj fields =>
      match get "name" fields, get "message" fields with
      | Some (VStr name), Some (VStr message) =>
          Some (VObj (("name", VStr name) :: ("message", VStr message)
                      :: List.filter
                           (fun kv => negb (String.eqb (fst kv) "name"
                                            || String.eqb (fst kv) "message"))
                           fields))
      | _, _ => None
      end
  | _ => None
  end.

End z.

Module Types.

Record FetchOptions := {
  method : option string;
  headers : Value;
  body : Value;
  retry : Value;
  responseSchema : option z.ZodType }.

Record WaitForOptions := {
  seconds : option Z;
  minutes : option Z;
  hours : option Z;
  days : option Z }.

Record PerformRequestOptions := {
  service : string;
  endpoint : string;
  params : Value;
  version : option string;
  response_schema : option z.ZodType }.

(** The operation a [ContextKeyValueStorage] hands to the kv functions. *)
Record KvOperation := {
  idempotencyKey : string;
  namespace : string;
  key : string;
  value : Value }.

End Types.

Definition zodErrorMessageOptions_delimiter_error : string := " 🔥 ".

Definition retryIntervalMs : Z := 3000.

(** The local function [parseAnyError] of the run's error path. *)
Definition parseAnyError (error : Value) : Value :=
  match error with
  | VError _ name message stack =>
      VObj [("name", VStr name); ("message", VStr message);
            ("stackTrace", match stack with Some s => VStr s | None => VUndefined end)]
  | _ =>
      match z.name_message_passthrough error with
      | Some data => data
      | None =>
          VObj [("name", VStr "UnknownError");
                ("message", VStr "An unknown error occurred")]
      end
  end.

(** How [logger.error(err)] shows an error; [#send] hands it a
    [TimeoutError] and nothing else. *)
Definition show (v : Value) : string :=
  match v with
  | VError _ name message _ => name +:+ ": " +:+ message
  | _ => EmptyString
  end.

(** ** User code *)

(** What a call of an operation of the context returns. *)
Inductive Returned :=
| Response (response : HostRPC.FetchOutput)
| Void
| Output (output : Value).

(** The journaled operations of the context, with their arguments.  A
    callback is known by how the promise it returns settles. *)
Inductive Journaled :=
| Jfetch (key url : string) (options : Types.FetchOptions)
| JwaitFor (key : string) (options : Types.WaitForOptions)
| JwaitUntil (key date : string)
| JrunOnce (key : string) (callback : string -> Res Value)
| JrunOnceLocalOnly (key : string) (callback : string -> Res Value)
| JperformRequest (key : string) (options : Types.PerformRequestOptions)
| JkvGet (op : Types.KvOperation)
| JkvSet (op : Types.KvOperation)
| JkvDelete (op : Types.KvOperation).

(** The promise an async run function returns, by what the function
    does: it awaits operations of its context one after the other, goes
    on with what each of them returns or throws, and in the end returns,
    throws, or awaits for ever. *)
Inductive Program :=
| Return (output : Value)
| Throw (e : Value)
| Hang
| Call (j : Journaled) (k : Returned + Value -> Program).

(** What the expression [run(eventData, ctx).then(..)] gives: the promise
    of a program, or an exception thrown before there is a promise (by a
    run function that is not async and throws, or that returns no
    promise, so that [.then] throws). *)
Inductive Run :=
| Thrown (e : Value)
| Promised (body : Program).

(** What reading [this.#registerResponse!.url] throws while
    [#registerResponse] is [undefined]. *)
Definition cannot_read_url : Value :=
  VError ErrorClass_Error "TypeError"
    "Cannot read properties of undefined (reading 'url')" None.

Section TriggerClient.

(** The collaborators the client is built on: the process clock (the
    [n]-th [String(highPrecisionTimestamp())]), [JSON.stringify] (the
    string or [undefined] it returns, or the [TypeError] it throws), the
    terminal-link and zod-error packages, and the user's trigger: its
    event schema and its run function. *)
Variable hrtime : nat -> string.
Variable JSON_stringify : Value -> option string + Value.
Variable terminalLink : string -> string -> string.
Variable generateErrorMessage : list z.ZodIssue -> string -> string.
Variable on_schema_safeParse : Value -> z.SafeParse.
Variable run : Value -> Run.

Definition highPrecisionTimestamp : M string :=
  fun w => (Done (hrtime (clock w)), set_clock (S (clock w)) w).

Definition this_client : M Client := fun w => (Done (client w), w).

(** [JSON.stringify(v)] where an exception rejects the promise at hand. *)
Definition stringify (v : Value) : M (option string) :=
  match JSON_stringify v with
  | inl s => ret s
  | inr e => raise e
  end.

(** [this.#registerResponse!.url] *)
Definition this_registerResponse_url : M string :=
  fun w =>
    match registerResponse_url (client w) with
    | Some url => (Done url, w)
    | None => (Raised cannot_read_url, w)
    end.

(** The link of the two lines [logger.log] prints for a run. *)
Definition view_on_dashboard (url runId : string) : string :=
  terminalLink "View on dashboard" (url +:+ "/runs/" +:+ runId).

Definition run_started (url runId : string) : string :=
  "Run " +:+ runId +:+ " started 👉 " +:+ view_on_dashboard url runId.

Definition run_complete (url runId : string) : string :=
  "Run " +:+ runId +:+ " complete 👉 " +:+ view_on_dashboard url runId.

(** *** [#send] *)

Fixpoint send_loop (fuel : nat) (rpc : Rpc) : M Value :=
  match fuel with
  | O => never
  | S fuel' =>
      try_catch
        (logger Debug ("Sending RPC request to server: " +:+ methodName rpc);;
         serverRPC_send rpc)
        (fun err =>
           if instanceofTimeoutError err then
             logger Log ("RPC call timed out, retrying in "
                         +:+ pretty (retryIntervalMs / 1000) +:+ "s...");;
             logger Error (show err);;
             sleep retryIntervalMs;;
             send_loop fuel' rpc
           else raise err)
  end.

Definition send (fuel : nat) (rpc : Rpc) : M Value :=
  fun w =>
    if serverRPC_initialized (client w) then send_loop fuel rpc w
    else raise (VError ErrorClass_Error "Error" "serverRPC not initialized" None) w.

(** *** The TRIGGER_WORKFLOW handler *)

Section Run.

Variable data : HostRPC.TriggerWorkflow.

Definition fetchFunction (key url : string) (options : Types.FetchOptions)
  : M HostRPC.FetchOutput :=
  result <- new_promise Fetch (messageKey (HostRPC.id data) key);;
  timestamp <- highPrecisionTimestamp;;
  serverRPC_send
    (SEND_FETCH (HostRPC.id data) key
       {| url := url;
          method := default "GET" (Types.method options);
          headers := Types.headers options;
          body := Types.body options;
          retry := Types.retry options |}
       timestamp);;
  reply <- await result;;
  response <- the_FetchOutput reply;;
  body <- (if truthy (HostRPC.body response)
           then z.parse (default z.any (Types.responseSchema options))
                  (HostRPC.body response)
           else ret VUndefined);;
  ret {| HostRPC.status := HostRPC.status response;
         HostRPC.ok := HostRPC.ok response;
         HostRPC.headers := HostRPC.headers response;
         HostRPC.body := body |}.

Definition kvGetFunction (op : Types.KvOperation) : M Value :=
  result <- new_promise KvGet (messageKey (HostRPC.id data) (Types.idempotencyKey op));;
  timestamp <- highPrecisionTimestamp;;
  serverRPC_send
    (SEND_KV_GET (HostRPC.id data) (Types.idempotencyKey op)
       (Types.namespace op) (Types.key op) timestamp);;
  reply <- await result;;
  output <- the_value reply;;
  ret output.

Definition kvSetFunction (op : Types.KvOperation) : M unit :=
  result <- new_promise KvSet (messageKey (HostRPC.id data) (Types.idempotencyKey op));;
  timestamp <- highPrecisionTimestamp;;
  serverRPC_send
    (SEND_KV_SET (HostRPC.id data) (Types.idempotencyKey op)
       (Types.namespace op) (Types.key op) (Types.value op) timestamp);;
  await result;;
  ret tt.

Definition kvDeleteFunction (op : Types.KvOperation) : M unit :=
  result <- new_promise KvDelete (messageKey (HostRPC.id data) (Types.idempotencyKey op));;
  timestamp <- highPrecisionTimestamp;;
  serverRPC_send
    (SEND_KV_DELETE (HostRPC.id data) (Types.idempotencyKey op)
       (Types.namespace op) (Types.key op) timestamp);;
  await result;;
  ret tt.

Definition waitFor (key : string) (options : Types.WaitForOptions) : M unit :=
  result <- new_promise WaitFor (messageKey (HostRPC.id data) key);;
  timestamp <- highPrecisionTimestamp;;
  serverRPC_send
    (INITIALIZE_DELAY (HostRPC.id data) key
       (DELAY (Types.seconds options) (Types.minutes options)
          (Types.hours options) (Types.days options))
       timestamp);;
  await result;;
  ret tt.

(** [date] is [date.toISOString()]. *)
Definition waitUntil (key date : string) : M unit :=
  result <- new_promise WaitFor (messageKey (HostRPC.id data) key);;
  timestamp <- highPrecisionTimestamp;;
  serverRPC_send
    (INITIALIZE_DELAY (HostRPC.id data) key (SCHEDULE_FOR date) timestamp);;
  await result;;
  ret tt.

(** A user callback, known by how the promise it returns settles. *)
Definition call (callback : string -> Res Value) (idempotencyKey : string) : M Value :=
  emit (ECallback idempotencyKey);;
  settle (callback idempotencyKey).

Definition runOnce (key : string) (callback : string -> Res Value) : M Value :=
  result <- new_promise RunOnce (messageKey (HostRPC.id data) key);;
  timestamp <- highPrecisionTimestamp;;
  serverRPC_send (INITIALIZE_RUN_ONCE (HostRPC.id data) key REMOTE timestamp);;
  reply <- await result;;
  o <- the_RunOnceOutput reply;;
  if HostRPC.hasRun o then ret (HostRPC.output o)
  else
    callbackResult <- call callback (HostRPC.idempotencyKey o);;
    output <- (if truthy callbackResult then stringify callbackResult else ret None);;
    timestamp <- highPrecisionTimestamp;;
    serverRPC_send
      (COMPLETE_RUN_ONCE (HostRPC.id data) key (HostRPC.idempotencyKey o) output
         timestamp);;
    ret callbackResult.

Definition runOnceLocalOnly (key : string) (callback : string -> Res Value) : M Value :=
  result <- new_promise RunOnce (messageKey (HostRPC.id data) key);;
  timestamp <- highPrecisionTimestamp;;
  serverRPC_send (INITIALIZE_RUN_ONCE (HostRPC.id data) key LOCAL_ONLY timestamp);;
  reply <- await result;;
  o <- the_RunOnceOutput reply;;
  call callback (HostRPC.idempotencyKey o).

(** The [performRequest] of the bundle given to [triggerRunLocalStorage.run]. *)
Definition performRequest (key : string) (options : Types.PerformRequestOptions) : M Value :=
  result <- new_promise ResponseComplete (messageKey (HostRPC.id data) key);;
  timestamp <- highPrecisionTimestamp;;
  serverRPC_send
    (SEND_REQUEST (HostRPC.id data) key
       {| service := Types.service options;
          endpoint := Types.endpoint options;
          params := Types.params options;
          version := Types.version options |}
       timestamp);;
  reply <- await result;;
  output <- the_value reply;;
  match Types.response_schema options with
  | None => ret output
  | Some schema => z.parse schema output
  end.

(** The call of the operation [j] of the context. *)
Definition invoke (j : Journaled) : M Returned :=
  match j with
  | Jfetch key url options =>
      response <- fetchFunction key url options;; ret (Response response)
  | JwaitFor key options => waitFor key options;; ret Void
  | JwaitUntil key date => waitUntil key date;; ret Void
  | JrunOnce key callback => output <- runOnce key callback;; ret (Output output)
  | JrunOnceLocalOnly key callback =>
      output <- runOnceLocalOnly key callback;; ret (Output output)
  | JperformRequest key options =>
      output <- performRequest key options;; ret (Output output)
  | JkvGet op => output <- kvGetFunction op;; ret (Output output)
  | JkvSet op => kvSetFunction op;; ret Void
  | JkvDelete op => kvDeleteFunction op;; ret Void
  end.

(** The promise of a program: how it settles, and what the operations it
    awaits do on the way. *)
Fixpoint execute (body : Program) : M Value :=
  match body with
  | Return output => ret output
  | Throw e => raise e
  | Hang => never
  | Call j k =>
      fun w =>
        match invoke j w with
        | (Done returned, w') => execute (k (inl returned)) w'
        | (Raised e, w') => execute (k (inr e)) w'
        | (Blocked, w') => (Blocked, w')
        end
  end.

(** The chain
    [serverRPC.send(START_WORKFLOW_RUN).then(() => run(..).then(..).catch(..)).catch(..)].
    What the first callback throws, the run function's own exception
    included, goes to the last [catch]; what rejects the promise of the
    run function, or is thrown while the output is reported, goes to the
    inner one. *)
Definition run_chain (eventData : Value) : M Value :=
  try_catch
    (timestamp <- highPrecisionTimestamp;;
     serverRPC_send (START_WORKFLOW_RUN (HostRPC.id data) timestamp);;
     emit (ERun eventData);;
     match run eventData with
     | Thrown e => raise e
     | Promised body =>
         try_catch
           (output <- execute body;;
            url <- this_registerResponse_url;;
            logger Log (run_complete url (HostRPC.id data));;
            output <- stringify output;;
            timestamp <- highPrecisionTimestamp;;
            serverRPC_send (COMPLETE_WORKFLOW_RUN (HostRPC.id data) output timestamp))
           (fun anyError =>
              let error := parseAnyError anyError in
              timestamp <- highPrecisionTimestamp;;
              serverRPC_send (SEND_WORKFLOW_ERROR (HostRPC.id data) error timestamp))
     end)
    (fun anyError =>
       timestamp <- highPrecisionTimestamp;;
       serverRPC_send (SEND_WORKFLOW_ERROR (HostRPC.id data) anyError timestamp)).

(** The function handed to [triggerRunLocalStorage.run]: it starts the
    chain and returns without awaiting it; what it throws, the handler
    throws. *)
Definition run_frame (eventData : Value) : M unit :=
  logger Debug "Running trigger...";;
  (if decide (HostRPC.attempt (HostRPC.meta data) = Some 0)
   then url <- this_registerResponse_url;;
        logger Log (run_started url (HostRPC.id data))
   else ret tt);;
  detached (run_chain eventData).

Definition TRIGGER_WORKFLOW : M bool :=
  logger Debug "Handling TRIGGER_WORKFLOW";;
  match on_schema_safeParse (HostRPC.trigger_input data) with
  | z.failure issues =>
      timestamp <- highPrecisionTimestamp;;
      serverRPC_send
        (SEND_WORKFLOW_ERROR (HostRPC.id data)
           (VObj [("name", VStr "Event validation error");
                  ("message",
                   VStr (generateErrorMessage issues
                           zodErrorMessageOptions_delimiter_error))])
           timestamp);;
      ret true
  | z.success eventData =>
      logger Debug "Parsed event data";;
      run_frame eventData;;
      ret true
  end.

End Run.

End TriggerClient.

(** ** What is observed of a run *)

Definition is_debug (e : Event) : bool :=
  match e with ELog Debug _ => true | _ => false end.

(** The trace without the lines of [logger.debug]. *)
Definition visible (tr : list Event) : list Event :=
  List.filter (fun e => negb (is_debug e)) tr.

(** The requests handed to [serverRPC.send], in order. *)
Fixpoint sends (tr : list Event) : list Rpc :=
  match tr with
  | [] => []
  | ESend rpc :: rest => rpc :: sends rest
  | _ :: rest => sends rest
  end.

Definition is_COMPLETE_WORKFLOW_RUN (rpc : Rpc) : bool :=
  match rpc with COMPLETE_WORKFLOW_RUN _ _ _ => true | _ => false end.
Definition is_SEND_WORKFLOW_ERROR (rpc : Rpc) : bool :=
  match rpc with SEND_WORKFLOW_ERROR _ _ _ => true | _ => false end.
Definition is_START_WORKFLOW_RUN (rpc : Rpc) : bool :=
  match rpc with START_WORKFLOW_RUN _ _ => true | _ => false end.
Definition is_COMPLETE_RUN_ONCE (rpc : Rpc) : bool :=
  match rpc with COMPLETE_RUN_ONCE _ _ _ _ _ => true | _ => false end.

(** The terminal requests of a run. *)
Definition terminal (rpc : Rpc) : bool :=
  is_COMPLETE_WORKFLOW_RUN rpc || is_SEND_WORKFLOW_ERROR rpc.

Definition terminals (tr : list Event) : list Rpc := List.filter terminal (sends tr).

Definition is_ERun (e : Event) : bool :=
  match e with ERun _ => true | _ => false end.
Definition is_ECallback (e : Event) : bool :=
  match e with ECallback _ => true | _ => false end.

(** How the transport settles the sends to come, in order. *)
Fixpoint outcomes (script : list EnvEvent) : list (Value + Value) :=
  match script with
  | [] => []
  | Inbound _ :: rest => outcomes rest
  | SendSettled o :: rest => o :: outcomes rest
  end.

Definition resolves (o : Value + Value) : Prop :=
  match o with inl _ => True | inr _ => False end.

(** The result of awaiting a send, given what the transport does next. *)
Definition send_result (os : list (Value + Value)) : Res Value :=
  match os with
  | [] => Blocked
  | inl response :: _ => Done response
  | inr err :: _ => Raised err
  end.

(** The server's messages [msgs] handled one after the other. *)
Definition deliver (msgs : list HostRPC.Msg) (w : World) : World :=
  foldl (fun w msg => snd (handle msg w)) w msgs.

(** The part of [runOnce] and of [runOnceLocalOnly] up to the reply. *)
Definition runOnce_reply (hrtime : nat -> string) (data : HostRPC.TriggerWorkflow)
    (key : string) (type : RunOnceType) : M HostRPC.RunOnceOutput :=
  result <- new_promise RunOnce (messageKey (HostRPC.id data) key);;
  timestamp <- highPrecisionTimestamp hrtime;;
  serverRPC_send (INITIALIZE_RUN_ONCE (HostRPC.id data) key type timestamp);;
  reply <- await result;;
  the_RunOnceOutput reply.

(** The part of [fetchFunction] up to the server's response. *)
Definition fetch_response (hrtime : nat -> string) (data : HostRPC.TriggerWorkflow)
    (key url : string) (options : Types.FetchOptions) : M HostRPC.FetchOutput :=
  result <- new_promise Fetch (messageKey (HostRPC.id data) key);;
  timestamp <- highPrecisionTimestamp hrtime;;
  serverRPC_send
    (SEND_FETCH (HostRPC.id data) key
       {| url := url;
          method := default "GET" (Types.method options);
          headers := Types.headers options;
          body := Types.body options;
          retry := Types.retry options |}
       timestamp);;
  reply <- await result;;
  the_FetchOutput reply.

(** The world an operation of the context leaves. *)
Definition perform (hrtime : nat -> string)
    (JSON_stringify : Value -> option string + Value) (data : HostRPC.TriggerWorkflow)
    (j : Journaled) (w : World) : World :=
  match j with
  | Jfetch key url options => snd (fetchFunction hrtime data key url options w)
  | JwaitFor key options => snd (waitFor hrtime data key options w)
  | JwaitUntil key date => snd (waitUntil hrtime data key date w)
  | JrunOnce key callback => snd (runOnce hrtime JSON_stringify data key callback w)
  | JrunOnceLocalOnly key callback => snd (runOnceLocalOnly hrtime data key callback w)
  | JperformRequest key options => snd (performRequest hrtime data key options w)
  | JkvGet op => snd (kvGetFunction hrtime data op w)
  | JkvSet op => snd (kvSetFunction hrtime data op w)
  | JkvDelete op => snd (kvDeleteFunction hrtime data op w)
  end.

Definition table_for (j : Journaled) : Table :=
  match j with
  | Jfetch _ _ _ => Fetch
  | JwaitFor _ _ | JwaitUntil _ _ => WaitFor
  | JrunOnce _ _ | JrunOnceLocalOnly _ _ => RunOnce
  | JperformRequest _ _ => ResponseComplete
  | JkvGet _ => KvGet
  | JkvSet _ => KvSet
  | JkvDelete _ => KvDelete
  end.

Definition userKey (j : Journaled) : string :=
  match j with
  | Jfetch key _ _ | JwaitFor key _ | JwaitUntil key _ | JrunOnce key _
  | JrunOnceLocalOnly key _ | JperformRequest key _ => key
  | JkvGet op | JkvSet op | JkvDelete op => Types.idempotencyKey op
  end.

(** The intent each operation sends. *)
Definition intent (runId : string) (j : Journaled) (timestamp : string) : Rpc :=
  match j with
  | Jfetch key url options =>
      SEND_FETCH runId key
        {| url := url;
           method := default "GET" (Types.method options);
           headers := Types.headers options;
           body := Types.body options;
           retry := Types.retry options |}
        timestamp
  | JwaitFor key options =>
      INITIALIZE_DELAY runId key
        (DELAY (Types.seconds options) (Types.minutes options)
           (Types.hours options) (Types.days options))
        timestamp
  | JwaitUntil key date => INITIALIZE_DELAY runId key (SCHEDULE_FOR date) timestamp
  | JrunOnce key _ => INITIALIZE_RUN_ONCE runId key REMOTE timestamp
  | JrunOnceLocalOnly key _ => INITIALIZE_RUN_ONCE runId key LOCAL_ONLY timestamp
  | JperformRequest key options =>
      SEND_REQUEST runId key
        {| service := Types.service options;
           endpoint := Types.endpoint options;
           params := Types.params options;
           version := Types.version options |}
        timestamp
  | JkvGet op =>
      SEND_KV_GET runId (Types.idempotencyKey op) (Types.namespace op) (Types.key op)
        timestamp
  | JkvSet op =>
      SEND_KV_SET runId (Types.idempotencyKey op) (Types.namespace op) (Types.key op)
        (Types.value op) timestamp
  | JkvDelete op =>
      SEND_KV_DELETE runId (Types.idempotencyKey op) (Types.namespace op) (Types.key op)
        timestamp
  end.

(** The claim's "object exposing name of type string and message of type
    string". *)
Definition exposes_name_message (v : Value) : Prop :=
  exists fields name message,
    v = VObj fields /\ get "name" fields = Some (VStr name)
    /\ get "message" fields = Some (VStr message).

(** What user code leaves in the trace: the entries and the requests of
    the operations it calls, and the calls of its callbacks. *)
Definition of_context (e : Event) : bool :=
  match e with
  | ESet _ _ | ECallback _ => true
  | ESend (SEND_FETCH _ _ _ _) | ESend (SEND_KV_GET _ _ _ _ _)
  | ESend (SEND_KV_SET _ _ _ _ _ _) | ESend (SEND_KV_DELETE _ _ _ _ _)
  | ESend (INITIALIZE_DELAY _ _ _ _) | ESend (INITIALIZE_RUN_ONCE _ _ _ _)
  | ESend (COMPLETE_RUN_ONCE _ _ _ _ _) | ESend (SEND_REQUEST _ _ _ _) => true
  | _ => false
  end.

Definition quiet (delta : list Event) : Prop :=
  Forall (fun e => of_context e = true) delta.

(** The handler of a valid event gets as far as the chain: the client is
    registered, or the attempt is not 0 and the url of the registration
    is not read before the chain. *)
Definition enters (data : HostRPC.TriggerWorkflow) (w : World) : Prop :=
  registerResponse_url (client w) <> None
  \/ HostRPC.attempt (HostRPC.meta data) <> Some 0.

(** What the handler leaves in the visible trace ahead of the chain. *)
Definition prelude (terminalLink : string -> string -> string)
    (data : HostRPC.TriggerWorkflow) (registered : option string) : list Event :=
  match registered with
  | Some url =>
      if decide (HostRPC.attempt (HostRPC.meta data) = Some 0)
      then [ELog Log (run_started terminalLink url (HostRPC.id data))]
      else []
  | None => []
  end.

(** The handler of a valid event up to the moment the promise [body] of
    the run function settles. *)
Definition run_settled (hrtime : nat -> string)
    (JSON_stringify : Value -> option string + Value)
    (terminalLink : string -> string -> string) (data : HostRPC.TriggerWorkflow)
    (eventData : Value) (body : Program) : M Value :=
  logger Debug "Handling TRIGGER_WORKFLOW";;
  logger Debug "Parsed event data";;
  logger Debug "Running trigger...";;
  (if decide (HostRPC.attempt (HostRPC.meta data) = Some 0)
   then url <- this_registerResponse_url;;
        logger Log (run_started terminalLink url (HostRPC.id data))
   else ret tt);;
  timestamp <- highPrecisionTimestamp hrtime;;
  serverRPC_send (START_WORKFLOW_RUN (HostRPC.id data) timestamp);;
  emit (ERun eventData);;
  execute hrtime JSON_stringify data body.

(** What the inner [catch] leaves in the visible trace for [anyError], at
    clock [t] and with the sends settling as [os]: the normalized error,
    and from the last [catch] the cause as it is when that send is
    rejected. *)
Definition reported (hrtime : nat -> string) (runId : string) (t : nat)
    (os : list (Value + Value)) (anyError : Value) : list Event :=
  ESend (SEND_WORKFLOW_ERROR runId (parseAnyError anyError) (hrtime t)) ::
  match os with
  | inr cause :: _ => [ESend (SEND_WORKFLOW_ERROR runId cause (hrtime (S t)))]
  | _ => []
  end.

(** What the chain leaves in the visible trace once the promise of the
    run function has settled as [settled], for a client whose
    registration has the url [registered], at clock [t] and with the
    sends settling as [os]. *)
Definition conclusion (hrtime : nat -> string)
    (JSON_stringify : Value -> option string + Value)
    (terminalLink : string -> string -> string) (runId : string)
    (registered : option string) (t : nat) (os : list (Value + Value))
    (settled : Res Value) : list Event :=
  match settled with
  | Blocked => []
  | Raised e => reported hrtime runId t os e
  | Done output =>
      match registered with
      | None => reported hrtime runId t os cannot_read_url
      | Some url =>
          ELog Log (run_complete terminalLink url runId) ::
          match JSON_stringify output with
          | inr e => reported hrtime runId t os e
          | inl s =>
              ESend (COMPLETE_WORKFLOW_RUN runId s (hrtime t)) ::
              match os with
              | inr cause :: os' => reported hrtime runId (S t) os' cause
              | _ => []
              end
          end
      end
  end.

(** What the chain leaves in the visible trace from its first send on,
    at clock [t] and with the sends settling as [os], up to and without
    what follows the settling of the promise of the run function. *)
Definition opening (hrtime : nat -> string) (runId : string) (t : nat)
    (os : list (Value + Value)) (eventData : Value) (called : Run) : list Event :=
  ESend (START_WORKFLOW_RUN runId (hrtime t)) ::
  match os with
  | [] => []
  | inr cause :: _ => [ESend (SEND_WORKFLOW_ERROR runId cause (hrtime (S t)))]
  | inl _ :: _ =>
      ERun eventData ::
      match called with
      | Thrown e => [ESend (SEND_WORKFLOW_ERROR runId e (hrtime (S t)))]
      | Promised _ => []
      end
  end.

(** The next send is not rejected. *)
Definition not_rejected (os : list (Value + Value)) : Prop :=
  match os with
  | inr _ :: _ => False
  | _ => True
  end.

(** The server sends nothing. *)
Definition silent (script : list EnvEvent) : Prop :=
  forall msg, ~ In (Inbound msg) script.

(** What [#send] leaves in the visible trace for the attempts that timed
    out with the errors [errs]. *)
Definition retry_visible (rpc : Rpc) (errs : list Value) : list Event :=
  flat_map
    (fun err =>
       [ESend rpc;
        ELog Log "RPC call timed out, retrying in 3s...";
        ELog Error (show err);
        ESleep retryIntervalMs])
    errs.

(** ** What a step does to the world *)

(** What a step leaves as it is and what it adds: the maps and the clock,
    the visible trace, the outcomes the script still holds, and, while the
    server sends nothing, the promises. *)
Definition frame (w w' : World) (delta : list Event) (ticks used : nat) : Prop :=
  client w' = client w
  /\ clock w' = (clock w + ticks)%nat
  /\ visible (trace w') = visible (trace w) ++ delta
  /\ outcomes (inbox w') = drop used (outcomes (inbox w))
  /\ (silent (inbox w) -> promises w' = promises w /\ silent (inbox w')).

(** What user code does: the operations of the context leave the RPC
    and the registration as they are and remove no entry; what they add
    to the visible trace is theirs, and while the server sends nothing
    they settle no promise. *)
Definition grows (w w' : World) : Prop :=
  serverRPC_initialized (client w') = serverRPC_initialized (client w)
  /\ registerResponse_url (client w') = registerResponse_url (client w)
  /\ (forall t key,
        is_Some (callbacks t (client w) !! key) ->
        is_Some (callbacks t (client w') !! key))
  /\ (exists delta, visible (trace w') = visible (trace w) ++ delta /\ quiet delta)
  /\ (silent (inbox w) ->
      silent (inbox w') /\ exists added, promises w' = promises w ++ added).

Definition growing {A} (m : M A) : Prop := forall w, grows w (snd (m w)).

(** ** The constructor and the metadata of the registration *)

(** A record as its entries, in the order of insertion: [o[k]],
    [o[k] = v] and [Object.fromEntries]. *)
Fixpoint assoc {A} (k : string) (entries : list (string * A)) : option A :=
  match entries with
  | [] => None
  | (k', v) :: rest => if String.eqb k k' then Some v else assoc k rest
  end.

Fixpoint set_entry {A} (k : string) (v : A) (o : list (string * A)) : list (string * A) :=
  match o with
  | [] => [(k, v)]
  | (k', v') :: rest =>
      if String.eqb k k' then (k, v) :: rest else (k', v') :: set_entry k v rest
  end.

Definition fromEntries {A} (entries : list (string * A)) : list (string * A) :=
  foldl (fun o kv => set_entry (fst kv) (snd kv) o) [] entries.

(** [s.slice(n)] *)
Fixpoint slice (n : nat) (s : string) : string :=
  match n, s with
  | O, _ => s
  | S n', String _ rest => slice n' rest
  | S _, EmptyString => EmptyString
  end.

(** [s.startsWith(prefix)] *)
Definition startsWith (s prefix : string) : bool := String.prefix prefix s.

(** [s.replace(pattern, replacement)] for a string pattern and a
    replacement without [$]: the first occurrence is replaced. *)
Fixpoint replace (pattern replacement s : string) : string :=
  if startsWith s pattern then replacement +:+ slice (String.length pattern) s
  else match s with
       | EmptyString => EmptyString
       | String c rest => String c (replace pattern replacement rest)
       end.

(** [Object.entries(process.env)]; the type of [process.env] lets a
    variable be there and undefined. *)
Definition ProcessEnv : Type := list (string * option string).

(** [`${value}`] *)
Definition template (value : option string) : string := default "undefined" value.

(** [env] is [process.env], an object: the guard [if (!env)] is never
    taken. *)
Definition gatherEnvVars (env : ProcessEnv) : list (string * string) :=
  fromEntries
    (List.map (fun kv => (replace "TRIGGER_" EmptyString (fst kv), template (snd kv)))
       (List.filter
          (fun kv => startsWith (fst kv) "TRIGGER_"
                     && negb (String.eqb (fst kv) "TRIGGER_API_KEY"))
          env)).


(** [packageJson.triggerdotdev]: reading a property of [null] or of
    [undefined] throws, no other value of a parsed manifest but an object
    has the property. *)
Definition triggerdotdev (packageJson : Value) : Value + Value :=
  match packageJson with
  | VUndefined | VNull =>
      inr (VError ErrorClass_Error "TypeError"
             "Cannot read properties of undefined (reading 'triggerdotdev')" None)
  | VObj fields => inl (default VUndefined (get "triggerdotdev" fields))
  | _ => inl VUndefined
  end.

(** The projection of the variables [npm_package_triggerdotdev_*]. *)
Definition npm_package_triggerdotdev (env : ProcessEnv) : Value :=
  VObj
    (List.map
       (fun kv => (fst kv, match snd kv with Some s => VStr s | None => VUndefined end))
       (fromEntries
          (List.map
             (fun kv => (replace "npm_package_triggerdotdev_" EmptyString (fst kv), snd kv))
             (List.filter (fun kv => startsWith (fst kv) "npm_package_triggerdotdev_")
                env)))).

(** [readPackageJson path] is [JSON.parse(await readFile(path, "utf8"))]. *)
Definition getTriggerPackageEnvVars (readPackageJson : string -> Res Value)
    (env : ProcessEnv) : Res Value :=
  match assoc "npm_package_json" env with
  | Some (Some (String c path)) =>
      match readPackageJson (String c path) with
      | Done packageJson =>
          match triggerdotdev packageJson with
          | inl section =>
              if truthy section then Done section
              else Done (npm_package_triggerdotdev env)
          | inr _ => Done (npm_package_triggerdotdev env)
          end
      | Raised _ => Done (npm_package_triggerdotdev env)
      | Blocked => Blocked
      end
  | _ => Done (npm_package_triggerdotdev env)
  end.

Module TriggerOptions.

(** The options the constructor reads. *)
Record t := {
  apiKey : option string;
  endpoint : option string }.

End TriggerOptions.

Definition invalidApiKey : Value :=
  VError ErrorClass_Error "Error"
    "Cannot connect to Trigger because of invalid API Key: Please include an API Key in the `apiKey` option or in the `TRIGGER_API_KEY` environment variable."
    None.

(** [a ?? b] *)
Definition nullish {A} (a b : option A) : option A :=
  match a with Some _ => a | None => b end.

(** The constructor: what it throws, or the private fields [#apiKey] and
    [#endpoint] it sets. *)
Definition constructor (options : TriggerOptions.t) (env : ProcessEnv)
  : Value + (string * string) :=
  let apiKey :=
    nullish (TriggerOptions.apiKey options) (mjoin (assoc "TRIGGER_API_KEY" env)) in
  match apiKey with
  | Some (String c k) =>
      inr (String c k,
           default "wss://wss.trigger.dev/ws"
             (nullish (TriggerOptions.endpoint options)
                (mjoin (assoc "TRIGGER_WSS_URL" env))))
  | _ => inl invalidApiKey
  end.


(** ** What the server's messages do to a call *)

Global Instance Table_eq_dec : EqDecision Table.
Proof. solve_decision. Defined.

(** What the handler of a message settles the promise of its entry with. *)
Definition settlement (msg : HostRPC.Msg) : Promise :=
  match msg with
  | HostRPC.RESOLVE_DELAY _ _ => Fulfilled RVoid
  | HostRPC.RESOLVE_RUN_ONCE _ _ output => Fulfilled (RRunOnce output)
  | HostRPC.RESOLVE_REQUEST _ _ output => Fulfilled (RAny output)
  | HostRPC.REJECT_REQUEST _ _ error => Rejected error
  | HostRPC.RESOLVE_FETCH_REQUEST _ _ output => Fulfilled (RFetch output)
  | HostRPC.REJECT_FETCH_REQUEST _ _ error => Rejected error
  | HostRPC.RESOLVE_KV_GET _ _ output => Fulfilled (RAny output)
  | HostRPC.RESOLVE_KV_SET _ _ => Fulfilled RVoid
  | HostRPC.RESOLVE_KV_DELETE _ _ => Fulfilled RVoid
  end.

(** A message for the entry of map [t] under [key]. *)
Definition addressed (t : Table) (key : string) (msg : HostRPC.Msg) : Prop :=
  table_of msg = t /\ key_of msg = key.

(** Every entry of the maps holds a promise that was created. *)
Definition allocated (w : World) : Prop :=
  forall t k p, callbacks t (client w) !! k = Some p ->
                (p < List.length (promises w))%nat.

Global Instance addressed_dec (t : Table) (key : string) (msg : HostRPC.Msg)
  : Decision (addressed t key msg).
Proof. unfold addressed. apply _. Defined.

(** The first message of the script for the entry of map [t] under [key]. *)
Fixpoint reply_to (t : Table) (key : string) (script : list EnvEvent)
  : option HostRPC.Msg :=
  match script with
  | [] => None
  | Inbound msg :: rest =>
      if decide (addressed t key msg) then Some msg else reply_to t key rest
  | SendSettled _ :: rest => reply_to t key rest
  end.

(** The state of the promise of that entry once the handlers of the
    script's messages have run, from the state [s]. *)
Fixpoint advance (t : Table) (key : string) (s : Promise) (script : list EnvEvent)
  : Promise :=
  match script with
  | [] => s
  | Inbound msg :: rest =>
      advance t key
        (match s with
         | Pending => if decide (addressed t key msg) then settlement msg else Pending
         | _ => s
         end) rest
  | SendSettled _ :: rest => advance t key s rest
  end.

(** How [await] ends on a promise in state [s]. *)
Definition awaited (s : Promise) : Res Reply :=
  match s with
  | Fulfilled r => Done r
  | Rejected e => Raised e
  | Pending => Blocked
  end.

(** The entry of map [t] under [key] is the only one that holds [p]. *)
Definition owns (t : Table) (key : string) (p : nat) (c : Client) : Prop :=
  callbacks t c !! key = Some p
  /\ forall t' k', callbacks t' c !! k' = Some p -> t' = t /\ k' = key.

(** No [:] in a string. *)
Fixpoint colon_free (s : string) : bool :=
  match s with
  | EmptyString => true
  | String c rest => negb (Ascii.eqb c ":"%char) && colon_free rest
  end.

(** The shape the journaled operations share: install the entry, send the
    intent, await the promise, go on with the reply. *)
Definition journal {A} (hrtime : nat -> string) (t : Table) (key : string)
    (intent : string -> Rpc) (k : Reply -> M A) : M A :=
  p <- new_promise t key;;
  timestamp <- highPrecisionTimestamp hrtime;;
  serverRPC_send (intent timestamp);;
  reply <- await p;;
  k reply.

(** ** [#initializeHost] *)

Module RepoInfo.

(** What git-repo-info reports, as far as the client reads it. *)
Record t := {
  sha : Value;
  branch : Value;
  committer : Value;
  committerDate : Value;
  commitMessage : Value;
  commonGitDir : string }.

End RepoInfo.

Module Host.

(** What [#initializeHost] reads of the client and of its package:
    whether [#connection] is set, [#apiKey], the trigger's id, name and
    [on.metadata], the version and the name in [package.json], and the
    option [triggerTTL]. *)
Record t := {
  connection : bool;
  apiKey : string;
  trigger_id : string;
  trigger_name : string;
  trigger_on_metadata : Value;
  pkg_version : string;
  pkg_name : string;
  options_triggerTTL : Value }.

End Host.

(** [new Error(message)] *)
Definition new_Error (message : string) : Value :=
  VError ErrorClass_Error "Error" message None.

(** [this.#registerResponse = data], of which the model keeps the url. *)
Definition set_registerResponse_url (url : string) : M unit :=
  fun w =>
    let c := client w in
    (Done tt,
     set_client
       {| serverRPC_initialized := serverRPC_initialized c;
          registerResponse_url := Some url;
          responseCompleteCallbacks := responseCompleteCallbacks c;
          waitForCallbacks := waitForCallbacks c; fetchCallbacks := fetchCallbacks c;
          runOnceCallbacks := runOnceCallbacks c; kvGetCallbacks := kvGetCallbacks c;
          kvSetCallbacks := kvSetCallbacks c;
          kvDeleteCallbacks := kvDeleteCallbacks c |}
       w).

(** [property === s] *)
Definition strict_equal (property : option Value) (s : string) : bool :=
  match property with
  | Some (VStr s') => String.eqb s' s
  | _ => false
  end.

(** The response of INITIALIZE_HOST_V2 has passed the schema of the RPC
    when [send] returns it: an error carries a string [message], a
    registration a [data] with a string [url]; the other cases do not
    arise. *)
Definition the_message (fields : list (string * Value)) : M string :=
  match get "message" fields with
  | Some (VStr message) => ret message
  | _ => raise typeError
  end.

Definition the_url (fields : list (string * Value)) : M string :=
  match get "data" fields with
  | Some (VObj data) =>
      match get "url" data with
      | Some (VStr url) => ret url
      | _ => raise typeError
      end
  | _ => raise typeError
  end.

Section InitializeHost.

(** What [safeGetRepoInfo()] and [getRemoteUrl(cwd)] resolve with (both
    catch what their package throws and resolve with [undefined]), the
    file system behind [readFile], [process.env], and the client. *)
Variable safeGetRepoInfo : option RepoInfo.t.
Variable getRemoteUrl : string -> Value.
Variable readPackageJson : string -> Res Value.
Variable env : ProcessEnv.
Variable this : Host.t.

Definition git (repoInfo : option RepoInfo.t) (remoteUrl : Value) : Value :=
  match repoInfo with
  | Some info =>
      VObj [("sha", RepoInfo.sha info);
            ("branch", RepoInfo.branch info);
            ("committer", RepoInfo.committer info);
            ("committerDate", RepoInfo.committerDate info);
            ("commitMessage", RepoInfo.commitMessage info);
            ("origin", remoteUrl)]
  | None => VUndefined
  end.

Definition initializeHost_request (repoInfo : option RepoInfo.t) (remoteUrl : Value)
    (packageMetadata : Value) : Value :=
  VObj [("apiKey", VStr (Host.apiKey this));
        ("workflowId", VStr (Host.trigger_id this));
        ("workflowName", VStr (Host.trigger_name this));
        ("trigger", Host.trigger_on_metadata this);
        ("packageVersion", VStr (Host.pkg_version this));
        ("packageName", VStr (Host.pkg_name this));
        ("triggerTTL", Host.options_triggerTTL this);
        ("metadata",
         VObj [("git", git repoInfo remoteUrl);
               ("packageMetadata", packageMetadata);
               ("env",
                VObj (List.map (fun kv => (fst kv, VStr (snd kv))) (gatherEnvVars env)))])].

(** [await this.#send("INITIALIZE_HOST_V2", ..)] with the fuel of the
    retry loop.  The response has passed the schema of the RPC: when
    there is one it is an object. *)
Definition initializeHost (fuel : nat) : M unit :=
  if negb (Host.connection this)
  then raise (new_Error "Cannot initialize host without a connection")
  else
    self <- this_client;;
    if negb (serverRPC_initialized self)
    then raise (new_Error "Cannot initialize host without an RPC connection")
    else
      let repoInfo := safeGetRepoInfo in
      let remoteUrl :=
        match repoInfo with
        | Some info => getRemoteUrl (RepoInfo.commonGitDir info)
        | None => VUndefined
        end in
      packageMetadata <- settle (getTriggerPackageEnvVars readPackageJson env);;
      response <- send fuel
                    (INITIALIZE_HOST_V2
                       (initializeHost_request repoInfo remoteUrl packageMetadata));;
      if negb (truthy response)
      then raise (new_Error "Could not initialize workflow with server")
      else
        match response with
        | VObj fields =>
            if strict_equal (get "type" fields) "error"
            then
              message <- the_message fields;;
              raise (new_Error message)
            else
              url <- the_url fields;;
              set_registerResponse_url url;;
              logger Debug "Successfully initialized workflow with server"
        | _ => raise typeError
        end.

(** The request [#initializeHost] sends. *)
Definition registration (packageMetadata : Value) : Rpc :=
  INITIALIZE_HOST_V2
    (initializeHost_request safeGetRepoInfo
       match safeGetRepoInfo with
       | Some info => getRemoteUrl (RepoInfo.commonGitDir info)
       | None => VUndefined
       end
       packageMetadata).

End InitializeHost.

(** What [#initializeHost] does with the response. *)
Definition register (response : Value) : M unit :=
  if negb (truthy response)
  then raise (new_Error "Could not initialize workflow with server")
  else
    match response with
    | VObj fields =>
        if strict_equal (get "type" fields) "error"
        then
          message <- the_message fields;;
          raise (new_Error message)
        else
          url <- the_url fields;;
          set_registerResponse_url url;;
          logger Debug "Successfully initialized workflow with server"
    | _ => raise typeError
    end.

(** ** Fixtures: a client, its collaborators, and scripts of the server *)

Module Demo.

(** A client that is registered, and one whose RPC is set up and that
    has no answer to INITIALIZE_HOST_V2 yet. *)
Definition client0 : Client :=
  {| serverRPC_initialized := true;
     registerResponse_url := Some "https://x/";
     responseCompleteCallbacks := ∅; waitForCallbacks := ∅; fetchCallbacks := ∅;
     runOnceCallbacks := ∅; kvGetCallbacks := ∅; kvSetCallbacks := ∅;
     kvDeleteCallbacks := ∅ |}.

Definition unregistered : Client :=
  {| serverRPC_initialized := true;
     registerResponse_url := None;
     responseCompleteCallbacks := ∅; waitForCallbacks := ∅; fetchCallbacks := ∅;
     runOnceCallbacks := ∅; kvGetCallbacks := ∅; kvSetCallbacks := ∅;
     kvDeleteCallbacks := ∅ |}.

Definition world0 (script : list EnvEvent) : World :=
  {| client := client0; promises := []; trace := []; inbox := script; clock := 0 |}.

Definition world_unregistered (script : list EnvEvent) : World :=
  {| client := unregistered; promises := []; trace := []; inbox := script; clock := 0 |}.

(** The characters a JSON string escapes. *)
Definition dquote : string := String (ascii_of_nat 34) EmptyString.
Definition backslash : string := String (ascii_of_nat 92) EmptyString.

Definition hexdigit (n : nat) : ascii :=
  ascii_of_nat (if (n <? 10)%nat then 48 + n else 87 + n).

Definition escape_char (c : ascii) : string :=
  let n := nat_of_ascii c in
  if (n =? 34)%nat then backslash +:+ dquote
  else if (n =? 92)%nat then backslash +:+ backslash
  else if (n =? 8)%nat then backslash +:+ "b"
  else if (n =? 9)%nat then backslash +:+ "t"
  else if (n =? 10)%nat then backslash +:+ "n"
  else if (n =? 12)%nat then backslash +:+ "f"
  else if (n =? 13)%nat then backslash +:+ "r"
  else if (n <? 32)%nat then
    backslash +:+ "u00" +:+ String (hexdigit (n / 16)) (String (hexdigit (n mod 16)) EmptyString)
  else String c EmptyString.

Fixpoint escape (s : string) : string :=
  match s with
  | EmptyString => EmptyString
  | String c rest => escape_char c +:+ escape rest
  end.

Definition quote (s : string) : string := dquote +:+ escape s +:+ dquote.

(** What [JSON.stringify] throws on a BigInt. *)
Definition cannot_serialize : Value :=
  VError ErrorClass_Error "TypeError" "Do not know how to serialize a BigInt" None.

(** [JSON.stringify] on the values of the scenarios: safe integers,
    strings, arrays, and objects none of whose keys is an array index.
    [None] is the result [undefined]; in an array [undefined] is written
    [null], in an object its property is left out; an [Error] has no
    enumerable own property; a BigInt, at any depth, makes it throw. *)

Fixpoint JSON_stringify (v : Value) : option string + Value :=
  match v with
  | VUndefined => inl None
  | VNull => inl (Some "null")
  | VBool true => inl (Some "true")
  | VBool false => inl (Some "false")
  | VNum n => inl (Some (pretty n))
  | VBigInt _ => inr cannot_serialize
  | VStr s => inl (Some (quote s))
  | VArr items =>
      match (fix elements (xs : list Value) : list string + Value :=
               match xs with
               | [] => inl []
               | x :: rest =>
                   match JSON_stringify x with
                   | inr e => inr e
                   | inl o =>
                       match elements rest with
                       | inr e => inr e
                       | inl ss => inl (default "null" o :: ss)
                       end
                   end
               end) items with
      | inr e => inr e
      | inl ss => inl (Some ("[" +:+ join "," ss +:+ "]"))
      end
  | VObj fields =>
      match (fix members (fs : list (string * Value)) : list string + Value :=
               match fs with
               | [] => inl []
               | (k, x) :: rest =>
                   match JSON_stringify x with
                   | inr e => inr e
                   | inl o =>
                       match members rest with
                       | inr e => inr e
                       | inl ss =>
                           inl (match o with
                                | Some s => (quote k +:+ ":" +:+ s) :: ss
                                | None => ss
                                end)
                       end
                   end
               end) fields with
      | inr e => inr e
      | inl ss => inl (Some ("{" +:+ join "," ss +:+ "}"))
      end
  | VError _ _ _ _ => inl (Some "{}")
  end.


Definition hrtime (n : nat) : string := pretty n.

(** The fallback of terminal-link. *)
Definition terminalLink (text url : string) : string := text +:+ ": (" +:+ url +:+ ")".

Definition generateErrorMessage (issues : list z.ZodIssue) (delimiter : string) : string :=
  join delimiter (List.map z.message issues).

(** The event schema [z.object({ n: z.number() })]. *)
Definition schema (v : Value) : z.SafeParse :=
  match v with
  | VObj fields =>
      match get "n" fields with
      | Some (VNum n) => z.success (VObj [("n", VNum n)])
      | _ => z.failure [ {| z.code := "invalid_type"; z.path := ["n"];
                            z.message := "Expected number" |} ]
      end
  | _ => z.failure [ {| z.code := "invalid_type"; z.path := [];
                        z.message := "Expected object" |} ]
  end.

(** The schema [z.string()]. *)
Definition z_string : z.ZodType :=
  fun v =>
    match v with
    | VStr _ => inl v
    | _ => inr (VError ErrorClass_ZodError "ZodError" "Expected string" None)
    end.

Definition trigger (input : Value) (attempt : option Z) : HostRPC.TriggerWorkflow :=
  {| HostRPC.id := "r1";
     HostRPC.trigger_input := input;
     HostRPC.meta :=
       {| HostRPC.environment := "e"; HostRPC.workflowId := "w1";
          HostRPC.organizationId := "o"; HostRPC.apiKey := "k";
          HostRPC.isTest := false; HostRPC.appOrigin := "https://x";
          HostRPC.attempt := attempt |} |}.

(** Run functions: [async () => ({ ok: true })], [async () => { throw "boom" }],
    [() => { throw "boom" }], [async () => 1n]. *)
Definition returns_ok : Program := Return (VObj [("ok", VBool true)]).
Definition throws_boom : Program := Throw (VStr "boom").
Definition returns_bigint : Program := Return (VBigInt 1).

Definition run_ok (eventData : Value) : Run := Promised returns_ok.
Definition run_throws (eventData : Value) : Run := Promised throws_boom.
Definition run_throws_at_once (eventData : Value) : Run := Thrown (VStr "boom").
Definition run_bigint (eventData : Value) : Run := Promised returns_bigint.

(** The output of [run_ok], serialized. *)
Definition ok_true : string := "{" +:+ dquote +:+ "ok" +:+ dquote +:+ ":true}".

Definition timeoutError : Value :=
  VError ErrorClass_TimeoutError "TimeoutError" "Request timed out" None.

Definition ack : EnvEvent := SendSettled (inl VUndefined).
Definition timeout : EnvEvent := SendSettled (inr timeoutError).

Definition seconds5 : Types.WaitForOptions :=
  {| Types.seconds := Some 5; Types.minutes := None;
     Types.hours := None; Types.days := None |}.

Definition get_options (responseSchema : option z.ZodType) : Types.FetchOptions :=
  {| Types.method := None; Types.headers := VUndefined; Types.body := VUndefined;
     Types.retry := VUndefined; Types.responseSchema := responseSchema |}.

Definition response (body : Value) : HostRPC.FetchOutput :=
  {| HostRPC.status := 200; HostRPC.ok := true;
     HostRPC.headers := VObj []; HostRPC.body := body |}.

Definition callback (r : Value) (idempotencyKey : string) : Res Value := Done r.
Definition callback_throws (idempotencyKey : string) : Res Value := Raised (VStr "boom").

Definition input_ok : Value := VObj [("n", VNum 1)].
Definition input_bad : Value := VObj [("n", VStr "x")].

Definition cache_hit : HostRPC.RunOnceOutput :=
  {| HostRPC.idempotencyKey := "i"; HostRPC.hasRun := true;
     HostRPC.output := VObj [("v", VNum 42)] |}.

Definition cache_miss : HostRPC.RunOnceOutput :=
  {| HostRPC.idempotencyKey := "i"; HostRPC.hasRun := false;
     HostRPC.output := VUndefined |}.

(** The handler of TRIGGER_WORKFLOW of a client with run function [run]. *)
Definition handler (run : Value -> Run) (input : Value) (attempt : option Z)
  : M bool :=
  TRIGGER_WORKFLOW hrtime JSON_stringify terminalLink generateErrorMessage schema run
    (trigger input attempt).

(** The context of run r1. *)
Definition r1 : HostRPC.TriggerWorkflow := trigger input_ok (Some 0).

(** The environment of the process, the client, and what the file
    system and git answer. *)
Definition env : ProcessEnv :=
  [("HOME", Some "/root");
   ("TRIGGER_API_KEY", Some "k");
   ("TRIGGER_WSS_URL", Some "wss://x");
   ("npm_package_triggerdotdev_region", Some "eu")].

Definition host : Host.t :=
  {| Host.connection := true;
     Host.apiKey := "k";
     Host.trigger_id := "w1";
     Host.trigger_name := "demo";
     Host.trigger_on_metadata := VObj [("type", VStr "CUSTOM_EVENT")];
     Host.pkg_version := "0.1.0";
     Host.pkg_name := "@trigger.dev/sdk";
     Host.options_triggerTTL := VUndefined |}.

Definition no_remote (cwd : string) : Value := VUndefined.

Definition no_manifest (path : string) : Res Value :=
  Raised (VError ErrorClass_Error "Error" "ENOENT" None).

(** A run function whose promise is pending, and
    [async (event, ctx) => { await ctx.waitFor("d1", { seconds: 5 }); return { ok: true } }]. *)
Definition run_pending (eventData : Value) : Run := Promised Hang.

Definition waits : Program :=
  Call (JwaitFor "d1" seconds5)
    (fun returned =>
       match returned with
       | inl _ => Return (VObj [("ok", VBool true)])
       | inr e => Throw e
       end).

Definition run_waits (eventData : Value) : Run := Promised waits.

(** The handler of a valid event of run r1 up to the moment the promise
    [body] settles. *)
Definition settled (body : Program) (attempt : option Z) : M Value :=
  run_settled hrtime JSON_stringify terminalLink (trigger input_ok attempt) input_ok body.

Definition registered (url : string) : Value :=
  VObj [("type", VStr "success");
        ("data", VObj [("isNew", VBool false); ("url", VStr url)])].

Definition refused (message : string) : Value :=
  VObj [("type", VStr "error"); ("message", VStr message)].

Definition request_options (schema : option z.ZodType) : Types.PerformRequestOptions :=
  {| Types.service := "github"; Types.endpoint := "getRepo";
     Types.params := VObj []; Types.version := None;
     Types.response_schema := schema |}.

Definition kv_op : Types.KvOperation :=
  {| Types.idempotencyKey := "k"; Types.namespace := "ns"; Types.key := "color";
     Types.value := VStr "red" |}.

(** A client with one call in flight, and scripts of the server. *)
Definition awaiting (t : Table) (key : string) : World :=
  snd (new_promise t key (world0 [])).

Definition replied (msg : HostRPC.Msg) : World := world0 [ack; Inbound msg].

Definition other_replies : World :=
  world0 [ack; Inbound (HostRPC.RESOLVE_DELAY "r1" "d2");
          Inbound (HostRPC.RESOLVE_KV_SET "r1" "d1")].

Definition request_resolved : HostRPC.Msg := HostRPC.RESOLVE_REQUEST "r1" "q" (VNum 0).
Definition fetch_rejected : HostRPC.Msg :=
  HostRPC.REJECT_FETCH_REQUEST "r1" "f" (VStr "unreachable").
Definition once_resolved : HostRPC.Msg := HostRPC.RESOLVE_RUN_ONCE "r1" "k" cache_hit.
Definition delay_resolved : HostRPC.Msg := HostRPC.RESOLVE_DELAY "r1" "d1".
Definition get_resolved : HostRPC.Msg := HostRPC.RESOLVE_KV_GET "r1" "k" (VStr "red").

End Demo.

(** ** Basic facts *)

Lemma visible_app (tr1 tr2 : list Event) :
  visible (tr1 ++ tr2) = visible tr1 ++ visible tr2.
Proof. unfold visible. apply List.filter_app. Qed.

Lemma sends_app (tr1 tr2 : list Event) : sends (tr1 ++ tr2) = sends tr1 ++ sends tr2.
Proof.
  induction tr1 as [|e tr1 IH]; [reflexivity|].
  destruct e; simpl; rewrite IH; reflexivity.
Qed.

Lemma sends_visible (tr : list Event) : sends (visible tr) = sends tr.
Proof.
  induction tr as [|e tr IH]; [reflexivity|].
  destruct e as [| | [] | | |]; simpl; rewrite ?IH; reflexivity.
Qed.

Lemma terminals_visible (tr tr0 delta : list Event) :
  visible tr = visible tr0 ++ delta ->
  terminals tr = terminals tr0 ++ List.filter terminal (sends delta).
Proof.
  intros H. unfold terminals.
  rewrite <- (sends_visible tr), H, sends_app, sends_visible.
  apply List.filter_app.
Qed.

(** Handlers touch neither the maps nor the clock, and all they print is
    printed by [logger.debug]. *)
Lemma handle_frame (msg : HostRPC.Msg) (w : World) :
  client (snd (handle msg w)) = client w
  /\ clock (snd (handle msg w)) = clock w
  /\ visible (trace (snd (handle msg w))) = visible (trace w)
  /\ inbox (snd (handle msg w)) = inbox w.
Proof.
  destruct msg; cbn [handle];
    unfold handlers.RESOLVE_DELAY, handlers.RESOLVE_RUN_ONCE, handlers.RESOLVE_REQUEST,
      handlers.REJECT_REQUEST, handlers.RESOLVE_FETCH_REQUEST,
      handlers.REJECT_FETCH_REQUEST, handlers.RESOLVE_KV_GET, handlers.RESOLVE_KV_SET,
      handlers.RESOLVE_KV_DELETE, bind, logger, emit, get_callbacks, resolve, reject,
      settle_promise, ret; cbn;
    match goal with
    | |- context [ ?m !! ?k ] => destruct (m !! k) as [p|]; cbn
    end;
    try match goal with
    | |- context [ ?ps !! ?p ] => destruct (ps !! p) as [[]|]; cbn
    end;
    rewrite ?visible_app, ?app_nil_r; cbn; rewrite ?app_nil_r; auto.
Qed.

Lemma silent_tail (ev : EnvEvent) (script : list EnvEvent) :
  silent (ev :: script) -> silent script.
Proof. intros H msg Hin. apply (H msg). right. exact Hin. Qed.

Lemma await_send_frame (script : list EnvEvent) (w : World) :
  fst (await_send script w) = send_result (outcomes script)
  /\ client (snd (await_send script w)) = client w
  /\ clock (snd (await_send script w)) = clock w
  /\ visible (trace (snd (await_send script w))) = visible (trace w)
  /\ outcomes (inbox (snd (await_send script w))) = tl (outcomes script)
  /\ (silent script ->
      promises (snd (await_send script w)) = promises w
      /\ silent (inbox (snd (await_send script w)))).
Proof.
  revert w. induction script as [|ev script IH]; intros w.
  - cbn. split_and!; auto.
  - destruct ev as [msg|[response|err]]; cbn;
      try (split_and!; auto; intros Hs; split; [reflexivity|];
           eapply silent_tail; exact Hs).
    destruct (handle_frame msg w) as (Hc & Hk & Hv & _).
    destruct (IH (snd (handle msg w))) as (H1 & H2 & H3 & H4 & H5 & _).
    rewrite H1, H2, H3, H4, H5, Hc, Hk, Hv. split_and!; auto.
    intros Hs. exfalso. apply (Hs msg). left. reflexivity.
Qed.

Lemma serverRPC_send_frame (rpc : Rpc) (w : World) :
  fst (serverRPC_send rpc w) = send_result (outcomes (inbox w))
  /\ frame w (snd (serverRPC_send rpc w)) [ESend rpc] 0 1.
Proof.
  unfold serverRPC_send, frame.
  destruct (await_send_frame (inbox w) (set_trace (trace w ++ [ESend rpc]) w))
    as (H1 & H2 & H3 & H4 & H5 & H6).
  rewrite H1, H2, H3, H4, H5. cbn. rewrite visible_app. cbn.
  split_and!; auto.
Qed.

Lemma await_promise_frame (p : nat) (script : list EnvEvent) (w : World) :
  client (snd (await_promise p script w)) = client w
  /\ clock (snd (await_promise p script w)) = clock w
  /\ visible (trace (snd (await_promise p script w))) = visible (trace w).
Proof.
  revert w. induction script as [|ev script IH]; intros w.
  - cbn. destruct (promises w !! p) as [[]|]; cbn; auto.
  - cbn. destruct (promises w !! p) as [[]|]; cbn; auto;
      destruct ev as [msg|o]; auto;
      destruct (handle_frame msg w) as (Hc & Hk & Hv & _);
      destruct (IH (snd (handle msg w))) as (H2 & H3 & H4);
      rewrite H2, H3, H4, Hc, Hk, Hv; split_and!; auto.
Qed.

Lemma await_frame (p : nat) (w : World) :
  client (snd (await p w)) = client w
  /\ clock (snd (await p w)) = clock w
  /\ visible (trace (snd (await p w))) = visible (trace w).
Proof. apply await_promise_frame. Qed.

Lemma deliver_client (msgs : list HostRPC.Msg) (w : World) :
  client (deliver msgs w) = client w.
Proof.
  revert w. induction msgs as [|msg msgs IH]; intros w; [reflexivity|].
  change (client (deliver msgs (snd (handle msg w))) = client w).
  rewrite IH. apply handle_frame.
Qed.

Lemma callbacks_set_same (t : Table) (key : string) (p : nat) (c : Client) :
  callbacks t (callbacks_set t key p c) !! key = Some p.
Proof. destruct t; cbn; apply lookup_insert_eq. Qed.

Lemma callbacks_set_lookup (t t' : Table) (key k' : string) (p : nat) (c : Client) :
  callbacks t' (callbacks_set t key p c) !! k'
  = if decide (t' = t /\ k' = key) then Some p else callbacks t' c !! k'.
Proof.
  case_decide as H.
  - destruct H as [-> ->]. apply callbacks_set_same.
  - destruct t, t'; cbn; try reflexivity;
      (rewrite lookup_insert_ne; [reflexivity|]); intros E; apply H; auto.
Qed.

Lemma callbacks_set_is_Some (t t' : Table) (key key' : string) (p : nat) (c : Client) :
  is_Some (callbacks t c !! key) ->
  is_Some (callbacks t (callbacks_set t' key' p c) !! key).
Proof.
  intros H. destruct t, t'; cbn in *; try exact H;
    rewrite lookup_insert; case_decide; eauto.
Qed.

(** ** Tactics for stepping through a computation *)

Ltac norm :=
  cbn [client clock trace inbox promises set_client set_clock set_trace set_inbox
       set_promises fst snd] in *;
  rewrite ?visible_app, ?Nat.add_0_r in *;
  cbn [visible List.filter is_debug negb drop send_result] in *.

Ltac use_outcomes :=
  repeat match goal with
         | H : outcomes (inbox ?w) = _ |- context [outcomes (inbox ?w)] => rewrite H
         end;
  cbn [send_result drop fst snd].

Ltac send_step :=
  use_outcomes;
  match goal with
  | |- context [serverRPC_send ?rpc ?w] =>
      let Hr := fresh "Hr" in
      let Hf := fresh "Hf" in
      let r := fresh "r" in
      let w' := fresh "w" in
      destruct (serverRPC_send_frame rpc w) as (Hr & Hf);
      destruct (serverRPC_send rpc w) as [r w'];
      cbn [fst snd] in Hr, Hf; subst r;
      destruct Hf as (? & ? & ? & ? & ?); norm
  end.

Ltac frame_facts :=
  norm; use_outcomes; cbn [reported]; norm;
  repeat match goal with
         | H : client ?w = _ |- _ => try rewrite H in *; clear H
         | H : clock ?w = _ |- _ => try rewrite H in *; clear H
         | H : visible (trace ?w) = _ |- _ => try rewrite H in *; clear H
         end;
  norm; rewrite <- ?app_assoc; cbn [app].

Ltac await_step :=
  match goal with
  | |- context [await ?p ?w] =>
      let r := fresh "reply" in
      let w' := fresh "w" in
      destruct (await_frame p w) as (? & ? & ?);
      destruct (await p w) as [[r| |] w']; norm
  end.

Ltac leaf := frame_facts; split; [reflexivity|eexists; reflexivity].

Ltac silent_chain :=
  let Hs := fresh "Hs" in
  intros Hs;
  repeat match goal with
         | H : silent (inbox ?w) -> _, Hs' : silent (inbox ?w) |- _ =>
             destruct (H Hs') as [? ?]; clear H
         end;
  congruence.

(** ** What user code does to the world *)

Lemma quiet_app (delta1 delta2 : list Event) :
  quiet delta1 -> quiet delta2 -> quiet (delta1 ++ delta2).
Proof. apply Forall_app_2. Qed.

Lemma quiet_terminals (delta : list Event) :
  quiet delta -> List.filter terminal (sends delta) = [].
Proof.
  induction 1 as [|e delta He _ IH]; [reflexivity|].
  destruct e as [|rpc| | | |]; cbn in *; try exact IH; try discriminate He.
  destruct rpc; cbn in *; try discriminate He; exact IH.
Qed.

Lemma quiet_In (delta : list Event) (e : Event) :
  quiet delta -> In e delta -> of_context e = true.
Proof. intros Hq Hin. exact (proj1 (List.Forall_forall _ _) Hq e Hin). Qed.

Lemma grows_refl (w : World) : grows w w.
Proof.
  split_and!; auto.
  - exists []. split; [symmetry; apply app_nil_r|constructor].
  - intros Hs. split; [exact Hs|]. exists []. symmetry. apply app_nil_r.
Qed.

Lemma grows_trans (w1 w2 w3 : World) : grows w1 w2 -> grows w2 w3 -> grows w1 w3.
Proof.
  intros (Hi1 & Hu1 & He1 & (d1 & Hv1 & Hq1) & Hs1) (Hi2 & Hu2 & He2 & (d2 & Hv2 & Hq2) & Hs2).
  split_and!.
  - congruence.
  - congruence.
  - auto.
  - exists (d1 ++ d2). split; [|apply quiet_app; assumption].
    rewrite Hv2, Hv1, app_assoc. reflexivity.
  - intros Hs. destruct (Hs1 Hs) as (Hs' & a1 & Hp1).
    destruct (Hs2 Hs') as (Hs'' & a2 & Hp2).
    split; [exact Hs''|]. exists (a1 ++ a2). rewrite Hp2, Hp1, app_assoc. reflexivity.
Qed.

Lemma frame_grows (w w' : World) (delta : list Event) (ticks used : nat) :
  frame w w' delta ticks used -> quiet delta -> grows w w'.
Proof.
  intros (Hc & _ & Hv & _ & Hs) Hq. unfold grows. rewrite Hc.
  split_and!; auto.
  - exists delta. auto.
  - intros H. destruct (Hs H) as [Hp H']. split; [exact H'|].
    exists []. rewrite Hp. symmetry. apply app_nil_r.
Qed.

Lemma await_promise_silent (p : nat) (script : list EnvEvent) (w : World) :
  silent script ->
  promises (snd (await_promise p script w)) = promises w
  /\ silent (inbox (snd (await_promise p script w))).
Proof.
  revert w. induction script as [|ev script IH]; intros w Hs.
  - cbn. destruct (promises w !! p) as [[]|]; cbn; auto.
  - cbn. destruct (promises w !! p) as [[]|]; cbn; auto;
      (destruct ev as [msg|o];
       [exfalso; apply (Hs msg); left; reflexivity
       |apply IH; eapply silent_tail; exact Hs]).
Qed.

Lemma growing_ret {A} (a : A) : growing (ret a).
Proof. intros w. apply grows_refl. Qed.

Lemma growing_raise {A} (e : Value) : growing (@raise A e).
Proof. intros w. apply grows_refl. Qed.

Lemma growing_settle {A} (r : Res A) : growing (settle r).
Proof. intros w. apply grows_refl. Qed.

Lemma growing_bind {A B} (m : M A) (k : A -> M B) :
  growing m -> (forall a, growing (k a)) -> growing (bind m k).
Proof.
  intros Hm Hk w. unfold bind. specialize (Hm w).
  destruct (m w) as [[a|e|] w1]; cbn [snd] in *; [|exact Hm..].
  eapply grows_trans; [exact Hm|apply Hk].
Qed.

Lemma growing_emit (e : Event) : of_context e = true -> growing (emit e).
Proof.
  intros He w. unfold emit. cbn [snd].
  apply (frame_grows _ _ [e] 0 0); [|repeat constructor; exact He].
  unfold frame. norm.
  destruct e as [| |[]| | |]; try discriminate He; cbn; split_and!; auto.
Qed.

Lemma growing_highPrecisionTimestamp (hrtime : nat -> string) :
  growing (highPrecisionTimestamp hrtime).
Proof.
  intros w. unfold highPrecisionTimestamp. cbn [snd].
  apply (frame_grows _ _ [] 1 0); [|constructor].
  unfold frame. norm. rewrite app_nil_r. split_and!; auto; lia.
Qed.

Lemma growing_serverRPC_send (rpc : Rpc) :
  of_context (ESend rpc) = true -> growing (serverRPC_send rpc).
Proof.
  intros He w. destruct (serverRPC_send_frame rpc w) as [_ Hf].
  eapply frame_grows; [exact Hf|]. repeat constructor. exact He.
Qed.

Lemma growing_new_promise (t : Table) (key : string) : growing (new_promise t key).
Proof.
  intros w. unfold new_promise, grows. norm.
  split_and!.
  - destruct t; reflexivity.
  - destruct t; reflexivity.
  - intros t' key'. apply callbacks_set_is_Some.
  - exists [ESet t key]. split; [reflexivity|]. repeat constructor.
  - intros Hs. split; [exact Hs|]. eexists. reflexivity.
Qed.

Lemma growing_await (p : nat) : growing (await p).
Proof.
  intros w. destruct (await_frame p w) as (Hc & _ & Hv).
  unfold grows. rewrite Hc, Hv. split_and!; auto.
  - exists []. split; [symmetry; apply app_nil_r|constructor].
  - intros Hs. destruct (await_promise_silent p (inbox w) w Hs) as [Hp Hs'].
    split; [exact Hs'|]. exists []. unfold await. rewrite Hp. symmetry. apply app_nil_r.
Qed.

Lemma growing_the_value (r : Reply) : growing (the_value r).
Proof. destruct r; intros w; apply grows_refl. Qed.

Lemma growing_the_FetchOutput (r : Reply) : growing (the_FetchOutput r).
Proof. destruct r; intros w; apply grows_refl. Qed.

Lemma growing_the_RunOnceOutput (r : Reply) : growing (the_RunOnceOutput r).
Proof. destruct r; intros w; apply grows_refl. Qed.

Lemma growing_parse (schema : z.ZodType) (v : Value) : growing (z.parse schema v).
Proof. intros w. unfold z.parse. destruct (schema v); apply grows_refl. Qed.

Lemma growing_stringify (JSON_stringify : Value -> option string + Value) (v : Value) :
  growing (stringify JSON_stringify v).
Proof. intros w. unfold stringify. destruct (JSON_stringify v); apply grows_refl. Qed.

Lemma growing_call (callback : string -> Res Value) (idempotencyKey : string) :
  growing (call callback idempotencyKey).
Proof.
  apply growing_bind; [apply growing_emit; reflexivity|].
  intros _. apply growing_settle.
Qed.

Create HintDb growing.

#[global] Hint Resolve growing_ret growing_raise growing_settle growing_new_promise
  growing_highPrecisionTimestamp growing_await growing_the_value growing_the_FetchOutput
  growing_the_RunOnceOutput growing_parse growing_stringify growing_call : growing.

Ltac growing_steps :=
  repeat first
    [ apply growing_bind; [|intros ?]
    | apply growing_serverRPC_send; reflexivity
    | apply growing_emit; reflexivity
    | solve [auto with growing]
    | match goal with
      | |- growing (if ?b then _ else _) => destruct b
      | |- growing (match ?o with Some _ => _ | None => _ end) => destruct o
      end ].

Lemma invoke_growing (hrtime : nat -> string)
    (JSON_stringify : Value -> option string + Value) (data : HostRPC.TriggerWorkflow)
    (j : Journaled) :
  growing (invoke hrtime JSON_stringify data j).
Proof.
  destruct j; cbn [invoke];
    unfold fetchFunction, waitFor, waitUntil, runOnce, runOnceLocalOnly, performRequest,
      kvGetFunction, kvSetFunction, kvDeleteFunction;
    growing_steps.
Qed.

Lemma execute_growing (hrtime : nat -> string)
    (JSON_stringify : Value -> option string + Value) (data : HostRPC.TriggerWorkflow)
    (body : Program) :
  growing (execute hrtime JSON_stringify data body).
Proof.
  induction body as [output|e| |j k IH]; cbn [execute]; try (intros w; apply grows_refl).
  intros w. pose proof (invoke_growing hrtime JSON_stringify data j w) as Hg.
  destruct (invoke hrtime JSON_stringify data j w) as [[returned|e|] w1]; cbn [snd] in *;
    [| |exact Hg]; (eapply grows_trans; [exact Hg|apply IH]).
Qed.

(** ** The handlers *)

(** Claim C7.  A RESOLVE_* or REJECT_* message whose key has no entry in
    the map of its kind is acknowledged with [true]: the handler prints
    two lines with [logger.debug], throws nothing, and leaves the maps and
    the promises as they are. *)
Theorem unknown_key_is_acknowledged (msg : HostRPC.Msg) (w : World) :
  callbacks (table_of msg) (client w) !! key_of msg = None ->
  exists line1 line2,
    handle msg w
    = (Done true, set_trace (trace w ++ [ELog Debug line1; ELog Debug line2]) w).
Proof.
  intros H.
  destruct msg; cbn [table_of key_of callbacks handle] in *;
    unfold handlers.RESOLVE_DELAY, handlers.RESOLVE_RUN_ONCE, handlers.RESOLVE_REQUEST,
      handlers.REJECT_REQUEST, handlers.RESOLVE_FETCH_REQUEST,
      handlers.REJECT_FETCH_REQUEST, handlers.RESOLVE_KV_GET, handlers.RESOLVE_KV_SET,
      handlers.RESOLVE_KV_DELETE, bind, logger, emit, get_callbacks, ret;
    cbn; rewrite H; cbn; unfold set_trace; cbn; rewrite <- app_assoc;
    eexists _, _; reflexivity.
Qed.

(** ** Error normalization *)




Section Properties.

Variable hrtime : nat -> string.
Variable JSON_stringify : Value -> option string + Value.
Variable terminalLink : string -> string -> string.
Variable generateErrorMessage : list z.ZodIssue -> string -> string.
Variable on_schema_safeParse : Value -> z.SafeParse.
Variable run : Value -> Run.
Variable data : HostRPC.TriggerWorkflow.

Lemma append_inv_head (s a b : string) : s +:+ a = s +:+ b -> a = b.
Proof. induction s as [|c s IH]; cbn; [auto|]. intros [= H]. auto. Qed.

Lemma started_not_complete (url url' runId : string) :
  run_started terminalLink url runId <> run_complete terminalLink url' runId.
Proof.
  unfold run_started, run_complete. intros H.
  apply (append_inv_head "Run ") in H. apply append_inv_head in H.
  cbn in H. discriminate H.
Qed.

Ltac finish :=
  frame_facts; rewrite ?app_nil_r; split_and!; auto; try silent_chain.

(** On attempt 0 the handler of a client that is not registered throws
    where it builds the line [Run <id> started]: nothing is sent. *)
Lemma TRIGGER_WORKFLOW_unregistered (eventData : Value) (w : World) :
  on_schema_safeParse (HostRPC.trigger_input data) = z.success eventData ->
  registerResponse_url (client w) = None ->
  HostRPC.attempt (HostRPC.meta data) = Some 0 ->
  let rw := TRIGGER_WORKFLOW hrtime JSON_stringify terminalLink generateErrorMessage
              on_schema_safeParse run data w in
  fst rw = Raised cannot_read_url
  /\ client (snd rw) = client w
  /\ visible (trace (snd rw)) = visible (trace w)
  /\ promises (snd rw) = promises w
  /\ inbox (snd rw) = inbox w.
Proof.
  intros Hs Hu Ha. unfold TRIGGER_WORKFLOW. rewrite Hs.
  unfold run_frame, bind, logger, emit, this_registerResponse_url, ret.
  destruct (decide _) as [_|Hn]; [|contradiction]. norm. rewrite Hu. norm.
  rewrite !app_nil_r. auto.
Qed.

(** The handler up to the start of the promise of the run function. *)
Lemma TRIGGER_WORKFLOW_opening (eventData : Value) (w : World) :
  on_schema_safeParse (HostRPC.trigger_input data) = z.success eventData ->
  enters data w ->
  match outcomes (inbox w), run eventData with
  | inl _ :: _, Promised _ => False
  | _, _ => True
  end ->
  let rw := TRIGGER_WORKFLOW hrtime JSON_stringify terminalLink generateErrorMessage
              on_schema_safeParse run data w in
  fst rw = Done true
  /\ client (snd rw) = client w
  /\ visible (trace (snd rw)) =
     visible (trace w)
     ++ prelude terminalLink data (registerResponse_url (client w))
     ++ opening hrtime (HostRPC.id data) (clock w) (outcomes (inbox w)) eventData
          (run eventData)
  /\ (silent (inbox w) -> promises (snd rw) = promises w).
Proof.
  intros Hs He Hcase. unfold TRIGGER_WORKFLOW. rewrite Hs.
  unfold run_frame, detached, run_chain, try_catch, bind, logger, emit,
    this_registerResponse_url, highPrecisionTimestamp, ret, prelude.
  destruct (decide _) as [Ha|Ha];
    destruct (registerResponse_url (client w)) as [url|] eqn:Hu;
    try (destruct He as [He|He]; congruence); norm; rewrite ?Hu; norm;
    send_step;
    (destruct (outcomes (inbox w)) as [|[response|cause] os];
     cbn [send_result opening drop]; norm;
     [frame_facts; split_and!; auto; silent_chain
     |destruct (run eventData) as [e|body]; [|contradiction];
      unfold raise; norm; send_step; frame_facts; split_and!; auto; silent_chain
     |send_step; frame_facts; split_and!; auto; silent_chain]).
Qed.

(** The handler from the moment the promise of the run function settles. *)
Lemma TRIGGER_WORKFLOW_settled
    (eventData response : Value) (os : list (Value + Value)) (body : Program)
    (settled : Res Value) (w w2 : World) :
  on_schema_safeParse (HostRPC.trigger_input data) = z.success eventData ->
  enters data w ->
  outcomes (inbox w) = inl response :: os ->
  run eventData = Promised body ->
  run_settled hrtime JSON_stringify terminalLink data eventData body w = (settled, w2) ->
  let rw := TRIGGER_WORKFLOW hrtime JSON_stringify terminalLink generateErrorMessage
              on_schema_safeParse run data w in
  fst rw = Done true
  /\ client (snd rw) = client w2
  /\ visible (trace (snd rw)) =
     visible (trace w2)
     ++ conclusion hrtime JSON_stringify terminalLink (HostRPC.id data)
          (registerResponse_url (client w2)) (clock w2) (outcomes (inbox w2)) settled
  /\ (silent (inbox w2) -> promises (snd rw) = promises w2).
Proof.
  intros Hs He Ho Hrun. unfold TRIGGER_WORKFLOW, run_settled. rewrite Hs.
  unfold run_frame, detached, run_chain, try_catch, bind, logger, emit,
    this_registerResponse_url, highPrecisionTimestamp, ret.
  rewrite Hrun.
  destruct (decide _) as [Ha|Ha];
    destruct (registerResponse_url (client w)) as [url|] eqn:Hu;
    try (destruct He as [He|He]; congruence); norm; rewrite ?Hu; norm;
    send_step; rewrite Ho; cbn [send_result]; norm;
    match goal with
    | |- context [execute ?h ?s ?d ?b ?wx] =>
        destruct (execute h s d b wx) as [[output|e|] w2']
    end;
    intros [= <- <-]; norm; clear;
    unfold stringify, raise, ret; cbn [conclusion];
    destruct (outcomes (inbox w2')) as [|[response2|cause2] os2] eqn:Ho2;
    try (destruct (registerResponse_url (client w2')) as [url2|]; norm;
         [destruct (JSON_stringify output) as [s|e]; norm|]);
    try (finish; fail);
    send_step; cbn [drop] in *; use_outcomes;
    try (finish; fail);
    send_step; cbn [drop] in *; use_outcomes;
    try (finish; fail);
    destruct os2 as [|[response3|cause3] os3]; cbn [send_result];
    try (finish; fail);
    send_step; finish.
Qed.

(** The handler up to the moment the promise of the run function
    settles: what user code has done by then. *)
Lemma run_settled_grows
    (eventData response : Value) (os : list (Value + Value)) (body : Program)
    (settled : Res Value) (w w2 : World) :
  enters data w ->
  outcomes (inbox w) = inl response :: os ->
  run_settled hrtime JSON_stringify terminalLink data eventData body w = (settled, w2) ->
  serverRPC_initialized (client w2) = serverRPC_initialized (client w)
  /\ registerResponse_url (client w2) = registerResponse_url (client w)
  /\ (forall t key,
        is_Some (callbacks t (client w) !! key) ->
        is_Some (callbacks t (client w2) !! key))
  /\ (exists delta,
        visible (trace w2) =
          visible (trace w)
          ++ prelude terminalLink data (registerResponse_url (client w))
          ++ ESend (START_WORKFLOW_RUN (HostRPC.id data) (hrtime (clock w)))
             :: ERun eventData :: delta
        /\ quiet delta)
  /\ (silent (inbox w) ->
      silent (inbox w2) /\ exists added, promises w2 = promises w ++ added).
Proof.
  intros He Ho. unfold run_settled.
  unfold bind, logger, emit, this_registerResponse_url, highPrecisionTimestamp, ret,
    prelude.
  destruct (decide _) as [Ha|Ha];
    destruct (registerResponse_url (client w)) as [url|] eqn:Hu;
    try (destruct He as [He|He]; congruence); norm; rewrite ?Hu; norm;
    send_step; rewrite Ho; cbn [send_result]; norm;
    match goal with
    | |- context [execute ?h ?s ?d ?b ?wx] =>
        pose proof (execute_growing h s d b wx) as Hg;
        destruct (execute h s d b wx) as [r w2']
    end;
    intros [= <- <-]; norm;
    destruct Hg as (Hi & Hu' & He' & (delta & Hv & Hq) & Hs'); norm;
    (split_and!;
     [congruence
     |congruence
     |intros t key Hk; apply He'; congruence
     |exists delta; split; [|exact Hq]; rewrite Hv; frame_facts; reflexivity
     |intros Hs;
      match goal with
      | H : silent (inbox w) -> _ |- _ => destruct (H Hs) as [Hp Hs0]
      end;
      destruct (Hs' Hs0) as [Hs2 [added Hp2]];
      split; [exact Hs2|]; exists added; congruence]).
Qed.

Lemma TRIGGER_WORKFLOW_failure (issues : list z.ZodIssue) (w : World) :
  on_schema_safeParse (HostRPC.trigger_input data) = z.failure issues ->
  let rw := TRIGGER_WORKFLOW hrtime JSON_stringify terminalLink generateErrorMessage
              on_schema_safeParse run data w in
  fst rw = match send_result (outcomes (inbox w)) with
           | Done _ => Done true
           | Raised err => Raised err
           | Blocked => Blocked
           end
  /\ client (snd rw) = client w
  /\ visible (trace (snd rw)) =
     visible (trace w)
     ++ [ESend (SEND_WORKFLOW_ERROR (HostRPC.id data)
                  (VObj [("name", VStr "Event validation error");
                         ("message",
                          VStr (generateErrorMessage issues
                                  zodErrorMessageOptions_delimiter_error))])
                  (hrtime (clock w)))]
  /\ (silent (inbox w) -> promises (snd rw) = promises w).
Proof.
  intros Hs. unfold TRIGGER_WORKFLOW. rewrite Hs.
  unfold bind, logger, emit, highPrecisionTimestamp, ret. norm.
  send_step. destruct (outcomes (inbox w)) as [|[response|cause] os];
    cbn [send_result fst snd]; frame_facts; split_and!; auto; silent_chain.
Qed.

(** The handler removes no entry, and while the server sends nothing it
    settles no promise. *)
Lemma TRIGGER_WORKFLOW_keeps (w : World) :
  let w' := snd (TRIGGER_WORKFLOW hrtime JSON_stringify terminalLink generateErrorMessage
                   on_schema_safeParse run data w) in
  (forall t key,
      is_Some (callbacks t (client w) !! key) ->
      is_Some (callbacks t (client w') !! key))
  /\ (silent (inbox w) -> exists added, promises w' = promises w ++ added).
Proof.
  intros w'. subst w'.
  assert (Hsame : forall w' : World,
             client w' = client w -> (silent (inbox w) -> promises w' = promises w) ->
             (forall t key,
                 is_Some (callbacks t (client w) !! key) ->
                 is_Some (callbacks t (client w') !! key))
             /\ (silent (inbox w) -> exists added, promises w' = promises w ++ added)).
  { intros w' Hc Hp. rewrite Hc. split; [auto|].
    intros Hs. exists []. rewrite (Hp Hs). symmetry. apply app_nil_r. }
  destruct (on_schema_safeParse (HostRPC.trigger_input data)) as [eventData|issues] eqn:Hs.
  - destruct (decide (enters data w)) as [He|He].
    + destruct (outcomes (inbox w)) as [|[response|cause] os] eqn:Ho;
        [|destruct (run eventData) as [e|body] eqn:Hrun|];
        try (destruct (TRIGGER_WORKFLOW_opening eventData w Hs He) as (_ & Hc & _ & Hp);
             [rewrite Ho, ?Hrun; exact I|apply Hsame; assumption]).
      destruct (run_settled hrtime JSON_stringify terminalLink data eventData body w)
        as [settled w2] eqn:Hrs.
      destruct (TRIGGER_WORKFLOW_settled eventData response os body settled w w2
                  Hs He Ho Hrun Hrs) as (_ & Hc & _ & Hp).
      destruct (run_settled_grows eventData response os body settled w w2 He Ho Hrs)
        as (_ & _ & Hk & _ & Hq).
      cbn zeta in Hc, Hp. rewrite Hc. split; [exact Hk|].
      intros Hsil. destruct (Hq Hsil) as [Hs2 [added Ha]].
      exists added. rewrite (Hp Hs2). exact Ha.
    + unfold enters in He.
      destruct (registerResponse_url (client w)) as [url|] eqn:Hu;
        [exfalso; apply He; left; discriminate|].
      destruct (decide (HostRPC.attempt (HostRPC.meta data) = Some 0)) as [Ha|Ha];
        [|exfalso; apply He; right; exact Ha].
      destruct (TRIGGER_WORKFLOW_unregistered eventData w Hs Hu Ha)
        as (_ & Hc & _ & Hp & _).
      apply Hsame; auto.
  - destruct (TRIGGER_WORKFLOW_failure issues w Hs) as (_ & Hc & _ & Hp).
    apply Hsame; assumption.
Qed.

Lemma prelude_sends (registered : option string) :
  sends (prelude terminalLink data registered) = [].
Proof. unfold prelude. destruct registered; [destruct (decide _)|]; reflexivity. Qed.

(** The terminal requests of a run whose promise has settled are those
    that follow its settling. *)
Lemma TRIGGER_WORKFLOW_terminals
    (eventData response : Value) (os : list (Value + Value)) (body : Program)
    (settled : Res Value) (w w2 : World) :
  on_schema_safeParse (HostRPC.trigger_input data) = z.success eventData ->
  enters data w ->
  outcomes (inbox w) = inl response :: os ->
  run eventData = Promised body ->
  run_settled hrtime JSON_stringify terminalLink data eventData body w = (settled, w2) ->
  terminals
    (trace (snd (TRIGGER_WORKFLOW hrtime JSON_stringify terminalLink generateErrorMessage
                   on_schema_safeParse run data w)))
  = terminals (trace w)
    ++ List.filter terminal
         (sends (conclusion hrtime JSON_stringify terminalLink (HostRPC.id data)
                   (registerResponse_url (client w)) (clock w2) (outcomes (inbox w2))
                   settled)).
Proof.
  intros Hs He Ho Hrun Hrs.
  destruct (TRIGGER_WORKFLOW_settled eventData response os body settled w w2
              Hs He Ho Hrun Hrs) as (_ & _ & Hv & _).
  destruct (run_settled_grows eventData response os body settled w w2 He Ho Hrs)
    as (_ & Hu & _ & (delta & Hv2 & Hq) & _).
  cbn zeta in Hv. apply terminals_visible in Hv. apply terminals_visible in Hv2.
  rewrite Hv, Hv2, Hu, sends_app, prelude_sends. cbn.
  rewrite (quiet_terminals delta Hq), app_nil_r. reflexivity.
Qed.

Lemma conclusion_In (runId : string) (registered : option string) (t : nat)
    (os : list (Value + Value)) (settled : Res Value) (e : Event) :
  In e (conclusion hrtime JSON_stringify terminalLink runId registered t os settled) ->
  is_ERun e = false
  /\ of_context e = false
  /\ forall url, e <> ELog Log (run_started terminalLink url runId).
Proof.
  unfold conclusion, reported.
  destruct settled as [output|err|]; [destruct registered as [url0|];
    [destruct (JSON_stringify output) as [s|err]|]| |];
    destruct os as [|[?|?] [|[?|?] ?]]; cbn [In];
    intros Hin; repeat destruct Hin as [Hin|Hin]; try contradiction; subst e;
    (split_and!; [reflexivity|reflexivity|]); intros url'; try discriminate;
    intros H;
    apply (f_equal (fun e => match e with ELog _ m => m | _ => EmptyString end)) in H;
    symmetry in H; exact (started_not_complete _ _ _ H).
Qed.

(** For a handler that enters the chain: START_WORKFLOW_RUN follows what
    the handler prints, and what follows it. *)
Lemma TRIGGER_WORKFLOW_entered (eventData : Value) (w : World) :
  on_schema_safeParse (HostRPC.trigger_input data) = z.success eventData ->
  enters data w ->
  let rw := TRIGGER_WORKFLOW hrtime JSON_stringify terminalLink generateErrorMessage
              on_schema_safeParse run data w in
  fst rw = Done true
  /\ exists rest,
      visible (trace (snd rw)) =
        visible (trace w)
        ++ prelude terminalLink data (registerResponse_url (client w))
        ++ ESend (START_WORKFLOW_RUN (HostRPC.id data) (hrtime (clock w))) :: rest
      /\ forall e, In e rest ->
           (e = ERun eventData
            /\ exists response os, outcomes (inbox w) = inl response :: os)
           \/ (is_ERun e = false
               /\ forall url, e <> ELog Log (run_started terminalLink url (HostRPC.id data))).
Proof.
  intros Hs He rw. subst rw.
  destruct (outcomes (inbox w)) as [|[response|cause] os] eqn:Ho;
    [|destruct (run eventData) as [err|body] eqn:Hrun|];
    try (destruct (TRIGGER_WORKFLOW_opening eventData w Hs He) as (Hr & _ & Hv & _);
         [rewrite Ho, ?Hrun; exact I|];
         split; [exact Hr|]; rewrite Ho, ?Hrun in Hv; cbn [opening] in Hv;
         eexists; split; [exact Hv|];
         cbn [In]; intros e Hin; repeat destruct Hin as [Hin|Hin];
         try contradiction; subst e;
         solve [left; eauto | right; split; [reflexivity|discriminate]]).
  destruct (run_settled hrtime JSON_stringify terminalLink data eventData body w)
    as [settled w2] eqn:Hrs.
  destruct (TRIGGER_WORKFLOW_settled eventData response os body settled w w2
              Hs He Ho Hrun Hrs) as (Hr & _ & Hv & _).
  destruct (run_settled_grows eventData response os body settled w w2 He Ho Hrs)
    as (_ & _ & _ & (delta & Hv2 & Hq) & _).
  split; [exact Hr|]. cbn zeta in Hv. rewrite Hv2 in Hv.
  exists (ERun eventData :: delta
          ++ conclusion hrtime JSON_stringify terminalLink (HostRPC.id data)
               (registerResponse_url (client w2)) (clock w2) (outcomes (inbox w2))
               settled).
  split.
  - rewrite Hv, <- !app_assoc. reflexivity.
  - intros e [<-|Hin]; [left; eauto|]. right.
    apply in_app_or in Hin as [Hin|Hin].
    + pose proof (quiet_In delta e Hq Hin) as Hoc.
      destruct e as [| |level message| | |]; try discriminate Hoc;
        (split; [reflexivity|discriminate]).
    + apply conclusion_In in Hin as (H1 & _ & H2). auto.
Qed.


(** Claim C1, amended.  In a run whose event input validates, whose
    handler gets as far as the chain, whose START_WORKFLOW_RUN send
    resolves and whose terminal send is not rejected: a run function that
    throws before it returns a promise has the thrown value sent as it is
    in one SEND_WORKFLOW_ERROR; a run function whose promise settles has
    exactly one terminal request sent, which is COMPLETE_WORKFLOW_RUN,
    carrying the string [JSON.stringify(output)] returns, iff the promise
    resolves, the client is registered and [JSON.stringify] returns, and
    SEND_WORKFLOW_ERROR, carrying the normalized error, iff the promise
    rejects, or resolves while the client is not registered or with an
    output [JSON.stringify] throws on; never both.  While the promise is
    pending no terminal request is sent. *)
Theorem one_terminal_rpc_when_sends_resolve
    (eventData response : Value) (os : list (Value + Value)) (w : World) :
  on_schema_safeParse (HostRPC.trigger_input data) = z.success eventData ->
  enters data w ->
  outcomes (inbox w) = inl response :: os ->
  let w' := snd (TRIGGER_WORKFLOW hrtime JSON_stringify terminalLink generateErrorMessage
                   on_schema_safeParse run data w) in
  let runId := HostRPC.id data in
  let registered := registerResponse_url (client w) in
  (forall e,
      run eventData = Thrown e ->
      terminals (trace w') =
        terminals (trace w) ++ [SEND_WORKFLOW_ERROR runId e (hrtime (S (clock w)))])
  /\ (forall body w2,
        run eventData = Promised body ->
        run_settled hrtime JSON_stringify terminalLink data eventData body w
        = (Blocked, w2) ->
        terminals (trace w') = terminals (trace w))
  /\ (forall body settled w2,
        run eventData = Promised body ->
        run_settled hrtime JSON_stringify terminalLink data eventData body w
        = (settled, w2) ->
        settled <> Blocked ->
        not_rejected (outcomes (inbox w2)) ->
        exists t,
          terminals (trace w') = terminals (trace w) ++ [t]
          /\ (is_COMPLETE_WORKFLOW_RUN t = true <->
              exists output url s,
                settled = Done output /\ registered = Some url
                /\ JSON_stringify output = inl s)
          /\ (is_SEND_WORKFLOW_ERROR t = true <->
              (exists e, settled = Raised e)
              \/ (exists output,
                     settled = Done output
                     /\ (registered = None \/ exists e, JSON_stringify output = inr e)))
          /\ is_COMPLETE_WORKFLOW_RUN t && is_SEND_WORKFLOW_ERROR t = false
          /\ (forall output url s,
                settled = Done output -> registered = Some url ->
                JSON_stringify output = inl s ->
                t = COMPLETE_WORKFLOW_RUN runId s (hrtime (clock w2)))
          /\ (forall e,
                settled = Raised e ->
                t = SEND_WORKFLOW_ERROR runId (parseAnyError e) (hrtime (clock w2)))
          /\ (forall output url e,
                settled = Done output -> registered = Some url ->
                JSON_stringify output = inr e ->
                t = SEND_WORKFLOW_ERROR runId (parseAnyError e) (hrtime (clock w2)))
          /\ (forall output,
                settled = Done output -> registered = None ->
                t = SEND_WORKFLOW_ERROR runId (parseAnyError cannot_read_url)
                      (hrtime (clock w2)))).
Proof.
  intros Hs He Ho w' runId registered. subst w' runId registered. split_and!.
  - intros e Hrun.
    destruct (TRIGGER_WORKFLOW_opening eventData w Hs He) as (_ & _ & Hv & _).
    { rewrite Ho, Hrun. exact I. }
    apply terminals_visible in Hv. rewrite Hv, Ho, Hrun, sends_app, prelude_sends.
    reflexivity.
  - intros body w2 Hrun Hrs.
    rewrite (TRIGGER_WORKFLOW_terminals eventData response os body Blocked w w2
               Hs He Ho Hrun Hrs).
    apply app_nil_r.
  - intros body settled w2 Hrun Hrs Hb Hn.
    rewrite (TRIGGER_WORKFLOW_terminals eventData response os body settled w w2
               Hs He Ho Hrun Hrs).
    unfold conclusion, reported.
    destruct settled as [output|e|]; [| |congruence];
      [destruct (registerResponse_url (client w)) as [url|];
       [destruct (JSON_stringify output) as [s|e] eqn:Hj|]|];
      (destruct (outcomes (inbox w2)) as [|[?|?] ?]; [| |contradiction]);
      cbn; eexists; (split; [reflexivity|]); cbn;
      (split_and!;
       [split; [try discriminate; eauto 6|intros (? & ? & ? & ? & ? & ?); congruence]
       |split;
        [try discriminate; eauto 8
        |intros [[? ?]|(? & H1 & [?|[? ?]])]; try reflexivity;
         try discriminate; injection H1 as <-; congruence]
       |reflexivity
       |intros; congruence
       |intros; congruence
       |intros; congruence
       |intros; congruence]).
Qed.

(** When the START_WORKFLOW_RUN send is rejected the run function is not
    invoked and the cause is reported as it is, by a handler that gets as
    far as the chain; one that does not sends nothing and invokes
    nothing. *)
Lemma start_rejected_reports_cause
    (eventData cause : Value) (os : list (Value + Value)) (w : World) :
  on_schema_safeParse (HostRPC.trigger_input data) = z.success eventData ->
  outcomes (inbox w) = inr cause :: os ->
  let w' := snd (TRIGGER_WORKFLOW hrtime JSON_stringify terminalLink generateErrorMessage
                   on_schema_safeParse run data w) in
  (enters data w ->
   terminals (trace w') =
     terminals (trace w)
     ++ [SEND_WORKFLOW_ERROR (HostRPC.id data) cause (hrtime (S (clock w)))])
  /\ (~ enters data w -> terminals (trace w') = terminals (trace w))
  /\ List.filter is_ERun (visible (trace w')) = List.filter is_ERun (visible (trace w)).
Proof.
  intros Hs Ho w'. subst w'.
  destruct (decide (enters data w)) as [He|He].
  - destruct (TRIGGER_WORKFLOW_opening eventData w Hs He) as (_ & _ & Hv & _).
    { rewrite Ho. exact I. }
    split_and!.
    + intros _. apply terminals_visible in Hv.
      rewrite Hv, Ho, sends_app, prelude_sends. reflexivity.
    + contradiction.
    + rewrite Hv, Ho, !List.filter_app. unfold prelude.
      destruct (registerResponse_url (client w)); [destruct (decide _)|]; cbn;
        rewrite app_nil_r; reflexivity.
  - assert (Hu : registerResponse_url (client w) = None).
    { destruct (registerResponse_url (client w)) eqn:Hu; [|reflexivity].
      exfalso. apply He. left. rewrite Hu. discriminate. }
    assert (Ha : HostRPC.attempt (HostRPC.meta data) = Some 0).
    { destruct (decide (HostRPC.attempt (HostRPC.meta data) = Some 0)) as [Ha|Ha];
        [exact Ha|]. exfalso. apply He. right. exact Ha. }
    destruct (TRIGGER_WORKFLOW_unregistered eventData w Hs Hu Ha) as (_ & _ & Hv & _).
    cbn zeta in Hv. split_and!.
    + contradiction.
    + intros _. unfold terminals. rewrite <- sends_visible, Hv, sends_visible. reflexivity.
    + rewrite Hv. reflexivity.
Qed.

(** Claim C2, amended.  When the event input fails the trigger schema
    the client sends one SEND_WORKFLOW_ERROR, named "Event validation
    error" and carrying the flattened validation message, and nothing
    else: no START_WORKFLOW_RUN, no call of the run function.  The
    handler acknowledges with [true] when that send resolves, and rejects
    with the send's error when it is rejected. *)
Theorem event_validation_error (issues : list z.ZodIssue) (w : World) :
  on_schema_safeParse (HostRPC.trigger_input data) = z.failure issues ->
  let rw := TRIGGER_WORKFLOW hrtime JSON_stringify terminalLink generateErrorMessage
              on_schema_safeParse run data w in
  visible (trace (snd rw)) =
    visible (trace w)
    ++ [ESend (SEND_WORKFLOW_ERROR (HostRPC.id data)
                 (VObj [("name", VStr "Event validation error");
                        ("message",
                         VStr (generateErrorMessage issues
                                 zodErrorMessageOptions_delimiter_error))])
                 (hrtime (clock w)))]
  /\ (forall response os, outcomes (inbox w) = inl response :: os -> fst rw = Done true)
  /\ (forall cause os, outcomes (inbox w) = inr cause :: os -> fst rw = Raised cause).
Proof.
  intros Hs rw.
  destruct (TRIGGER_WORKFLOW_failure issues w Hs) as (Hr & _ & Hv & _).
  cbn zeta in Hr, Hv. fold rw in Hr, Hv.
  split_and!; [exact Hv| |]; intros ? ? Ho; rewrite Hr, Ho; reflexivity.
Qed.

(** Claim C8.  In a run whose event input validates, START_WORKFLOW_RUN
    is sent before the run function is invoked (which happens only once
    that send has resolved), and the line [Run <id> started] with the
    dashboard link is printed iff the attempt number is 0, ahead of the
    send.  That is so for a registered client.  A client that is not
    registered has no link to print: on attempt 0 its handler throws
    where it builds the line, sends nothing and invokes nothing; on
    another attempt START_WORKFLOW_RUN is sent before the run function is
    invoked and no such line is printed. *)
Theorem start_is_sent_before_run (eventData : Value) (w : World) :
  on_schema_safeParse (HostRPC.trigger_input data) = z.success eventData ->
  let rw := TRIGGER_WORKFLOW hrtime JSON_stringify terminalLink generateErrorMessage
              on_schema_safeParse run data w in
  let w' := snd rw in
  let start := ESend (START_WORKFLOW_RUN (HostRPC.id data) (hrtime (clock w))) in
  (forall url,
      registerResponse_url (client w) = Some url ->
      let line := ELog Log (run_started terminalLink url (HostRPC.id data)) in
      let first := if decide (HostRPC.attempt (HostRPC.meta data) = Some 0)
                   then [line] else [] in
      exists rest,
        visible (trace w') = visible (trace w) ++ first ++ start :: rest
        /\ (forall ev, In (ERun ev) rest ->
            ev = eventData
            /\ exists response os, outcomes (inbox w) = inl response :: os)
        /\ (forall ev, ~ In (ERun ev) first)
        /\ ~ In line rest
        /\ (In line (first ++ start :: rest)
            <-> HostRPC.attempt (HostRPC.meta data) = Some 0))
  /\ (registerResponse_url (client w) = None ->
      (HostRPC.attempt (HostRPC.meta data) = Some 0 ->
       fst rw = Raised cannot_read_url /\ visible (trace w') = visible (trace w))
      /\ (HostRPC.attempt (HostRPC.meta data) <> Some 0 ->
          exists rest,
            visible (trace w') = visible (trace w) ++ start :: rest
            /\ (forall ev, In (ERun ev) rest ->
                ev = eventData
                /\ exists response os, outcomes (inbox w) = inl response :: os)
            /\ (forall url,
                  ~ In (ELog Log (run_started terminalLink url (HostRPC.id data)))
                      rest))).
Proof.
  intros Hs rw w' start. subst rw w' start. split.
  - intros url Hu line first.
    destruct (TRIGGER_WORKFLOW_entered eventData w Hs) as (_ & rest & Hv & Hrest).
    { left. rewrite Hu. discriminate. }
    rewrite Hu in Hv. cbn [prelude] in Hv. fold line first in Hv.
    exists rest. split; [exact Hv|]. split_and!.
    + intros ev Hin. apply Hrest in Hin as [[[= ->] ?]|[Hf _]]; [auto|discriminate].
    + intros ev. unfold first. destruct (decide _); cbn; [|tauto].
      intros [[=]|[]].
    + intros Hin. apply Hrest in Hin as [[[=] _]|[_ Hne]]. exact (Hne url eq_refl).
    + unfold first. destruct (decide _) as [Ha|Ha]; cbn [app In].
      * tauto.
      * split; [|tauto]. intros [[=]|Hin].
        apply Hrest in Hin as [[[=] _]|[_ Hne]]. exfalso. exact (Hne url eq_refl).
  - intros Hu. split.
    + intros Ha.
      destruct (TRIGGER_WORKFLOW_unregistered eventData w Hs Hu Ha) as (Hr & _ & Hv & _).
      auto.
    + intros Ha.
      destruct (TRIGGER_WORKFLOW_entered eventData w Hs) as (_ & rest & Hv & Hrest).
      { right. exact Ha. }
      rewrite Hu in Hv. cbn [prelude app] in Hv.
      exists rest. split; [exact Hv|]. split.
      * intros ev Hin. apply Hrest in Hin as [[[= ->] ?]|[Hf _]]; [auto|discriminate].
      * intros url Hin. apply Hrest in Hin as [[[=] _]|[_ Hne]]. exact (Hne url eq_refl).
Qed.


Lemma perform_frame (j : Journaled) (w : World) :
  let w' := perform hrtime JSON_stringify data j w in
  let key := messageKey (HostRPC.id data) (userKey j) in
  client w' = callbacks_set (table_for j) key (List.length (promises w)) (client w)
  /\ exists rest,
      visible (trace w') =
        visible (trace w)
        ++ ESet (table_for j) key
           :: ESend (intent (HostRPC.id data) j (hrtime (clock w))) :: rest.
Proof.
  destruct j; cbn [perform table_for userKey intent];
    unfold fetchFunction, waitFor, waitUntil, runOnce, runOnceLocalOnly, performRequest,
      kvGetFunction, kvSetFunction, kvDeleteFunction, bind, new_promise,
      highPrecisionTimestamp;
    norm; send_step;
    (destruct (send_result _) as [response|err|]; [|leaf|leaf]);
    await_step; try leaf;
    unfold the_FetchOutput, the_value, the_RunOnceOutput, raise, ret;
    destruct reply; try leaf.
  - (* fetch *)
    destruct (truthy _); [|leaf].
    unfold z.parse, raise, ret. destruct (default z.any _ _); leaf.
  - (* runOnce *)
    destruct (HostRPC.hasRun o); [leaf|].
    unfold call, bind, emit, settle, stringify, raise, ret.
    destruct (callback _) as [callbackResult| |]; [|leaf|leaf].
    destruct (truthy callbackResult); [destruct (JSON_stringify callbackResult)|];
      try leaf; norm; send_step; destruct (send_result _); leaf.
  - (* runOnceLocalOnly *)
    unfold call, bind, emit, settle. destruct (callback _); leaf.
  - (* performRequest *)
    destruct (Types.response_schema options) as [schema|]; [|leaf].
    unfold z.parse, raise, ret. destruct (schema v); leaf.
Qed.


(** Claim C10.  Every journaled operation puts its entry in the map of
    its kind, under [runId:userKey], before it sends its intent; from the
    moment it is installed the entry is found whatever messages are
    handled, during the operation and after it. *)
Theorem callbacks_installed_before_send (j : Journaled) (w : World) :
  let key := messageKey (HostRPC.id data) (userKey j) in
  let p := List.length (promises w) in
  let installed := snd (new_promise (table_for j) key w) in
  let w' := perform hrtime JSON_stringify data j w in
  (exists rest,
      visible (trace w') =
        visible (trace w)
        ++ ESet (table_for j) key
           :: ESend (intent (HostRPC.id data) j (hrtime (clock w))) :: rest)
  /\ client installed = callbacks_set (table_for j) key p (client w)
  /\ client w' = client installed
  /\ (forall msgs,
        callbacks (table_for j) (client (deliver msgs installed)) !! key = Some p)
  /\ (forall msgs,
        callbacks (table_for j) (client (deliver msgs w')) !! key = Some p).
Proof.
  intros key p installed w'.
  destruct (perform_frame j w) as (Hc & Hv). cbn zeta in Hc, Hv.
  fold key p w' in Hc, Hv.
  split_and!.
  - exact Hv.
  - reflexivity.
  - exact Hc.
  - intros msgs. rewrite deliver_client. apply callbacks_set_same.
  - intros msgs. rewrite deliver_client, Hc. apply callbacks_set_same.
Qed.

(** Claim C6, amended.  No entry is ever removed.  A handler that
    resolves or rejects an entry leaves the maps as they are.  A whole
    run, with the operations its run function calls and up to its
    COMPLETE_WORKFLOW_RUN or SEND_WORKFLOW_ERROR, leaves every key that
    has an entry with an entry, and from the moment the promise of the
    run function settles it leaves the maps as they are and rejects no
    pending promise.  A context operation sets the entry of its own key in
    the map of its kind, to its new promise, and leaves every other entry
    of every map as it is. *)
Theorem entries_are_never_removed :
  (forall msg w, client (snd (handle msg w)) = client w)
  /\ (forall w t key,
        let w' := snd (TRIGGER_WORKFLOW hrtime JSON_stringify terminalLink
                         generateErrorMessage on_schema_safeParse run data w) in
        is_Some (callbacks t (client w) !! key) ->
        is_Some (callbacks t (client w') !! key))
  /\ (forall w eventData response os body settled w2,
        let w' := snd (TRIGGER_WORKFLOW hrtime JSON_stringify terminalLink
                         generateErrorMessage on_schema_safeParse run data w) in
        on_schema_safeParse (HostRPC.trigger_input data) = z.success eventData ->
        enters data w ->
        outcomes (inbox w) = inl response :: os ->
        run eventData = Promised body ->
        run_settled hrtime JSON_stringify terminalLink data eventData body w
        = (settled, w2) ->
        client w' = client w2 /\ (silent (inbox w2) -> promises w' = promises w2))
  /\ (forall w,
        let w' := snd (TRIGGER_WORKFLOW hrtime JSON_stringify terminalLink
                         generateErrorMessage on_schema_safeParse run data w) in
        silent (inbox w) ->
        forall p state, promises w !! p = Some state -> promises w' !! p = Some state)
  /\ (forall j w t key,
        callbacks t (client (perform hrtime JSON_stringify data j w)) !! key
        = if decide (t = table_for j /\ key = messageKey (HostRPC.id data) (userKey j))
          then Some (List.length (promises w))
          else callbacks t (client w) !! key).
Proof.
  split_and!.
  - intros msg w. apply handle_frame.
  - intros w t key w'. subst w'. apply TRIGGER_WORKFLOW_keeps.
  - intros w eventData response os body settled w2 w' Hs He Ho Hrun Hrs. subst w'.
    destruct (TRIGGER_WORKFLOW_settled eventData response os body settled w w2
                Hs He Ho Hrun Hrs) as (_ & Hc & _ & Hp).
    auto.
  - intros w w' Hsil p state Hp. subst w'.
    destruct (TRIGGER_WORKFLOW_keeps w) as [_ Hk].
    destruct (Hk Hsil) as [added ->].
    apply lookup_app_l_Some. exact Hp.
  - intros j w t key. destruct (perform_frame j w) as (Hc & _). cbn zeta in Hc.
    rewrite Hc. apply callbacks_set_lookup.
Qed.


(** Claim C3, amended.  When the reply to [runOnce] has [hasRun] true the
    stored output is returned and nothing else happens: no call of the
    callback, no COMPLETE_RUN_ONCE.  When it has [hasRun] false the
    callback is called once, with the reply's idempotency key.  If it
    returns a falsy result, COMPLETE_RUN_ONCE is sent with no output; if
    it returns a truthy one, the result is serialized and
    COMPLETE_RUN_ONCE is sent with the string, unless [JSON.stringify]
    throws: then nothing is sent and [runOnce] throws that error.  The
    result is returned once the send resolves; if the send is rejected, or
    the callback throws (then nothing is sent), [runOnce] throws. *)
Theorem runOnce_runs_callback_unless_hasRun
    (key : string) (callback : string -> Res Value)
    (o : HostRPC.RunOnceOutput) (w w1 : World) :
  runOnce_reply hrtime data key REMOTE w = (Done o, w1) ->
  let rw := runOnce hrtime JSON_stringify data key callback w in
  let idempotencyKey := HostRPC.idempotencyKey o in
  let serialized callbackResult :=
    if truthy callbackResult then JSON_stringify callbackResult else inl None in
  visible (trace w1) =
    visible (trace w)
    ++ [ESet RunOnce (messageKey (HostRPC.id data) key);
        ESend (INITIALIZE_RUN_ONCE (HostRPC.id data) key REMOTE (hrtime (clock w)))]
  /\ (HostRPC.hasRun o = true -> rw = (Done (HostRPC.output o), w1))
  /\ (HostRPC.hasRun o = false ->
      visible (trace (snd rw)) =
        visible (trace w1)
        ++ ECallback idempotencyKey
           :: match callback idempotencyKey with
              | Done callbackResult =>
                  match serialized callbackResult with
                  | inl output =>
                      [ESend (COMPLETE_RUN_ONCE (HostRPC.id data) key idempotencyKey
                                output (hrtime (clock w1)))]
                  | inr _ => []
                  end
              | _ => []
              end
      /\ (forall callbackResult output,
            callback idempotencyKey = Done callbackResult ->
            serialized callbackResult = inl output ->
            fst rw = match send_result (outcomes (inbox w1)) with
                     | Done _ => Done callbackResult
                     | Raised err => Raised err
                     | Blocked => Blocked
                     end)
      /\ (forall callbackResult err,
            callback idempotencyKey = Done callbackResult ->
            serialized callbackResult = inr err ->
            fst rw = Raised err)
      /\ (forall err, callback idempotencyKey = Raised err -> fst rw = Raised err)).
Proof.
  intros H rw ik serialized. subst rw ik serialized. revert H.
  unfold runOnce_reply, runOnce, bind, new_promise, highPrecisionTimestamp. norm.
  send_step. destruct (send_result _) as [response|err|]; try (intros [=]; fail).
  await_step; try (intros [=]; fail).
  unfold the_RunOnceOutput, raise, ret.
  destruct reply as [| | |o']; try (intros [=]; fail).
  intros [= -> ->]. split_and!.
  - frame_facts. reflexivity.
  - intros ->. reflexivity.
  - intros ->. unfold call, bind, emit, settle, stringify, raise, ret.
    destruct (callback _) as [callbackResult|err|]; norm.
    + destruct (truthy callbackResult) eqn:Ht;
        [destruct (JSON_stringify callbackResult) as [output|err] eqn:Hj|]; norm;
        try (send_step; split_and!;
             [destruct (send_result _); frame_facts; reflexivity
             |intros ? ? [= <-]; rewrite Ht, ?Hj; intros [= <-];
              destruct (send_result _); reflexivity
             |intros ? ? [= <-]; rewrite Ht, ?Hj; intros [=]
             |intros ? [=]]).
      split_and!; [reflexivity| | |];
        [intros ? ? [= <-]; rewrite Ht, Hj; intros [=]
        |intros ? ? [= <-]; rewrite Ht, Hj; intros [= <-]; reflexivity
        |intros ? [=]].
    + split_and!; [reflexivity|intros ? ? [=]|intros ? ? [=]|intros ? [= <-]; reflexivity].
    + split_and!; [reflexivity|intros ? ? [=]|intros ? ? [=]|intros ? [=]].
Qed.

(** Claim C4, amended.  [fetch] passes status, ok and headers of the
    server's response through.  A truthy body is parsed by the response
    schema when there is one (the parsed value is returned, a body that
    does not conform makes the call throw) and returned as it is when
    there is none; a falsy body is returned as [undefined] and no schema
    is consulted. *)
Theorem fetch_body_is_parsed_when_truthy
    (key url : string) (options : Types.FetchOptions)
    (response : HostRPC.FetchOutput) (w w1 : World) :
  fetch_response hrtime data key url options w = (Done response, w1) ->
  let rw := fetchFunction hrtime data key url options w in
  let returned body :=
    (Done {| HostRPC.status := HostRPC.status response;
             HostRPC.ok := HostRPC.ok response;
             HostRPC.headers := HostRPC.headers response;
             HostRPC.body := body |}, w1) in
  (truthy (HostRPC.body response) = true ->
     (forall schema parsed,
         Types.responseSchema options = Some schema ->
         schema (HostRPC.body response) = inl parsed ->
         rw = returned parsed)
     /\ (forall schema zodError,
           Types.responseSchema options = Some schema ->
           schema (HostRPC.body response) = inr zodError ->
           rw = (Raised zodError, w1))
     /\ (Types.responseSchema options = None -> rw = returned (HostRPC.body response)))
  /\ (truthy (HostRPC.body response) = false -> rw = returned VUndefined).
Proof.
  intros H rw returned. subst rw returned. revert H.
  unfold fetch_response, fetchFunction, bind, new_promise, highPrecisionTimestamp. norm.
  send_step. destruct (send_result _) as [response'|err|]; try (intros [=]; fail).
  await_step; try (intros [=]; fail).
  unfold the_FetchOutput, raise, ret.
  destruct reply as [| |o|]; try (intros [=]; fail).
  intros [= -> ->]. split.
  - intros ->. unfold z.parse, raise, ret. split_and!.
    + intros schema parsed Hs Hp. rewrite Hs. cbn. rewrite Hp. reflexivity.
    + intros schema zodError Hs Hp. rewrite Hs. cbn. rewrite Hp. reflexivity.
    + intros ->. reflexivity.
  - intros ->. reflexivity.
Qed.

End Properties.
(** ** [#send] *)

Lemma retry_line :
  "RPC call timed out, retrying in " +:+ pretty (retryIntervalMs / 1000) +:+ "s..."
  = "RPC call timed out, retrying in 3s...".
Proof. reflexivity. Qed.

Lemma send_loop_retrying (rpc : Rpc) (fuel : nat) :
  forall (timeouts : list Value) (rest : list (Value + Value)) (w : World),
    outcomes (inbox w) = List.map inr timeouts ++ rest ->
    Forall (fun e => instanceofTimeoutError e = true) timeouts ->
    (fuel <= List.length timeouts)%nat ->
    fst (send_loop fuel rpc w) = Blocked
    /\ visible (trace (snd (send_loop fuel rpc w)))
       = visible (trace w) ++ retry_visible rpc (take fuel timeouts).
Proof.
  induction fuel as [|fuel IH]; intros timeouts rest w Ho Ht Hlen.
  - cbn. rewrite app_nil_r. auto.
  - destruct timeouts as [|e timeouts]; [cbn in Hlen; lia|].
    apply Forall_cons in Ht as [He Ht]. cbn in Hlen, Ho.
    cbn [send_loop]. unfold try_catch, bind, logger, emit, sleep. norm.
    send_step. rewrite Ho in *. cbn [send_result drop] in *. rewrite He.
    unfold emit. norm.
    match goal with
    | |- context [send_loop fuel rpc ?w1] =>
        destruct (IH timeouts rest w1) as (Hr & Hv); [norm; assumption|assumption|lia|]
    end.
    rewrite Hr, Hv. rewrite retry_line. frame_facts. cbn [take retry_visible flat_map].
    rewrite <- ?app_assoc. auto.
Qed.

Lemma send_loop_returns (rpc : Rpc) (timeouts : list Value) :
  forall (o : Value + Value) (rest : list (Value + Value)) (fuel : nat) (w : World),
    outcomes (inbox w) = List.map inr timeouts ++ o :: rest ->
    Forall (fun e => instanceofTimeoutError e = true) timeouts ->
    (forall e, o = inr e -> instanceofTimeoutError e = false) ->
    (List.length timeouts < fuel)%nat ->
    fst (send_loop fuel rpc w) = send_result [o]
    /\ visible (trace (snd (send_loop fuel rpc w)))
       = visible (trace w) ++ retry_visible rpc timeouts ++ [ESend rpc].
Proof.
  induction timeouts as [|e timeouts IH]; intros o rest fuel w Ho Ht Hn Hlen;
    (destruct fuel as [|fuel]; [cbn in Hlen; lia|]);
    cbn [send_loop]; unfold try_catch, bind, logger, emit, sleep; norm;
    send_step; cbn in Ho; rewrite Ho in *; cbn [send_result drop] in *.
  - destruct o as [response|err]; cbn [send_result].
    + frame_facts. auto.
    + rewrite (Hn err eq_refl). unfold raise. frame_facts. auto.
  - apply Forall_cons in Ht as [He Ht]. rewrite He. unfold emit. norm.
    match goal with
    | |- context [send_loop fuel rpc ?w1] =>
        destruct (IH o rest fuel w1) as (Hr & Hv);
          [norm; assumption|assumption|assumption|cbn in Hlen; lia|]
    end.
    rewrite Hr, Hv. rewrite retry_line. frame_facts. cbn [retry_visible flat_map].
    rewrite <- ?app_assoc. auto.
Qed.

(** Claim C9.  [#send] sends the same request again after every
    [TimeoutError], sleeping [retryIntervalMs] = 3000 ms in between, for
    as long as the sends time out; the first outcome that is not a
    timeout, a response or any other rejection, is what the call returns
    or throws, without a further attempt. *)
Theorem send_retries_on_timeout
    (rpc : Rpc) (timeouts : list Value) (rest : list (Value + Value)) (w : World) :
  serverRPC_initialized (client w) = true ->
  outcomes (inbox w) = List.map inr timeouts ++ rest ->
  Forall (fun e => instanceofTimeoutError e = true) timeouts ->
  (forall fuel, (fuel <= List.length timeouts)%nat ->
     fst (send fuel rpc w) = Blocked
     /\ visible (trace (snd (send fuel rpc w)))
        = visible (trace w) ++ retry_visible rpc (take fuel timeouts))
  /\ (forall o rest' fuel,
        rest = o :: rest' ->
        (forall e, o = inr e -> instanceofTimeoutError e = false) ->
        (List.length timeouts < fuel)%nat ->
        fst (send fuel rpc w) = send_result [o]
        /\ visible (trace (snd (send fuel rpc w)))
           = visible (trace w) ++ retry_visible rpc timeouts ++ [ESend rpc]).
Proof.
  intros Hi Ho Ht. unfold send. rewrite Hi. split.
  - intros fuel Hlen. eapply send_loop_retrying; eassumption.
  - intros o rest' fuel -> Hn Hlen. eapply send_loop_returns; eassumption.
Qed.







(** ** The metadata of the registration *)

Lemma startsWith_app (pre k : string) : startsWith (pre +:+ k) pre = true.
Proof.
  unfold startsWith. induction pre as [|c pre IH]; simpl.
  - destruct k; reflexivity.
  - rewrite IH. destruct (Ascii.ascii_dec c c); [reflexivity|contradiction].
Qed.

Lemma startsWith_inv (s pre : string) :
  startsWith s pre = true -> exists k, s = pre +:+ k.
Proof.
  unfold startsWith. revert s. induction pre as [|c pre IH]; intros s H.
  - exists s. reflexivity.
  - destruct s as [|c' s]; simpl in H; [discriminate|].
    destruct (Ascii.ascii_dec c c') as [<-|]; [|discriminate].
    destruct (IH s H) as [k ->]. exists k. reflexivity.
Qed.

Lemma slice_app (pre k : string) : slice (String.length pre) (pre +:+ k) = k.
Proof. induction pre as [|c pre IH]; cbn; [destruct k|]; auto. Qed.

Lemma replace_unfold (pattern replacement s : string) :
  replace pattern replacement s
  = if startsWith s pattern then replacement +:+ slice (String.length pattern) s
    else match s with
         | EmptyString => EmptyString
         | String c rest => String c (replace pattern replacement rest)
         end.
Proof. destruct s; reflexivity. Qed.

Lemma replace_prefix (pre k : string) : replace pre EmptyString (pre +:+ k) = k.
Proof. rewrite replace_unfold, startsWith_app, slice_app. reflexivity. Qed.

Lemma set_entry_fresh {A} (k : string) (v : A) (o : list (string * A)) :
  k ∉ List.map fst o -> set_entry k v o = o ++ [(k, v)].
Proof.
  induction o as [|[k' v'] o IH]; intros H; [reflexivity|].
  cbn in *. destruct (String.eqb_spec k k') as [->|Hne].
  - exfalso. apply H. left.
  - rewrite IH; [reflexivity|]. intros Hin. apply H. right. exact Hin.
Qed.

Lemma fromEntries_NoDup {A} (entries : list (string * A)) :
  NoDup (List.map fst entries) -> fromEntries entries = entries.
Proof.
  unfold fromEntries.
  enough (forall acc, NoDup (List.map fst (acc ++ entries)) ->
            foldl (fun o kv => set_entry (fst kv) (snd kv) o) acc entries
            = acc ++ entries) as H by (intros Hnd; apply (H [] Hnd)).
  induction entries as [|[k v] entries IH]; intros acc Hnd.
  - rewrite app_nil_r. reflexivity.
  - cbn [foldl fst snd]. rewrite set_entry_fresh.
    + rewrite IH; rewrite <- app_assoc; [reflexivity|exact Hnd].
    + rewrite List.map_app in Hnd. cbn in Hnd.
      apply NoDup_app in Hnd as (_ & Hd & _). intros Hin.
      apply (Hd k Hin). left.
Qed.

(** The variables under a prefix, with the prefix taken off. *)
Lemma assoc_projection {A B} (pre : string) (q : string -> bool) (f : A -> B)
    (env : list (string * A)) (k : string) :
  assoc k (List.map (fun kv => (replace pre EmptyString (fst kv), f (snd kv)))
             (List.filter (fun kv => startsWith (fst kv) pre && q (fst kv)) env))
  = if q (pre +:+ k) then f <$> assoc (pre +:+ k) env else None.
Proof.
  induction env as [|[key v] env IH]; [cbn; destruct (q _); reflexivity|].
  cbn [List.filter fst snd assoc].
  destruct (startsWith key pre) eqn:Hp; cbn [andb].
  - apply startsWith_inv in Hp as [k' ->].
    destruct (String.eqb_spec (pre +:+ k) (pre +:+ k')) as [E|Hne].
    + apply append_inv_head in E as ->.
      destruct (q (pre +:+ k')) eqn:Hq; cbn [List.map fst snd assoc].
      * rewrite replace_prefix, String.eqb_refl. reflexivity.
      * exact IH.
    + assert (Hk : String.eqb k k' = false).
      { apply String.eqb_neq. intros ->. contradiction. }
      destruct (q (pre +:+ k')); cbn [List.map fst snd assoc];
        rewrite ?replace_prefix, ?Hk; exact IH.
  - destruct (String.eqb_spec (pre +:+ k) key) as [<-|Hne]; [|exact IH].
    rewrite startsWith_app in Hp. discriminate Hp.
Qed.

Lemma projection_NoDup {A B} (pre : string) (q : string -> bool) (f : A -> B)
    (env : list (string * A)) :
  NoDup (List.map fst env) ->
  NoDup (List.map fst
           (List.map (fun kv => (replace pre EmptyString (fst kv), f (snd kv)))
              (List.filter (fun kv => startsWith (fst kv) pre && q (fst kv)) env))).
Proof.
  induction env as [|[key v] env IH]; intros Hnd; [constructor|].
  cbn in Hnd. apply NoDup_cons in Hnd as [Hkey Hnd].
  cbn [List.filter fst].
  destruct (startsWith key pre && q key) eqn:Hp; [|auto].
  cbn [List.map fst]. apply NoDup_cons. split; [|auto].
  intros Hin. apply Hkey.
  apply andb_true_iff in Hp as [Hp _]. apply startsWith_inv in Hp as [k ->].
  rewrite replace_prefix in Hin.
  apply list_elem_of_In, List.in_map_iff in Hin as ([k2 b] & E & Hin).
  apply List.in_map_iff in Hin as ([key2 v2] & E2 & Hin).
  apply List.filter_In in Hin as [Hin Hp2]. cbn [fst snd] in *.
  apply andb_true_iff in Hp2 as [Hp2 _]. apply startsWith_inv in Hp2 as [k3 ->].
  injection E2 as <- _. rewrite replace_prefix in E. subst k3.
  apply list_elem_of_In, List.in_map_iff. exists (pre +:+ k, v2). auto.
Qed.

(** [gatherEnvVars] forwards exactly the variables [TRIGGER_<k>] of the
    environment, under the name [<k>] and with the value as a string
    ([undefined] for a variable that is there without a value), except
    [TRIGGER_API_KEY]; any other variable is left out. *)
Theorem gatherEnvVars_lookup (env : ProcessEnv) (k : string) :
  NoDup (List.map fst env) ->
  assoc k (gatherEnvVars env)
  = if String.eqb k "API_KEY" then None
    else template <$> assoc ("TRIGGER_" +:+ k) env.
Proof.
  intros Hnd. unfold gatherEnvVars.
  rewrite fromEntries_NoDup
    by (apply (projection_NoDup "TRIGGER_"
                 (fun key => negb (String.eqb key "TRIGGER_API_KEY"))); exact Hnd).
  rewrite (assoc_projection "TRIGGER_"
             (fun key => negb (String.eqb key "TRIGGER_API_KEY"))).
  destruct (String.eqb_spec k "API_KEY") as [->|Hne]; [reflexivity|].
  destruct (String.eqb_spec ("TRIGGER_" +:+ k) "TRIGGER_API_KEY") as [E|_];
    [|reflexivity].
  apply (append_inv_head "TRIGGER_" k "API_KEY") in E. contradiction.
Qed.


Lemma assoc_set_entry {A} (k k' : string) (v : A) (o : list (string * A)) :
  assoc k (set_entry k' v o) = if String.eqb k k' then Some v else assoc k o.
Proof.
  induction o as [|[k2 v2] o IH]; cbn; [reflexivity|].
  destruct (String.eqb_spec k' k2) as [->|Hne]; cbn.
  - destruct (String.eqb k k2); reflexivity.
  - rewrite IH. destruct (String.eqb_spec k k2) as [->|Hne2]; [|reflexivity].
    destruct (String.eqb_spec k2 k') as [->|_]; [contradiction|reflexivity].
Qed.

Lemma assoc_fromEntries_None {A} (k : string) (entries : list (string * A)) :
  k ∉ List.map fst entries -> assoc k (fromEntries entries) = None.
Proof.
  unfold fromEntries.
  enough (forall acc, assoc k acc = None -> k ∉ List.map fst entries ->
            assoc k (foldl (fun o kv => set_entry (fst kv) (snd kv) o) acc entries)
            = None) as H by (apply H; reflexivity).
  induction entries as [|[k' v] entries IH]; intros acc Hacc Hk; [exact Hacc|].
  cbn [foldl fst snd]. apply IH.
  - rewrite assoc_set_entry, Hacc.
    destruct (String.eqb_spec k k') as [->|_]; [|reflexivity].
    exfalso. apply Hk. left.
  - intros Hin. apply Hk. right. exact Hin.
Qed.

(** The environment [gatherEnvVars] forwards never has the key
    [API_KEY], whatever the environment holds (a variable named
    [TRIGGER_TRIGGER_API_KEY] is forwarded as [TRIGGER_API_KEY]), and it
    does not depend on the variable [TRIGGER_API_KEY]: without that
    variable the result is the same. *)
Theorem gatherEnvVars_never_forwards_api_key (env : ProcessEnv) :
  assoc "API_KEY" (gatherEnvVars env) = None
  /\ gatherEnvVars
       (List.filter (fun kv => negb (String.eqb (fst kv) "TRIGGER_API_KEY")) env)
     = gatherEnvVars env.
Proof.
  split.
  - unfold gatherEnvVars. apply assoc_fromEntries_None.
    intros Hin.
    apply list_elem_of_In, List.in_map_iff in Hin as ([k v] & E & Hin).
    apply List.in_map_iff in Hin as ([key value] & E2 & Hin).
    apply List.filter_In in Hin as [_ Hp]. cbn [fst snd] in *.
    apply andb_true_iff in Hp as [Hp Hq]. apply startsWith_inv in Hp as [k' ->].
    apply (f_equal fst) in E2. cbn [fst] in E2.
    rewrite replace_prefix in E2. subst k k'.
    cbn in Hq. discriminate Hq.
  - unfold gatherEnvVars. do 2 f_equal.
    induction env as [|[key value] env IH]; [reflexivity|].
    cbn [List.filter fst].
    destruct (String.eqb key "TRIGGER_API_KEY") eqn:Hk; cbn [negb].
    + rewrite andb_false_r. exact IH.
    + cbn [List.filter fst]. rewrite Hk. cbn [negb].
      destruct (startsWith key "TRIGGER_"); cbn [andb]; [f_equal|]; exact IH.
Qed.

(** [getTriggerPackageEnvVars] never throws.  With [npm_package_json]
    set to a path it returns the [triggerdotdev] section of the manifest
    when that section is truthy; when the manifest cannot be read or
    parsed, is [null], or has no such section, and when
    [npm_package_json] is unset or empty, it returns the variables
    [npm_package_triggerdotdev_*] of the environment. *)
Theorem getTriggerPackageEnvVars_ignores_manifest_failures
    (readPackageJson : string -> Res Value) (env : ProcessEnv) :
  let result := getTriggerPackageEnvVars readPackageJson env in
  (forall err, result <> Raised err)
  /\ (forall path,
        assoc "npm_package_json" env = Some (Some path) ->
        path <> EmptyString ->
        (forall fields section,
            readPackageJson path = Done (VObj fields) ->
            get "triggerdotdev" fields = Some section ->
            truthy section = true ->
            result = Done section)
        /\ (forall err, readPackageJson path = Raised err ->
                        result = Done (npm_package_triggerdotdev env))
        /\ (readPackageJson path = Done VNull ->
            result = Done (npm_package_triggerdotdev env))
        /\ (forall fields,
              readPackageJson path = Done (VObj fields) ->
              get "triggerdotdev" fields = None ->
              result = Done (npm_package_triggerdotdev env)))
  /\ (mjoin (assoc "npm_package_json" env) = None
      \/ mjoin (assoc "npm_package_json" env) = Some EmptyString ->
      result = Done (npm_package_triggerdotdev env)).
Proof.
  intros result. subst result. unfold getTriggerPackageEnvVars. split_and!.
  - intros err.
    destruct (assoc "npm_package_json" env) as [[[|c path]|]|]; try discriminate.
    destruct (readPackageJson _) as [packageJson| |]; try discriminate.
    destruct (triggerdotdev packageJson) as [section|]; [|discriminate].
    destruct (truthy section); discriminate.
  - intros path -> Hpath. destruct path as [|c path]; [contradiction|]. split_and!.
    + intros fields section -> Hs Ht. cbn. rewrite Hs. cbn. rewrite Ht. reflexivity.
    + intros err ->. reflexivity.
    + intros ->. reflexivity.
    + intros fields -> Hs. cbn. rewrite Hs. reflexivity.
  - intros [H|H]; destruct (assoc "npm_package_json" env) as [[[|c path]|]|];
      cbn in H; try discriminate; reflexivity.
Qed.

(** The constructor throws its invalid-API-key error iff the key it
    selects, the option [apiKey] when it is given (even empty) and the
    variable [TRIGGER_API_KEY] otherwise, is missing or empty; otherwise
    it keeps that key, and as endpoint the option [endpoint], else the
    variable [TRIGGER_WSS_URL], else [wss://wss.trigger.dev/ws]. *)
Theorem constructor_requires_an_api_key (options : TriggerOptions.t) (env : ProcessEnv) :
  let selected :=
    match TriggerOptions.apiKey options with
    | Some key => Some key
    | None => mjoin (assoc "TRIGGER_API_KEY" env)
    end in
  (constructor options env = inl invalidApiKey
   <-> selected = None \/ selected = Some EmptyString)
  /\ (forall apiKey endpoint,
        constructor options env = inr (apiKey, endpoint) ->
        selected = Some apiKey
        /\ endpoint
           = match TriggerOptions.endpoint options with
             | Some e => e
             | None =>
                 match mjoin (assoc "TRIGGER_WSS_URL" env) with
                 | Some e => e
                 | None => "wss://wss.trigger.dev/ws"
                 end
             end).
Proof.
  intros selected. subst selected. unfold constructor, nullish.
  assert (Hthrows : forall selected : option string,
             selected = None \/ selected = Some EmptyString ->
             (@inl Value (string * string) invalidApiKey = inl invalidApiKey
              <-> selected = None \/ selected = Some EmptyString)
             /\ (forall apiKey endpoint,
                   @inl Value (string * string) invalidApiKey = inr (apiKey, endpoint) ->
                   selected = Some apiKey
                   /\ endpoint
                      = match TriggerOptions.endpoint options with
                        | Some e => e
                        | None =>
                            match mjoin (assoc "TRIGGER_WSS_URL" env) with
                            | Some e => e
                            | None => "wss://wss.trigger.dev/ws"
                            end
                        end)).
  { intros selected H. split; [tauto|]. intros ? ? [=]. }
  assert (Hsets : forall c key (endpoint0 : string),
             endpoint0
             = match TriggerOptions.endpoint options with
               | Some e => e
               | None =>
                   match mjoin (assoc "TRIGGER_WSS_URL" env) with
                   | Some e => e
                   | None => "wss://wss.trigger.dev/ws"
                   end
               end ->
             (@inr Value (string * string) (String c key, endpoint0) = inl invalidApiKey
              <-> Some (String c key) = None \/ Some (String c key) = Some EmptyString)
             /\ (forall apiKey endpoint,
                   @inr Value (string * string) (String c key, endpoint0)
                   = inr (apiKey, endpoint) ->
                   Some (String c key) = Some apiKey /\ endpoint = endpoint0)).
  { intros c key endpoint0 _. split.
    - split; [intros [=]|intros [[=]|[=]]].
    - intros ? ? [= <- <-]. auto. }
  assert (Hendpoint :
            default "wss://wss.trigger.dev/ws"
              match TriggerOptions.endpoint options with
              | Some _ => TriggerOptions.endpoint options
              | None => mjoin (assoc "TRIGGER_WSS_URL" env)
              end
            = match TriggerOptions.endpoint options with
              | Some e => e
              | None =>
                  match mjoin (assoc "TRIGGER_WSS_URL" env) with
                  | Some e => e
                  | None => "wss://wss.trigger.dev/ws"
                  end
              end).
  { destruct (TriggerOptions.endpoint options); [reflexivity|].
    destruct (mjoin (assoc "TRIGGER_WSS_URL" env)); reflexivity. }
  destruct (TriggerOptions.apiKey options) as [[|c key]|].
  - apply Hthrows. auto.
  - rewrite <- Hendpoint. apply Hsets. exact Hendpoint.
  - destruct (mjoin (assoc "TRIGGER_API_KEY" env)) as [[|c key]|].
    + apply Hthrows. auto.
    + rewrite <- Hendpoint. apply Hsets. exact Hendpoint.
    + apply Hthrows. auto.
Qed.

(** ** Correlation keys *)

Lemma colon_not_free (s : string) : colon_free (":" +:+ s) = false.
Proof. reflexivity. Qed.

(** Two calls get the same key [runId:key] only when they are the same
    call of the same run, as long as run identifiers hold no colon. *)
Theorem messageKey_injective_without_colon (runId1 key1 runId2 key2 : string) :
  colon_free runId1 = true -> colon_free runId2 = true ->
  messageKey runId1 key1 = messageKey runId2 key2 ->
  runId1 = runId2 /\ key1 = key2.
Proof.
  unfold messageKey. revert runId2.
  induction runId1 as [|c r1 IH]; intros [|c2 r2] H1 H2 E; simpl in *.
  - injection E as E. subst. auto.
  - injection E as E _. subst. simpl in H2. discriminate H2.
  - injection E as E _. subst. simpl in H1. discriminate H1.
  - injection E as Ec E. subst. apply andb_true_iff in H1 as [_ H1].
    apply andb_true_iff in H2 as [_ H2].
    destruct (IH r2 H1 H2 E) as [-> ->]. auto.
Qed.

(** With a colon in a run identifier two calls can share a key. *)
Example messageKey_collision : messageKey "a:b" "c" = messageKey "a" "b:c".
Proof. reflexivity. Qed.

(** ** Normalized errors *)

Lemma filter_filter {A} (f : A -> bool) (l : list A) :
  List.filter f (List.filter f l) = List.filter f l.
Proof.
  induction l as [|x l IH]; [reflexivity|]. cbn.
  destruct (f x) eqn:E; cbn; rewrite ?E, IH; reflexivity.
Qed.

Lemma parseAnyError_shape (e : Value) :
  exists name message rest,
    parseAnyError e = VObj (("name", VStr name) :: ("message", VStr message) :: rest)
    /\ List.filter
         (fun kv => negb (String.eqb (fst kv) "name" || String.eqb (fst kv) "message"))
         rest
       = rest.
Proof.
  assert (Hunknown : exists name message rest,
             VObj [("name", VStr "UnknownError");
                   ("message", VStr "An unknown error occurred")]
             = VObj (("name", VStr name) :: ("message", VStr message) :: rest)
             /\ List.filter
                  (fun kv => negb (String.eqb (fst kv) "name"
                                   || String.eqb (fst kv) "message"))
                  rest
                = rest)
    by (eexists _, _, []; split; reflexivity).
  destruct e; try exact Hunknown.
  - unfold parseAnyError, z.name_message_passthrough.
    destruct (get "name" fields) as [[]|]; try exact Hunknown.
    destruct (get "message" fields) as [[]|]; try exact Hunknown.
    eexists _, _, _. split; [reflexivity|]. apply filter_filter.
  - eexists _, _, _. split; reflexivity.
Qed.

(** [parseAnyError] always yields an object with a string [name] and a
    string [message], and normalizing a normalized error changes
    nothing. *)
Theorem parseAnyError_is_a_normal_form (e : Value) :
  exposes_name_message (parseAnyError e)
  /\ parseAnyError (parseAnyError e) = parseAnyError e.
Proof.
  destruct (parseAnyError_shape e) as (name & message & rest & -> & Hrest). split.
  - exists (("name", VStr name) :: ("message", VStr message) :: rest), name, message.
    split_and!; reflexivity.
  - unfold parseAnyError, z.name_message_passthrough. cbn. rewrite Hrest. reflexivity.
Qed.


(** ** Handlers and promises *)

Ltac unfold_handlers :=
  unfold handlers.RESOLVE_DELAY, handlers.RESOLVE_RUN_ONCE, handlers.RESOLVE_REQUEST,
    handlers.REJECT_REQUEST, handlers.RESOLVE_FETCH_REQUEST,
    handlers.REJECT_FETCH_REQUEST, handlers.RESOLVE_KV_GET, handlers.RESOLVE_KV_SET,
    handlers.RESOLVE_KV_DELETE, bind, logger, emit, get_callbacks, resolve, reject,
    settle_promise, ret.

Lemma handle_ack (msg : HostRPC.Msg) (w : World) : fst (handle msg w) = Done true.
Proof.
  destruct msg; cbn [handle]; unfold_handlers; cbn;
    match goal with
    | |- context [ ?m !! ?k ] => destruct (m !! k) as [p|]; cbn
    end;
    try match goal with
    | |- context [ ?ps !! ?p ] => destruct (ps !! p) as [[]|]; cbn
    end; reflexivity.
Qed.

(** The promises after a handler has run. *)
Lemma handle_promises (msg : HostRPC.Msg) (w : World) :
  promises (snd (handle msg w))
  = match callbacks (table_of msg) (client w) !! key_of msg with
    | Some p =>
        match promises w !! p with
        | Some Pending => <[p := settlement msg]> (promises w)
        | _ => promises w
        end
    | None => promises w
    end.
Proof.
  destruct msg; cbn [handle table_of key_of callbacks settlement]; unfold_handlers; cbn;
    match goal with
    | |- context [ ?m !! ?k ] => destruct (m !! k) as [p|]; cbn
    end;
    try match goal with
    | |- context [ ?ps !! ?p ] => destruct (ps !! p) as [[]|]; cbn
    end; reflexivity.
Qed.

Lemma handle_promise_other (msg : HostRPC.Msg) (w : World) (p : nat) :
  callbacks (table_of msg) (client w) !! key_of msg <> Some p ->
  promises (snd (handle msg w)) !! p = promises w !! p.
Proof.
  intros H. rewrite handle_promises.
  destruct (callbacks _ _ !! _) as [q|]; [|reflexivity].
  destruct (promises w !! q) as [[]|]; try reflexivity.
  apply list_lookup_insert_ne. congruence.
Qed.

Lemma handle_promise_settled (msg : HostRPC.Msg) (w : World) (p : nat) (s : Promise) :
  promises w !! p = Some s -> s <> Pending ->
  promises (snd (handle msg w)) !! p = Some s.
Proof.
  intros Hp Hs. rewrite handle_promises.
  destruct (callbacks _ _ !! _) as [q|]; [|exact Hp].
  destruct (promises w !! q) as [[]|] eqn:Hq; try exact Hp.
  rewrite list_lookup_insert_ne; [exact Hp|]. congruence.
Qed.

(** Every handler of a RESOLVE_* or REJECT_* message acknowledges with
    [true], whether or not its key has an entry and whether the promise
    of the entry is pending or settled; it leaves the maps and the
    visible trace as they are and neither creates nor drops a promise. *)
Theorem handlers_always_acknowledge (msg : HostRPC.Msg) (w : World) :
  fst (handle msg w) = Done true
  /\ client (snd (handle msg w)) = client w
  /\ visible (trace (snd (handle msg w))) = visible (trace w)
  /\ List.length (promises (snd (handle msg w))) = List.length (promises w).
Proof.
  destruct (handle_frame msg w) as (Hc & _ & Hv & _).
  split_and!; [apply handle_ack|exact Hc|exact Hv|].
  rewrite handle_promises.
  destruct (callbacks _ _ !! _) as [q|]; [|reflexivity].
  destruct (promises w !! q) as [[]|]; try reflexivity. apply length_insert.
Qed.

(** A message whose key has an entry with a pending promise settles
    that promise: a RESOLVE_* fulfils it with the message's output, a
    REJECT_* rejects it with the message's error; no other promise
    changes. *)
Theorem registered_promise_is_settled (msg : HostRPC.Msg) (w : World) (p : nat) :
  callbacks (table_of msg) (client w) !! key_of msg = Some p ->
  promises w !! p = Some Pending ->
  fst (handle msg w) = Done true
  /\ promises (snd (handle msg w)) !! p = Some (settlement msg)
  /\ (forall q, q <> p -> promises (snd (handle msg w)) !! q = promises w !! q).
Proof.
  intros Hc Hp. split_and!; [apply handle_ack| |].
  - rewrite handle_promises, Hc, Hp. apply list_lookup_insert_eq.
    apply lookup_lt_Some in Hp. exact Hp.
  - intros q Hq. rewrite handle_promises, Hc, Hp.
    apply list_lookup_insert_ne. congruence.
Qed.

Lemma deliver_cons (msg : HostRPC.Msg) (msgs : list HostRPC.Msg) (w : World) :
  deliver (msg :: msgs) w = deliver msgs (snd (handle msg w)).
Proof. reflexivity. Qed.

Lemma settlement_not_pending (msg : HostRPC.Msg) : settlement msg <> Pending.
Proof. destruct msg; discriminate. Qed.

(** A settled promise stays as it is whatever messages are handled
    afterwards: a second RESOLVE_* or a REJECT_* for the same key changes
    nothing. *)
Theorem settled_promise_is_final
    (msgs : list HostRPC.Msg) (w : World) (p : nat) (s : Promise) :
  promises w !! p = Some s -> s <> Pending ->
  promises (deliver msgs w) !! p = Some s.
Proof.
  revert w. induction msgs as [|msg msgs IH]; intros w Hp Hs; [exact Hp|].
  rewrite deliver_cons. apply IH; [|exact Hs].
  apply handle_promise_settled; assumption.
Qed.


(** ** Journaled calls *)

Lemma handle_set_inbox (msg : HostRPC.Msg) (script : list EnvEvent) (w : World) :
  snd (handle msg (set_inbox script w)) = set_inbox script (snd (handle msg w)).
Proof.
  destruct msg; cbn [handle]; unfold_handlers; cbn;
    match goal with
    | |- context [ ?m !! ?k ] => destruct (m !! k) as [p|]; cbn
    end;
    try match goal with
    | |- context [ ?ps !! ?p ] => destruct (ps !! p) as [[]|]; cbn
    end; reflexivity.
Qed.

Lemma await_promise_set_inbox (p : nat) (script other : list EnvEvent) (w : World) :
  await_promise p script (set_inbox other w) = await_promise p script w.
Proof.
  revert w. induction script as [|ev script IH]; intros w.
  - cbn. destruct (promises w !! p) as [[]|]; reflexivity.
  - cbn. destruct (promises w !! p) as [[]|]; try reflexivity;
      destruct ev as [msg|o]; try apply IH;
      rewrite handle_set_inbox; apply IH.
Qed.

Lemma await_send_set_inbox (script other : list EnvEvent) (w : World) :
  await_send script (set_inbox other w) = await_send script w.
Proof.
  revert w. induction script as [|ev script IH]; intros w; [reflexivity|].
  destruct ev as [msg|[response|err]]; cbn; try reflexivity.
  rewrite handle_set_inbox. apply IH.
Qed.

Lemma fresh_promise_pending (ps : list Promise) :
  (ps ++ [Pending]) !! List.length ps = Some Pending.
Proof. apply list_lookup_middle. reflexivity. Qed.

(** The reply overtakes the acknowledgement of the intent. *)
Lemma journal_early_reply {A} (hrtime : nat -> string) (t : Table) (key : string)
    (intent : string -> Rpc) (k : Reply -> M A)
    (msg : HostRPC.Msg) (response : Value) (rest : list EnvEvent) (w : World) :
  journal hrtime t key intent k
    (set_inbox (Inbound msg :: SendSettled (inl response) :: rest) w)
  = journal hrtime t key intent k
      (set_inbox (SendSettled (inl response) :: Inbound msg :: rest) w).
Proof.
  unfold journal, bind, new_promise, highPrecisionTimestamp, serverRPC_send, await.
  cbn. rewrite fresh_promise_pending.
  rewrite !handle_set_inbox. cbn.
  rewrite !await_promise_set_inbox.
  match goal with
  | |- context [await_promise ?p rest (snd (handle msg ?w1))] =>
      match goal with
      | |- _ = match await_promise p rest (snd (handle msg ?w2)) with _ => _ end =>
          change w2 with (set_inbox (SendSettled (inl response) :: Inbound msg :: rest) w1)
      end
  end.
  rewrite handle_set_inbox, await_promise_set_inbox. reflexivity.
Qed.


(** ** The promise of a call *)

Lemma new_promise_owns (t : Table) (key : string) (w : World) :
  allocated w ->
  owns t key (List.length (promises w)) (client (snd (new_promise t key w))).
Proof.
  intros Ha. cbn. split; [apply callbacks_set_same|].
  intros t' k'. rewrite callbacks_set_lookup. case_decide as H; [tauto|].
  intros Hp. apply Ha in Hp. lia.
Qed.

Lemma handle_owned (t : Table) (key : string) (p : nat) (s : Promise)
    (msg : HostRPC.Msg) (w : World) :
  owns t key p (client w) ->
  promises w !! p = Some s ->
  promises (snd (handle msg w)) !! p
  = Some (match s with
          | Pending => if decide (addressed t key msg) then settlement msg else Pending
          | _ => s
          end).
Proof.
  intros [Ho Hu] Hp. case_decide as Ha.
  - destruct Ha as [Ht Hk]. rewrite handle_promises, Ht, Hk, Ho, Hp.
    destruct s; try exact Hp.
    apply list_lookup_insert_eq. apply lookup_lt_Some in Hp. exact Hp.
  - rewrite handle_promise_other.
    + rewrite Hp. destruct s; reflexivity.
    + intros Hq. apply Hu in Hq. apply Ha. exact Hq.
Qed.

Lemma advance_settled (t : Table) (key : string) (s : Promise) (script : list EnvEvent) :
  s <> Pending -> advance t key s script = s.
Proof.
  intros Hs. induction script as [|[msg|o] script IH]; cbn; [reflexivity| |exact IH].
  destruct s; [congruence|exact IH..].
Qed.

Lemma advance_pending (t : Table) (key : string) (script : list EnvEvent) :
  advance t key Pending script
  = match reply_to t key script with
    | Some msg => settlement msg
    | None => Pending
    end.
Proof.
  induction script as [|[msg|o] script IH]; cbn; [reflexivity| |exact IH].
  case_decide; [|exact IH].
  apply advance_settled, settlement_not_pending.
Qed.

Lemma await_promise_owned (t : Table) (key : string) (p : nat) (script : list EnvEvent) :
  forall (s : Promise) (w : World),
    owns t key p (client w) ->
    promises w !! p = Some s ->
    fst (await_promise p script w) = awaited (advance t key s script).
Proof.
  induction script as [|ev script IH]; intros s w Ho Hp.
  - cbn. rewrite Hp. destruct s; reflexivity.
  - cbn [await_promise]. rewrite Hp.
    destruct s as [|r|e];
      [|rewrite advance_settled by discriminate; reflexivity..].
    destruct ev as [msg|o]; cbn [advance].
    + apply IH.
      * destruct (handle_frame msg w) as (-> & _). exact Ho.
      * apply (handle_owned t key p Pending msg w Ho Hp).
    + apply IH; assumption.
Qed.

(** [await serverRPC.send(..)] followed by [await result]. *)
Lemma send_then_await (t : Table) (key : string) (p : nat) (script : list EnvEvent) :
  forall (s : Promise) (w : World),
    owns t key p (client w) ->
    promises w !! p = Some s ->
    fst (bind (await_send script) (fun _ => await p) w)
    = match send_result (outcomes script) with
      | Done _ => awaited (advance t key s script)
      | Raised e => Raised e
      | Blocked => Blocked
      end.
Proof.
  induction script as [|ev script IH]; intros s w Ho Hp; [reflexivity|].
  destruct ev as [msg|[response|err]]; [| |reflexivity].
  - unfold bind in *. cbn [await_send outcomes advance].
    apply IH.
    + destruct (handle_frame msg w) as (-> & _). exact Ho.
    + apply (handle_owned t key p s msg w Ho Hp).
  - unfold bind, await. cbn [await_send outcomes send_result advance inbox set_inbox].
    rewrite await_promise_set_inbox.
    apply await_promise_owned; assumption.
Qed.

Lemma bind_fst {A B} (m : M A) (k : A -> M B) (w : World) :
  bind m k w
  = match fst (m w) with
    | Done a => k a (snd (m w))
    | Raised e => (Raised e, snd (m w))
    | Blocked => (Blocked, snd (m w))
    end.
Proof. unfold bind. destruct (m w) as [[a|e|] w']; reflexivity. Qed.

(** How a journaled call goes, by what the transport does with the
    intent and by the first message for the call's entry. *)
Lemma journal_outcome {A} (hrtime : nat -> string) (t : Table) (key : string)
    (intent : string -> Rpc) (k : Reply -> M A) (m : M A) (w : World) :
  m w = journal hrtime t key intent k w ->
  exists w',
    client w' = callbacks_set t key (List.length (promises w)) (client w)
    /\ clock w' = S (clock w)
    /\ visible (trace w') =
       visible (trace w) ++ [ESet t key; ESend (intent (hrtime (clock w)))]
    /\ match send_result (outcomes (inbox w)) with
       | Done _ =>
           allocated w ->
           m w = match reply_to t key (inbox w) with
                 | Some msg =>
                     match settlement msg with
                     | Fulfilled r => k r w'
                     | Rejected e => (Raised e, w')
                     | Pending => (Blocked, w')
                     end
                 | None => (Blocked, w')
                 end
       | Raised e => m w = (Raised e, w')
       | Blocked => m w = (Blocked, w')
       end.
Proof.
  intros Hm. rewrite Hm. clear Hm m.
  pose (p := List.length (promises w)).
  pose (w1 := set_trace (trace (snd (new_promise t key w))
                         ++ [ESend (intent (hrtime (clock w)))])
                (set_clock (S (clock w)) (snd (new_promise t key w)))).
  pose (m := bind (await_send (inbox w)) (fun _ => await p)).
  assert (Hj : journal hrtime t key intent k w = bind m k w1) by
    (unfold journal, m, bind, new_promise, highPrecisionTimestamp, serverRPC_send;
     cbn; destruct (await_send _ _) as [[?|?|] ?]; reflexivity).
  assert (Hsend : match send_result (outcomes (inbox w)) with
                  | Done _ => True
                  | r => fst (m w1) = match r with Raised e => Raised e | _ => Blocked end
                  end).
  { unfold m, bind.
    destruct (await_send_frame (inbox w) w1) as (H1 & _).
    destruct (await_send (inbox w) w1) as [[response|err|] w2]; cbn [fst] in H1;
      rewrite <- H1; auto. }
  assert (Hframe : client (snd (m w1)) = client w1 /\ clock (snd (m w1)) = clock w1
                   /\ visible (trace (snd (m w1))) = visible (trace w1)).
  { unfold m, bind.
    destruct (await_send_frame (inbox w) w1) as (_ & H2 & H3 & H4 & _).
    destruct (await_send (inbox w) w1) as [[response|err|] w2]; cbn [fst snd] in *; auto.
    destruct (await_frame p w2) as (H5 & H6 & H7).
    rewrite H5, H6, H7. auto. }
  destruct Hframe as (Hc & Hk & Hv).
  exists (snd (m w1)). split_and!.
  - rewrite Hc. reflexivity.
  - rewrite Hk. reflexivity.
  - rewrite Hv. cbn. rewrite !visible_app, <- app_assoc. reflexivity.
  - destruct (send_result (outcomes (inbox w))) as [response|err|] eqn:Hs.
    + intros Ha.
      assert (Hfst : fst (m w1) = awaited (advance t key Pending (inbox w))).
      { unfold m. erewrite send_then_await.
        - rewrite Hs. reflexivity.
        - apply (new_promise_owns t key w Ha).
        - cbn. apply fresh_promise_pending. }
      rewrite Hj, bind_fst, Hfst, advance_pending.
      destruct (reply_to _ _ _) as [msg|]; [|reflexivity].
      destruct (settlement msg); reflexivity.
    + rewrite Hj, bind_fst, Hsend. reflexivity.
    + rewrite Hj, bind_fst, Hsend. reflexivity.
Qed.

Lemma reply_to_addressed (t : Table) (key : string) (script : list EnvEvent)
    (msg : HostRPC.Msg) :
  reply_to t key script = Some msg -> addressed t key msg /\ In (Inbound msg) script.
Proof.
  induction script as [|[m|o] script IH]; cbn [reply_to]; [discriminate| |].
  - case_decide as Ha.
    + intros [= <-]. split; [exact Ha|left; reflexivity].
    + intros H. apply IH in H as [? ?]. split; [assumption|right; assumption].
  - intros H. apply IH in H as [? ?]. split; [assumption|right; assumption].
Qed.

Lemma reply_to_None (t : Table) (key : string) (script : list EnvEvent) :
  reply_to t key script = None <->
  forall msg, In (Inbound msg) script -> ~ addressed t key msg.
Proof.
  induction script as [|[m|o] script IH]; cbn [reply_to].
  - split; [intros _ msg []|reflexivity].
  - case_decide as Ha.
    + split; [discriminate|]. intros H. exfalso. apply (H m); [left; reflexivity|exact Ha].
    + rewrite IH. split.
      * intros H msg [[= <-]|Hin]; [exact Ha|apply H; exact Hin].
      * intros H msg Hin. apply H. right. exact Hin.
  - rewrite IH. split.
    + intros H msg [[=]|Hin]. apply H. exact Hin.
    + intros H msg Hin. apply H. right. exact Hin.
Qed.


Lemma bind_journal {A B} (hrtime : nat -> string) (t : Table) (key : string)
    (intent : string -> Rpc) (k : Reply -> M A) (g : A -> M B) (w : World) :
  bind (journal hrtime t key intent k) g w
  = journal hrtime t key intent (fun reply => bind (k reply) g) w.
Proof.
  unfold journal, bind, new_promise, highPrecisionTimestamp. lazy beta iota.
  match goal with
  | |- context [serverRPC_send ?rpc ?w1] =>
      destruct (serverRPC_send rpc w1) as [[?|?|] ?]; [|reflexivity..]
  end.
  match goal with
  | |- context [await ?p ?w1] => destruct (await p w1) as [[?|?|] ?]; reflexivity
  end.
Qed.

Section Calls.

Variable hrtime : nat -> string.
Variable JSON_stringify : Value -> option string + Value.
Variable data : HostRPC.TriggerWorkflow.

(** Every operation of the context has the shape of [journal]. *)
Lemma invoke_journal (j : Journaled) :
  exists k, forall w,
    invoke hrtime JSON_stringify data j w
    = journal hrtime (table_for j) (messageKey (HostRPC.id data) (userKey j))
        (intent (HostRPC.id data) j) k w.
Proof.
  destruct j; cbn [invoke table_for userKey intent]; eexists; intros w;
    exact (bind_journal _ _ _ _ _ _ w).
Qed.

(** When the transport rejects the intent of a context operation, the
    operation throws the transport's error without waiting for a reply:
    it has set its entry and sent its intent, nothing else, and the entry
    stays in the map. *)
Theorem rejected_intent_is_thrown
    (j : Journaled) (err : Value) (os : list (Value + Value)) (w : World) :
  outcomes (inbox w) = inr err :: os ->
  let rw := invoke hrtime JSON_stringify data j w in
  let key := messageKey (HostRPC.id data) (userKey j) in
  fst rw = Raised err
  /\ visible (trace (snd rw)) =
     visible (trace w)
     ++ [ESet (table_for j) key; ESend (intent (HostRPC.id data) j (hrtime (clock w)))]
  /\ callbacks (table_for j) (client (snd rw)) !! key = Some (List.length (promises w)).
Proof.
  intros Ho rw key. subst rw key.
  destruct (invoke_journal j) as (k & Hk).
  destruct (journal_outcome hrtime _ _ _ k (invoke hrtime JSON_stringify data j) w (Hk w))
    as (w' & Hc & _ & Hv & Hj).
  rewrite Ho in Hj. cbn [send_result] in Hj. rewrite Hj. cbn [fst snd].
  split_and!; [reflexivity|exact Hv|]. rewrite Hc. apply callbacks_set_same.
Qed.

(** A context operation whose intent is not rejected stays suspended as
    long as no message arrives for its own map and key, whatever else is
    delivered: a reply for another key, or for the same key in the map of
    another kind, does not resume it.  It has set its entry and sent its
    intent, nothing else. *)
Theorem call_waits_for_its_own_reply (j : Journaled) (w : World) :
  allocated w ->
  (forall msg, In (Inbound msg) (inbox w) ->
     ~ addressed (table_for j) (messageKey (HostRPC.id data) (userKey j)) msg) ->
  not_rejected (outcomes (inbox w)) ->
  let rw := invoke hrtime JSON_stringify data j w in
  fst rw = Blocked
  /\ visible (trace (snd rw)) =
     visible (trace w)
     ++ [ESet (table_for j) (messageKey (HostRPC.id data) (userKey j));
         ESend (intent (HostRPC.id data) j (hrtime (clock w)))].
Proof.
  intros Ha Hn Ho rw. subst rw.
  apply reply_to_None in Hn.
  destruct (invoke_journal j) as (k & Hk).
  destruct (journal_outcome hrtime _ _ _ k (invoke hrtime JSON_stringify data j) w (Hk w))
    as (w' & _ & _ & Hv & Hj).
  rewrite Hn in Hj.
  destruct (outcomes (inbox w)) as [|[response|err] os]; cbn [send_result] in Hj;
    [|specialize (Hj Ha)|contradiction]; rewrite Hj; auto.
Qed.

(** The entry is in the map before the intent is sent, so a reply that
    arrives before the send is acknowledged is not lost: the operation
    ends as it does when the reply arrives after the acknowledgement, in
    the same state. *)
Theorem reply_may_overtake_acknowledgement
    (j : Journaled) (msg : HostRPC.Msg) (response : Value) (rest : list EnvEvent)
    (w : World) :
  invoke hrtime JSON_stringify data j (set_inbox (Inbound msg :: SendSettled (inl response) :: rest) w)
  = invoke hrtime JSON_stringify data j (set_inbox (SendSettled (inl response) :: Inbound msg :: rest) w).
Proof.
  destruct (invoke_journal j) as (k & Hk). rewrite !Hk. apply journal_early_reply.
Qed.

(** [performRequest], once its send has resolved, ends by the first
    message for its key in the map of requests: on RESOLVE_REQUEST it
    returns the output as it is without a response schema and the parsed
    output with one (throwing when the output does not conform; a falsy
    output is parsed like any other); on REJECT_REQUEST it throws the
    message's error. *)
Theorem performRequest_returns_or_throws
    (key : string) (options : Types.PerformRequestOptions) (msg : HostRPC.Msg)
    (response : Value) (os : list (Value + Value)) (w : World) :
  allocated w ->
  outcomes (inbox w) = inl response :: os ->
  reply_to ResponseComplete (messageKey (HostRPC.id data) key) (inbox w) = Some msg ->
  let rw := performRequest hrtime data key options w in
  (forall runId k output,
      msg = HostRPC.RESOLVE_REQUEST runId k output ->
      fst rw = match Types.response_schema options with
               | None => Done output
               | Some schema =>
                   match schema output with
                   | inl parsed => Done parsed
                   | inr zodError => Raised zodError
                   end
               end)
  /\ (forall runId k error,
        msg = HostRPC.REJECT_REQUEST runId k error -> fst rw = Raised error)
  /\ ((exists runId k output, msg = HostRPC.RESOLVE_REQUEST runId k output)
      \/ (exists runId k error, msg = HostRPC.REJECT_REQUEST runId k error)).
Proof.
  intros Ha Ho Hr rw. subst rw.
  destruct (journal_outcome hrtime _ _ _ _ (performRequest hrtime data key options) w
              eq_refl) as (w' & _ & _ & _ & Hj).
  rewrite Ho in Hj. cbn [send_result] in Hj. specialize (Hj Ha). rewrite Hr in Hj.
  apply reply_to_addressed in Hr as [[Ht _] _].
  split_and!.
  - intros runId k output ->. rewrite Hj. cbn [settlement].
    unfold the_value, bind, ret, z.parse, raise.
    destruct (Types.response_schema options) as [schema|]; [|reflexivity].
    destruct (schema output); reflexivity.
  - intros runId k error ->. rewrite Hj. reflexivity.
  - destruct msg; try discriminate Ht; eauto 6.
Qed.

(** [fetch] throws the error of REJECT_FETCH_REQUEST when that is the
    first message for its key; it has set its entry and sent SEND_FETCH,
    nothing else. *)
Theorem fetch_rejection_is_thrown
    (key url : string) (options : Types.FetchOptions) (runId k : string)
    (error response : Value) (os : list (Value + Value)) (w : World) :
  allocated w ->
  outcomes (inbox w) = inl response :: os ->
  reply_to Fetch (messageKey (HostRPC.id data) key) (inbox w)
  = Some (HostRPC.REJECT_FETCH_REQUEST runId k error) ->
  let rw := fetchFunction hrtime data key url options w in
  fst rw = Raised error
  /\ visible (trace (snd rw)) =
     visible (trace w)
     ++ [ESet Fetch (messageKey (HostRPC.id data) key);
         ESend (intent (HostRPC.id data) (Jfetch key url options) (hrtime (clock w)))].
Proof.
  intros Ha Ho Hr rw. subst rw.
  destruct (journal_outcome hrtime _ _ _ _ (fetchFunction hrtime data key url options) w
              eq_refl) as (w' & _ & _ & Hv & Hj).
  rewrite Ho in Hj. cbn [send_result] in Hj. specialize (Hj Ha). rewrite Hr in Hj.
  cbn [settlement] in Hj. rewrite Hj. split; [reflexivity|exact Hv].
Qed.

(** [runOnceLocalOnly] calls the callback once, with the idempotency key
    of the reply, whether or not the reply has [hasRun]; it ends as the
    callback does and sends no COMPLETE_RUN_ONCE. *)
Theorem runOnceLocalOnly_always_calls_back
    (key : string) (callback : string -> Res Value) (runId k : string)
    (o : HostRPC.RunOnceOutput) (response : Value) (os : list (Value + Value))
    (w : World) :
  allocated w ->
  outcomes (inbox w) = inl response :: os ->
  reply_to RunOnce (messageKey (HostRPC.id data) key) (inbox w)
  = Some (HostRPC.RESOLVE_RUN_ONCE runId k o) ->
  let rw := runOnceLocalOnly hrtime data key callback w in
  fst rw = callback (HostRPC.idempotencyKey o)
  /\ visible (trace (snd rw)) =
     visible (trace w)
     ++ [ESet RunOnce (messageKey (HostRPC.id data) key);
         ESend (INITIALIZE_RUN_ONCE (HostRPC.id data) key LOCAL_ONLY (hrtime (clock w)));
         ECallback (HostRPC.idempotencyKey o)].
Proof.
  intros Ha Ho Hr rw. subst rw.
  destruct (journal_outcome hrtime _ _ _ _ (runOnceLocalOnly hrtime data key callback) w
              eq_refl) as (w' & _ & _ & Hv & Hj).
  rewrite Ho in Hj. cbn [send_result] in Hj. specialize (Hj Ha). rewrite Hr in Hj.
  cbn [settlement] in Hj. rewrite Hj.
  unfold the_RunOnceOutput, call, bind, ret, emit, settle. cbn [fst snd trace set_trace].
  rewrite visible_app, Hv, <- app_assoc. split; reflexivity.
Qed.

(** [waitFor] and [waitUntil], once their send has resolved, return as
    soon as a message for their key has arrived in the map of delays,
    and are suspended until then. *)
Theorem delays_resume_on_RESOLVE_DELAY
    (key date : string) (options : Types.WaitForOptions) (response : Value)
    (os : list (Value + Value)) (w : World) :
  allocated w ->
  outcomes (inbox w) = inl response :: os ->
  let returned := match reply_to WaitFor (messageKey (HostRPC.id data) key) (inbox w) with
                 | Some _ => Done tt
                 | None => Blocked
                 end in
  fst (waitFor hrtime data key options w) = returned
  /\ fst (waitUntil hrtime data key date w) = returned.
Proof.
  intros Ha Ho returned. subst returned.
  destruct (journal_outcome hrtime _ _ _ _ (waitFor hrtime data key options) w eq_refl)
    as (w1 & _ & _ & _ & H1).
  destruct (journal_outcome hrtime _ _ _ _ (waitUntil hrtime data key date) w eq_refl)
    as (w2 & _ & _ & _ & H2).
  rewrite Ho in H1, H2. cbn [send_result] in H1, H2.
  specialize (H1 Ha). specialize (H2 Ha). rewrite H1, H2.
  destruct (reply_to _ _ _) as [msg|] eqn:Hr; [|split; reflexivity].
  apply reply_to_addressed in Hr as [[Ht _] _].
  destruct msg; try discriminate Ht. split; reflexivity.
Qed.

(** Once its send has resolved, [kvGet] returns the output of the first
    RESOLVE_KV_GET for its key, as it is, and [kvSet] and [kvDelete]
    return once a message for their key has arrived in their map; each
    is suspended until then. *)
Theorem kv_operations_resume_on_reply
    (op : Types.KvOperation) (response : Value) (os : list (Value + Value)) (w : World) :
  allocated w ->
  outcomes (inbox w) = inl response :: os ->
  let key := messageKey (HostRPC.id data) (Types.idempotencyKey op) in
  fst (kvGetFunction hrtime data op w)
  = match reply_to KvGet key (inbox w) with
    | Some (HostRPC.RESOLVE_KV_GET _ _ output) => Done output
    | _ => Blocked
    end
  /\ fst (kvSetFunction hrtime data op w)
     = match reply_to KvSet key (inbox w) with Some _ => Done tt | None => Blocked end
  /\ fst (kvDeleteFunction hrtime data op w)
     = match reply_to KvDelete key (inbox w) with Some _ => Done tt | None => Blocked end.
Proof.
  intros Ha Ho key. subst key.
  destruct (journal_outcome hrtime _ _ _ _ (kvGetFunction hrtime data op) w eq_refl)
    as (w1 & _ & _ & _ & H1).
  destruct (journal_outcome hrtime _ _ _ _ (kvSetFunction hrtime data op) w eq_refl)
    as (w2 & _ & _ & _ & H2).
  destruct (journal_outcome hrtime _ _ _ _ (kvDeleteFunction hrtime data op) w eq_refl)
    as (w3 & _ & _ & _ & H3).
  rewrite Ho in H1, H2, H3. cbn [send_result] in H1, H2, H3.
  specialize (H1 Ha). specialize (H2 Ha). specialize (H3 Ha). rewrite H1, H2, H3.
  clear H1 H2 H3.
  split_and!;
    (destruct (reply_to _ _ _) as [msg|] eqn:Hr; [|reflexivity]);
    apply reply_to_addressed in Hr as [[Ht _] _];
    destruct msg; try discriminate Ht; reflexivity.
Qed.

End Calls.


(** ** The run, beyond its terminal request *)

Section Runs.

Variable hrtime : nat -> string.
Variable JSON_stringify : Value -> option string + Value.
Variable terminalLink : string -> string -> string.
Variable generateErrorMessage : list z.ZodIssue -> string -> string.
Variable on_schema_safeParse : Value -> z.SafeParse.
Variable run : Value -> Run.
Variable data : HostRPC.TriggerWorkflow.

Lemma not_enters (w : World) :
  ~ enters data w ->
  registerResponse_url (client w) = None
  /\ HostRPC.attempt (HostRPC.meta data) = Some 0.
Proof.
  intros He. split.
  - destruct (registerResponse_url (client w)) eqn:Hu; [|reflexivity].
    exfalso. apply He. left. rewrite Hu. discriminate.
  - destruct (decide (HostRPC.attempt (HostRPC.meta data) = Some 0)) as [Ha|Ha];
      [exact Ha|]. exfalso. apply He. right. exact Ha.
Qed.

(** When the event input validates, the handler of TRIGGER_WORKFLOW
    returns [true] without waiting for the run, whatever the run function
    does and however the sends end, provided it gets as far as the chain:
    the client is registered or the attempt is not 0.  Otherwise it
    throws the [TypeError] of reading the url of a registration that is
    not there, and has sent nothing.  In both cases every key that has an
    entry keeps one, and while the START_WORKFLOW_RUN send or the promise
    of the run function is pending no terminal request is sent. *)
Theorem valid_event_is_acknowledged_at_once (eventData : Value) (w : World) :
  on_schema_safeParse (HostRPC.trigger_input data) = z.success eventData ->
  let rw := TRIGGER_WORKFLOW hrtime JSON_stringify terminalLink generateErrorMessage
              on_schema_safeParse run data w in
  (enters data w -> fst rw = Done true)
  /\ (~ enters data w ->
      fst rw = Raised cannot_read_url
      /\ client (snd rw) = client w
      /\ visible (trace (snd rw)) = visible (trace w))
  /\ (forall t key,
        is_Some (callbacks t (client w) !! key) ->
        is_Some (callbacks t (client (snd rw)) !! key))
  /\ (outcomes (inbox w) = [] -> terminals (trace (snd rw)) = terminals (trace w))
  /\ (forall response os body w2,
        enters data w ->
        outcomes (inbox w) = inl response :: os ->
        run eventData = Promised body ->
        run_settled hrtime JSON_stringify terminalLink data eventData body w
        = (Blocked, w2) ->
        terminals (trace (snd rw)) = terminals (trace w)).
Proof.
  intros Hs rw. subst rw. split_and!.
  - intros He.
    destruct (TRIGGER_WORKFLOW_entered hrtime JSON_stringify terminalLink
                generateErrorMessage on_schema_safeParse run data eventData w Hs He)
      as (Hr & _).
    exact Hr.
  - intros He. apply not_enters in He as [Hu Ha].
    destruct (TRIGGER_WORKFLOW_unregistered hrtime JSON_stringify terminalLink
                generateErrorMessage on_schema_safeParse run data eventData w Hs Hu Ha)
      as (Hr & Hc & Hv & _).
    auto.
  - apply TRIGGER_WORKFLOW_keeps.
  - intros Ho. destruct (decide (enters data w)) as [He|He].
    + destruct (TRIGGER_WORKFLOW_opening hrtime JSON_stringify terminalLink
                  generateErrorMessage on_schema_safeParse run data eventData w Hs He)
        as (_ & _ & Hv & _).
      { rewrite Ho. exact I. }
      apply terminals_visible in Hv. rewrite Hv, Ho, sends_app, prelude_sends.
      apply app_nil_r.
    + apply not_enters in He as [Hu Ha].
      destruct (TRIGGER_WORKFLOW_unregistered hrtime JSON_stringify terminalLink
                  generateErrorMessage on_schema_safeParse run data eventData w Hs Hu Ha)
        as (_ & _ & Hv & _).
      cbn zeta in Hv. unfold terminals.
      rewrite <- sends_visible, Hv, sends_visible. reflexivity.
  - intros response os body w2 He Ho Hrun Hrs.
    rewrite (TRIGGER_WORKFLOW_terminals hrtime JSON_stringify terminalLink
               generateErrorMessage on_schema_safeParse run data eventData response os
               body Blocked w w2 Hs He Ho Hrun Hrs).
    apply app_nil_r.
Qed.

(** When the send of the terminal request is rejected, the rejection is
    reported once more and then dropped.  After a rejected
    COMPLETE_WORKFLOW_RUN the normalized cause goes out as
    SEND_WORKFLOW_ERROR, and if that send is rejected too, its cause goes
    out as it is.  After a rejected SEND_WORKFLOW_ERROR of the inner
    [catch] (for the value the promise of the run function rejected
    with, or for what reporting the output threw) the cause goes out as
    it is.  Nothing follows the SEND_WORKFLOW_ERROR of a value the run
    function threw before it returned a promise, rejected or not.  The
    handler has returned [true] all the same. *)
Theorem rejected_terminal_send_is_reported
    (eventData response : Value) (os : list (Value + Value)) (w : World) :
  on_schema_safeParse (HostRPC.trigger_input data) = z.success eventData ->
  enters data w ->
  outcomes (inbox w) = inl response :: os ->
  let rw := TRIGGER_WORKFLOW hrtime JSON_stringify terminalLink generateErrorMessage
              on_schema_safeParse run data w in
  let runId := HostRPC.id data in
  fst rw = Done true
  /\ (forall e,
        run eventData = Thrown e ->
        terminals (trace (snd rw)) =
          terminals (trace w) ++ [SEND_WORKFLOW_ERROR runId e (hrtime (S (clock w)))])
  /\ (forall body settled w2 cause os2,
        run eventData = Promised body ->
        run_settled hrtime JSON_stringify terminalLink data eventData body w
        = (settled, w2) ->
        outcomes (inbox w2) = inr cause :: os2 ->
        let t := clock w2 in
        let reported_twice anyError :=
          [SEND_WORKFLOW_ERROR runId (parseAnyError anyError) (hrtime t);
           SEND_WORKFLOW_ERROR runId cause (hrtime (S t))] in
        terminals (trace (snd rw)) =
          terminals (trace w)
          ++ match settled with
             | Done output =>
                 match registerResponse_url (client w), JSON_stringify output with
                 | Some _, inl s =>
                     COMPLETE_WORKFLOW_RUN runId s (hrtime t)
                     :: SEND_WORKFLOW_ERROR runId (parseAnyError cause) (hrtime (S t))
                     :: match os2 with
                        | inr cause2 :: _ =>
                            [SEND_WORKFLOW_ERROR runId cause2 (hrtime (S (S t)))]
                        | _ => []
                        end
                 | Some _, inr e => reported_twice e
                 | None, _ => reported_twice cannot_read_url
                 end
             | Raised e => reported_twice e
             | Blocked => []
             end).
Proof.
  intros Hs He Ho rw runId. subst rw runId. split_and!.
  - destruct (TRIGGER_WORKFLOW_entered hrtime JSON_stringify terminalLink
                generateErrorMessage on_schema_safeParse run data eventData w Hs He)
      as (Hr & _).
    exact Hr.
  - intros e Hrun.
    destruct (TRIGGER_WORKFLOW_opening hrtime JSON_stringify terminalLink
                generateErrorMessage on_schema_safeParse run data eventData w Hs He)
      as (_ & _ & Hv & _).
    { rewrite Ho, Hrun. exact I. }
    apply terminals_visible in Hv. rewrite Hv, Ho, Hrun, sends_app, prelude_sends.
    reflexivity.
  - intros body settled w2 cause os2 Hrun Hrs Ho2 t reported_twice.
    subst t reported_twice.
    rewrite (TRIGGER_WORKFLOW_terminals hrtime JSON_stringify terminalLink
               generateErrorMessage on_schema_safeParse run data eventData response os
               body settled w w2 Hs He Ho Hrun Hrs).
    rewrite Ho2. f_equal. unfold conclusion, reported.
    destruct settled as [output|e|]; [|reflexivity..].
    destruct (registerResponse_url (client w)); [|reflexivity].
    destruct (JSON_stringify output); [|reflexivity].
    destruct os2 as [|[?|?] ?]; reflexivity.
Qed.

Lemma conclusion_line (runId : string) (registered : option string) (t : nat)
    (os : list (Value + Value)) (settled : Res Value) (level : Level) (message : string) :
  In (ELog level message)
     (conclusion hrtime JSON_stringify terminalLink runId registered t os settled) ->
  exists output url,
    settled = Done output /\ registered = Some url
    /\ message = run_complete terminalLink url runId.
Proof.
  unfold conclusion, reported.
  destruct settled as [output|err|]; [destruct registered as [url0|];
    [destruct (JSON_stringify output) as [s|err]|]| |];
    destruct os as [|[?|?] [|[?|?] ?]]; cbn [In];
    intros Hin; repeat destruct Hin as [Hin|Hin]; try contradiction;
    try discriminate Hin; injection Hin as <- <-; eauto.
Qed.

(** The line [Run <id> complete] is printed, by a registered client,
    iff the START_WORKFLOW_RUN send resolves and the promise of the run
    function resolves, on every attempt, and never by a client that is
    not registered; it comes after the call of the
    run function and right before the output is serialized: the
    COMPLETE_WORKFLOW_RUN send follows it when [JSON.stringify] returns,
    and the SEND_WORKFLOW_ERROR of the error it throws when it throws. *)
Theorem run_complete_is_logged_iff_run_resolves (eventData : Value) (w : World) :
  on_schema_safeParse (HostRPC.trigger_input data) = z.success eventData ->
  let w' := snd (TRIGGER_WORKFLOW hrtime JSON_stringify terminalLink generateErrorMessage
                   on_schema_safeParse run data w) in
  let runId := HostRPC.id data in
  exists delta,
    visible (trace w') = visible (trace w) ++ delta
    /\ (forall url,
          registerResponse_url (client w) = Some url ->
          In (ELog Log (run_complete terminalLink url runId)) delta <->
          exists response os body output w2,
            outcomes (inbox w) = inl response :: os
            /\ run eventData = Promised body
            /\ run_settled hrtime JSON_stringify terminalLink data eventData body w
               = (Done output, w2))
    /\ (registerResponse_url (client w) = None ->
        forall url, ~ In (ELog Log (run_complete terminalLink url runId)) delta)
    /\ (forall url response os body output w2,
          registerResponse_url (client w) = Some url ->
          outcomes (inbox w) = inl response :: os ->
          run eventData = Promised body ->
          run_settled hrtime JSON_stringify terminalLink data eventData body w
          = (Done output, w2) ->
          exists before after,
            delta = before ++ ELog Log (run_complete terminalLink url runId) :: after
            /\ In (ERun eventData) before
            /\ (forall s,
                  JSON_stringify output = inl s ->
                  exists rest,
                    after = ESend (COMPLETE_WORKFLOW_RUN runId s (hrtime (clock w2)))
                            :: rest)
            /\ (forall e,
                  JSON_stringify output = inr e ->
                  exists rest,
                    after = ESend (SEND_WORKFLOW_ERROR runId (parseAnyError e)
                                     (hrtime (clock w2)))
                            :: rest
                    /\ List.filter is_COMPLETE_WORKFLOW_RUN (sends rest) = [])).
Proof.
  intros Hs w' runId. subst w' runId.
  assert (Hprelude : forall registered url,
             ~ In (ELog Log (run_complete terminalLink url (HostRPC.id data)))
                 (prelude terminalLink data registered)).
  { intros registered url. unfold prelude.
    destruct registered; [destruct (decide _)|]; cbn [In]; try tauto.
    intros [H|[]].
    apply (f_equal (fun e => match e with ELog _ m => m | _ => EmptyString end)) in H.
    exact (started_not_complete _ _ _ _ H). }
  destruct (decide (enters data w)) as [He|He].
  - destruct (outcomes (inbox w)) as [|[response|cause] os] eqn:Ho;
      [|destruct (run eventData) as [err|body] eqn:Hrun|];
      try (destruct (TRIGGER_WORKFLOW_opening hrtime JSON_stringify terminalLink
                       generateErrorMessage on_schema_safeParse run data eventData w
                       Hs He) as (_ & _ & Hv & _);
           [rewrite Ho, ?Hrun; exact I|];
           rewrite Ho, ?Hrun in Hv; cbn [opening] in Hv;
           assert (Hno : forall url,
                      ~ In (ELog Log (run_complete terminalLink url (HostRPC.id data)))
                          (prelude terminalLink data (registerResponse_url (client w))
                           ++ opening hrtime (HostRPC.id data) (clock w)
                                (outcomes (inbox w)) eventData (run eventData)))
             by (intros url Hin; apply in_app_or in Hin as [Hin|Hin];
                 [exact (Hprelude _ _ Hin)
                 |rewrite Ho, ?Hrun in Hin; cbn [opening In] in Hin;
                  repeat destruct Hin as [Hin|Hin];
                  try contradiction; discriminate Hin]);
           rewrite Ho, ?Hrun in Hno; cbn [opening] in Hno;
           eexists; split; [exact Hv|]; split_and!;
           [intros url _; split;
            [intros Hin; exfalso; exact (Hno _ Hin)
            |intros (? & ? & ? & ? & ? & ? & ? & ?); congruence]
           |intros _; exact Hno
           |intros; congruence]).
    destruct (run_settled hrtime JSON_stringify terminalLink data eventData body w)
      as [settled w2] eqn:Hrs.
    destruct (TRIGGER_WORKFLOW_settled hrtime JSON_stringify terminalLink
                generateErrorMessage on_schema_safeParse run data eventData response os
                body settled w w2 Hs He Ho Hrun Hrs) as (_ & _ & Hv & _).
    destruct (run_settled_grows hrtime JSON_stringify terminalLink data eventData
                response os body settled w w2 He Ho Hrs)
      as (_ & Hu & _ & (delta & Hv2 & Hq) & _).
    cbn zeta in Hv. rewrite Hv2, Hu in Hv.
    assert (Hin_delta : forall url,
               In (ELog Log (run_complete terminalLink url (HostRPC.id data)))
                  ((prelude terminalLink data (registerResponse_url (client w))
                    ++ ESend (START_WORKFLOW_RUN (HostRPC.id data) (hrtime (clock w)))
                       :: ERun eventData :: delta)
                   ++ conclusion hrtime JSON_stringify terminalLink (HostRPC.id data)
                        (registerResponse_url (client w)) (clock w2)
                        (outcomes (inbox w2)) settled) ->
               exists output url0,
                 settled = Done output /\ registerResponse_url (client w) = Some url0).
    { intros url Hin. apply in_app_or in Hin as [Hin|Hin].
      - exfalso. apply in_app_or in Hin as [Hin|Hin]; [exact (Hprelude _ _ Hin)|].
        destruct Hin as [Hin|[Hin|Hin]]; try discriminate Hin.
        apply (quiet_In _ _ Hq) in Hin. discriminate Hin.
      - apply conclusion_line in Hin as (output & url0 & -> & Hu0 & _). eauto. }
    rewrite <- app_assoc in Hv.
    eexists. split; [exact Hv|]. split_and!.
    + intros url Hu0. split.
      * intros Hin. apply Hin_delta in Hin as (output & _ & -> & _). eauto 10.
      * intros (response' & os' & body' & output & w2' & _ & Hb & Hrs').
        assert (body' = body) as -> by congruence.
        rewrite Hrs in Hrs'. injection Hrs' as -> ->.
        apply in_or_app. right. rewrite Hu0. cbn [conclusion]. left. reflexivity.
    + intros Hu0 url Hin. apply Hin_delta in Hin as (_ & url0 & _ & Hu1). congruence.
    + intros url response' os' body' output w2' Hu0 _ Hb Hrs'.
      assert (body' = body) as -> by congruence.
      rewrite Hrs in Hrs'. injection Hrs' as -> ->.
      rewrite Hu0. cbn [conclusion].
      exists (prelude terminalLink data (Some url)
              ++ ESend (START_WORKFLOW_RUN (HostRPC.id data) (hrtime (clock w)))
                 :: ERun eventData :: delta).
      eexists. split_and!.
      * reflexivity.
      * apply in_or_app. right. right. left. reflexivity.
      * intros s ->. eexists. reflexivity.
      * intros e ->. unfold reported. eexists. split; [reflexivity|].
        destruct (outcomes (inbox w2')) as [|[?|?] ?]; reflexivity.
  - apply not_enters in He as [Hu Ha].
    destruct (TRIGGER_WORKFLOW_unregistered hrtime JSON_stringify terminalLink
                generateErrorMessage on_schema_safeParse run data eventData w Hs Hu Ha)
      as (_ & _ & Hv & _).
    cbn zeta in Hv. exists []. split; [rewrite app_nil_r; exact Hv|]. split_and!.
    + intros; congruence.
    + intros _ url [].
    + intros; congruence.
Qed.

End Runs.
(** ** [#initializeHost] *)

Lemma send_loop_client (rpc : Rpc) (fuel : nat) (w : World) :
  client (snd (send_loop fuel rpc w)) = client w.
Proof.
  revert w. induction fuel as [|fuel IH]; intros w; [reflexivity|].
  cbn [send_loop]. unfold try_catch, bind, logger, emit, sleep, raise. norm.
  send_step. destruct (send_result _) as [response|err|]; norm; try assumption.
  destruct (instanceofTimeoutError err); norm; [|assumption].
  unfold emit. norm. rewrite IH. norm. assumption.
Qed.

Lemma sends_retry_visible (rpc : Rpc) (errs : list Value) :
  sends (retry_visible rpc errs) = repeat rpc (List.length errs).
Proof.
  unfold retry_visible.
  induction errs as [|err errs IH]; [reflexivity|].
  cbn [flat_map]. rewrite sends_app, IH. reflexivity.
Qed.

Lemma repeat_snoc {A} (x : A) (n : nat) : repeat x n ++ [x] = repeat x (S n).
Proof. induction n as [|n IH]; [reflexivity|]. cbn. rewrite IH. reflexivity. Qed.

Section InitializeHostProperties.

Variable safeGetRepoInfo : option RepoInfo.t.
Variable getRemoteUrl : string -> Value.
Variable readPackageJson : string -> Res Value.
Variable env : ProcessEnv.
Variable this : Host.t.

Lemma initializeHost_unfold (fuel : nat) (w : World) :
  initializeHost safeGetRepoInfo getRemoteUrl readPackageJson env this fuel w
  = if negb (Host.connection this)
    then (Raised (new_Error "Cannot initialize host without a connection"), w)
    else if negb (serverRPC_initialized (client w))
    then (Raised (new_Error "Cannot initialize host without an RPC connection"), w)
    else
      match getTriggerPackageEnvVars readPackageJson env with
      | Done packageMetadata =>
          bind (send_loop fuel
                  (registration safeGetRepoInfo getRemoteUrl env this packageMetadata))
            register w
      | Raised e => (Raised e, w)
      | Blocked => (Blocked, w)
      end.
Proof.
  unfold initializeHost.
  destruct (Host.connection this); [|reflexivity]. cbn [negb].
  unfold bind at 1, this_client.
  destruct (serverRPC_initialized (client w)) eqn:Hr; [|reflexivity]. cbn [negb].
  unfold bind at 1, settle.
  destruct (getTriggerPackageEnvVars readPackageJson env) as [packageMetadata|e|];
    [|reflexivity..].
  unfold bind at 1 3, send. rewrite Hr. reflexivity.
Qed.

Ltac host_done :=
  solve [ cbn [fst snd client set_client set_trace serverRPC_initialized
               registerResponse_url];
          split_and!; intros;
          repeat match goal with H : client _ = _ |- _ => rewrite H in *; clear H end;
          try reflexivity; try discriminate; try congruence;
          match goal with t : Table |- _ => destruct t; reflexivity end ].

(** [#initializeHost] throws at once, sending nothing, without a
    connection or without an RPC; it never touches the maps or the RPC,
    and the registration changes only when it returns. *)
Theorem initializeHost_needs_connection_and_rpc (fuel : nat) (w : World) :
  let rw := initializeHost safeGetRepoInfo getRemoteUrl readPackageJson env this fuel w in
  (Host.connection this = false ->
   rw = (Raised (new_Error "Cannot initialize host without a connection"), w))
  /\ (Host.connection this = true ->
      serverRPC_initialized (client w) = false ->
      rw = (Raised (new_Error "Cannot initialize host without an RPC connection"), w))
  /\ serverRPC_initialized (client (snd rw)) = serverRPC_initialized (client w)
  /\ (forall t, callbacks t (client (snd rw)) = callbacks t (client w))
  /\ (registerResponse_url (client (snd rw)) <> registerResponse_url (client w) ->
      fst rw = Done tt).
Proof.
  intros rw. subst rw. rewrite initializeHost_unfold.
  destruct (Host.connection this); cbn [negb]; [|host_done].
  destruct (serverRPC_initialized (client w)) eqn:Hr; cbn [negb]; [|host_done].
  destruct (getTriggerPackageEnvVars readPackageJson env) as [packageMetadata|e|];
    [|host_done..].
  rewrite bind_fst.
  match goal with
  | |- context [send_loop fuel ?rpc w] =>
      pose proof (send_loop_client rpc fuel w) as Hcl;
      destruct (send_loop fuel rpc w) as [[response|err|] w1]
  end; cbn [fst snd] in Hcl |- *; [|host_done..].
  unfold register, the_message, the_url, bind, raise, ret, set_registerResponse_url,
    logger, emit.
  destruct (truthy response); cbn [negb]; [|host_done].
  destruct response as [| | | | | | |fields|]; try host_done.
  destruct (strict_equal _ _).
  - destruct (get "message" fields) as [[]|]; host_done.
  - destruct (get "data" fields) as [[| | | | | | |data|]|]; try host_done.
    destruct (get "url" data) as [[]|]; host_done.
Qed.

(** With a connection and an RPC, [#initializeHost] sends its request
    until the send no longer times out. *)
Lemma initializeHost_sends
    (fuel : nat) (w : World) (packageMetadata : Value) (timeouts : list Value)
    (o : Value + Value) (rest : list (Value + Value)) :
  Host.connection this = true ->
  serverRPC_initialized (client w) = true ->
  getTriggerPackageEnvVars readPackageJson env = Done packageMetadata ->
  outcomes (inbox w) = List.map inr timeouts ++ o :: rest ->
  Forall (fun e => instanceofTimeoutError e = true) timeouts ->
  (forall e, o = inr e -> instanceofTimeoutError e = false) ->
  (List.length timeouts < fuel)%nat ->
  exists w1,
    initializeHost safeGetRepoInfo getRemoteUrl readPackageJson env this fuel w
    = match o with
      | inl response => register response w1
      | inr err => (Raised err, w1)
      end
    /\ client w1 = client w
    /\ sends (trace w1)
       = sends (trace w)
         ++ repeat (registration safeGetRepoInfo getRemoteUrl env this packageMetadata)
              (S (List.length timeouts)).
Proof.
  intros Hc Hr Hp Ho Ht Hn Hlen.
  pose (rpc := registration safeGetRepoInfo getRemoteUrl env this packageMetadata).
  destruct (send_loop_returns rpc timeouts o rest fuel w Ho Ht Hn Hlen) as (Hres & Hv).
  pose proof (send_loop_client rpc fuel w) as Hcl.
  exists (snd (send_loop fuel rpc w)). split_and!; [|exact Hcl|].
  - rewrite initializeHost_unfold, Hc, Hr, Hp. cbn [negb]. fold rpc.
    rewrite bind_fst, Hres. destruct o; reflexivity.
  - apply (f_equal sends) in Hv. rewrite !sends_visible, !sends_app in Hv.
    rewrite Hv, sends_visible, sends_retry_visible. cbn [sends].
    rewrite repeat_snoc. reflexivity.
Qed.

Lemma register_frame (response : Value) (w : World) :
  sends (trace (snd (register response w))) = sends (trace w)
  /\ (fst (register response w) <> Done tt -> client (snd (register response w)) = client w).
Proof.
  unfold register, the_message, the_url, bind, raise, ret, set_registerResponse_url,
    logger, emit.
  destruct (truthy response); cbn [negb]; [|auto].
  destruct response as [| | | | | | |fields|]; auto.
  destruct (strict_equal _ _).
  - destruct (get "message" fields) as [[]|]; auto.
  - destruct (get "data" fields) as [[| | | | | | |data|]|]; auto.
    destruct (get "url" data) as [[]|]; auto.
    cbn. rewrite sends_app, app_nil_r. split; [reflexivity|congruence].
Qed.

(** With a connection and an RPC, [#initializeHost] sends the same
    registration until the send no longer times out.  It throws the
    rejection of the send; it throws "Could not initialize workflow with
    server" on a falsy response; it throws an [Error] with the server's
    message on a response of type [error].  Whenever it does not return,
    the client is as it was. *)
Theorem initializeHost_throws_what_the_server_reports
    (fuel : nat) (w : World) (packageMetadata : Value) (timeouts : list Value)
    (o : Value + Value) (rest : list (Value + Value)) :
  Host.connection this = true ->
  serverRPC_initialized (client w) = true ->
  getTriggerPackageEnvVars readPackageJson env = Done packageMetadata ->
  outcomes (inbox w) = List.map inr timeouts ++ o :: rest ->
  Forall (fun e => instanceofTimeoutError e = true) timeouts ->
  (forall e, o = inr e -> instanceofTimeoutError e = false) ->
  (List.length timeouts < fuel)%nat ->
  let rw := initializeHost safeGetRepoInfo getRemoteUrl readPackageJson env this fuel w in
  (forall err, o = inr err -> fst rw = Raised err)
  /\ (forall response,
        o = inl response -> truthy response = false ->
        fst rw = Raised (new_Error "Could not initialize workflow with server"))
  /\ (forall fields message,
        o = inl (VObj fields) ->
        get "type" fields = Some (VStr "error") ->
        get "message" fields = Some (VStr message) ->
        fst rw = Raised (new_Error message))
  /\ (fst rw <> Done tt -> client (snd rw) = client w)
  /\ sends (trace (snd rw))
     = sends (trace w)
       ++ repeat (registration safeGetRepoInfo getRemoteUrl env this packageMetadata)
            (S (List.length timeouts)).
Proof.
  intros Hc Hr Hp Ho Ht Hn Hlen rw. subst rw.
  destruct (initializeHost_sends fuel w packageMetadata timeouts o rest
              Hc Hr Hp Ho Ht Hn Hlen) as (w1 & -> & Hcl & Hs).
  split_and!.
  - intros err ->. reflexivity.
  - intros response -> Hf. unfold register. rewrite Hf. reflexivity.
  - intros fields message -> Hty Hm. unfold register, the_message, bind, raise, ret.
    rewrite Hty, Hm. reflexivity.
  - destruct o as [response|err]; [|intros _; exact Hcl].
    intros H. apply register_frame in H. rewrite H. exact Hcl.
  - destruct o as [response|err]; [|exact Hs].
    destruct (register_frame response w1) as (-> & _). exact Hs.
Qed.

(** On any other response [#initializeHost] returns and keeps the
    response's data: the url of the registration is the one the server
    sent, and the line [Run <id> started] of a later run on attempt 0
    links to [<url>/runs/<id>]. *)
Theorem initializeHost_registers_the_dashboard_url
    (fuel : nat) (w : World) (packageMetadata : Value) (timeouts : list Value)
    (rest : list (Value + Value)) (fields data : list (string * Value)) (url : string) :
  Host.connection this = true ->
  serverRPC_initialized (client w) = true ->
  getTriggerPackageEnvVars readPackageJson env = Done packageMetadata ->
  outcomes (inbox w) = List.map inr timeouts ++ inl (VObj fields) :: rest ->
  Forall (fun e => instanceofTimeoutError e = true) timeouts ->
  (List.length timeouts < fuel)%nat ->
  get "type" fields <> Some (VStr "error") ->
  get "data" fields = Some (VObj data) ->
  get "url" data = Some (VStr url) ->
  let rw := initializeHost safeGetRepoInfo getRemoteUrl readPackageJson env this fuel w in
  fst rw = Done tt
  /\ registerResponse_url (client (snd rw)) = Some url
  /\ (forall hrtime JSON_stringify terminalLink generateErrorMessage
             on_schema_safeParse run data eventData,
        on_schema_safeParse (HostRPC.trigger_input data) = z.success eventData ->
        HostRPC.attempt (HostRPC.meta data) = Some 0 ->
        In (ELog Log
              ("Run " +:+ HostRPC.id data +:+ " started 👉 "
               +:+ terminalLink "View on dashboard"
                     (url +:+ "/runs/" +:+ HostRPC.id data)))
           (visible
              (trace
                 (snd (TRIGGER_WORKFLOW hrtime JSON_stringify terminalLink
                         generateErrorMessage on_schema_safeParse run data (snd rw)))))).
Proof.
  intros Hc Hr Hp Ho Ht Hlen Hty Hd Hu rw. subst rw.
  destruct (initializeHost_sends fuel w packageMetadata timeouts (inl (VObj fields)) rest
              Hc Hr Hp Ho Ht) as (w1 & -> & Hcl & Hs); [discriminate|exact Hlen|].
  assert (Hne : strict_equal (get "type" fields) "error" = false).
  { unfold strict_equal. destruct (get "type" fields) as [[| | | | |ty| | |]|]; try reflexivity.
    destruct (String.eqb_spec ty "error") as [->|]; [contradiction Hty|]; reflexivity. }
  unfold register, the_url, bind, raise, ret, set_registerResponse_url, logger, emit.
  cbn [truthy negb]. rewrite Hne, Hd, Hu. cbn [fst snd client set_client set_trace].
  split_and!; [reflexivity..|].
  intros hrtime JSON_stringify terminalLink generateErrorMessage on_schema_safeParse run
    data0 eventData Hs0 Ha.
  match goal with
  | |- context [TRIGGER_WORKFLOW _ _ _ _ _ _ _ ?w2] =>
      destruct (TRIGGER_WORKFLOW_entered hrtime JSON_stringify terminalLink
                  generateErrorMessage on_schema_safeParse run data0 eventData w2 Hs0)
        as (_ & tail & Hv & _); [left; discriminate|]
  end.
  cbn zeta in Hv. rewrite Hv.
  cbn [client set_client set_trace set_registerResponse_url registerResponse_url prelude].
  destruct (decide _) as [_|Hna]; [|contradiction].
  rewrite !in_app_iff. right. left. left. reflexivity.
Qed.

End InitializeHostProperties.

(** ** The properties at work *)

Lemma one_terminal_rpc_when_sends_resolve_witness :
  Demo.schema (HostRPC.trigger_input Demo.r1) = z.success Demo.input_ok
  /\ enters Demo.r1 (Demo.world0 [Demo.ack; Demo.ack])
  /\ outcomes (inbox (Demo.world0 [Demo.ack; Demo.ack])) = [inl VUndefined; inl VUndefined]
  /\ terminals (trace (snd (Demo.handler Demo.run_ok Demo.input_ok (Some 0)
                              (Demo.world0 [Demo.ack; Demo.ack]))))
     = [COMPLETE_WORKFLOW_RUN "r1" (Some Demo.ok_true) "1"]
  /\ terminals (trace (snd (Demo.handler Demo.run_bigint Demo.input_ok (Some 0)
                              (Demo.world0 [Demo.ack; Demo.ack]))))
     = [SEND_WORKFLOW_ERROR "r1" (parseAnyError Demo.cannot_serialize) "1"]
  /\ terminals (trace (snd (Demo.handler Demo.run_throws_at_once Demo.input_ok (Some 0)
                              (Demo.world0 [Demo.ack; Demo.ack]))))
     = [SEND_WORKFLOW_ERROR "r1" (VStr "boom") "1"].
Proof.
  assert (H1 : Demo.schema (HostRPC.trigger_input Demo.r1) = z.success Demo.input_ok)
    by reflexivity.
  assert (H2 : enters Demo.r1 (Demo.world0 [Demo.ack; Demo.ack]))
    by (left; discriminate).
  assert (H3 : outcomes (inbox (Demo.world0 [Demo.ack; Demo.ack]))
               = [inl VUndefined; inl VUndefined]) by reflexivity.
  split_and!; try assumption.
  - destruct (one_terminal_rpc_when_sends_resolve Demo.hrtime Demo.JSON_stringify
                Demo.terminalLink Demo.generateErrorMessage Demo.schema Demo.run_ok
                Demo.r1 Demo.input_ok VUndefined [inl VUndefined]
                (Demo.world0 [Demo.ack; Demo.ack]) H1 H2 H3) as (_ & _ & Hsettled).
    destruct (Hsettled Demo.returns_ok (Done (VObj [("ok", VBool true)]))
                (snd (Demo.settled Demo.returns_ok (Some 0)
                        (Demo.world0 [Demo.ack; Demo.ack])))
                eq_refl eq_refl ltac:(discriminate) I)
      as (t & Ht & _ & _ & _ & Hc & _).
    unfold Demo.handler. fold Demo.r1. rewrite Ht.
    rewrite (Hc _ "https://x/" (Some Demo.ok_true) eq_refl eq_refl eq_refl).
    reflexivity.
  - destruct (one_terminal_rpc_when_sends_resolve Demo.hrtime Demo.JSON_stringify
                Demo.terminalLink Demo.generateErrorMessage Demo.schema Demo.run_bigint
                Demo.r1 Demo.input_ok VUndefined [inl VUndefined]
                (Demo.world0 [Demo.ack; Demo.ack]) H1 H2 H3) as (_ & _ & Hsettled).
    destruct (Hsettled Demo.returns_bigint (Done (VBigInt 1))
                (snd (Demo.settled Demo.returns_bigint (Some 0)
                        (Demo.world0 [Demo.ack; Demo.ack])))
                eq_refl eq_refl ltac:(discriminate) I)
      as (t & Ht & _ & _ & _ & _ & _ & He & _).
    unfold Demo.handler. fold Demo.r1. rewrite Ht.
    rewrite (He _ "https://x/" Demo.cannot_serialize eq_refl eq_refl eq_refl).
    reflexivity.
  - destruct (one_terminal_rpc_when_sends_resolve Demo.hrtime Demo.JSON_stringify
                Demo.terminalLink Demo.generateErrorMessage Demo.schema
                Demo.run_throws_at_once Demo.r1 Demo.input_ok VUndefined [inl VUndefined]
                (Demo.world0 [Demo.ack; Demo.ack]) H1 H2 H3) as (Hthrown & _).
    exact (Hthrown (VStr "boom") eq_refl).
Defined.

(** START resolves, the promise of the run function resolves, the
    COMPLETE_WORKFLOW_RUN send times out: both terminal requests go out.
    And when the START_WORKFLOW_RUN send is rejected, SEND_WORKFLOW_ERROR
    goes out for a run function that never threw. *)
Lemma complete_and_error_both_sent :
  Demo.schema (HostRPC.trigger_input Demo.r1) = z.success Demo.input_ok
  /\ Demo.run_ok Demo.input_ok = Promised (Return (VObj [("ok", VBool true)]))
  /\ terminals (trace (snd (Demo.handler Demo.run_ok Demo.input_ok (Some 0)
                              (Demo.world0 [Demo.ack; Demo.timeout; Demo.ack]))))
     = [COMPLETE_WORKFLOW_RUN "r1" (Some Demo.ok_true) "1";
        SEND_WORKFLOW_ERROR "r1" (parseAnyError Demo.timeoutError) "2"]
  /\ terminals (trace (snd (Demo.handler Demo.run_ok Demo.input_ok (Some 0)
                              (Demo.world0 [Demo.timeout; Demo.ack]))))
     = [SEND_WORKFLOW_ERROR "r1" Demo.timeoutError "1"].
Proof. split_and!; reflexivity. Qed.

Lemma event_validation_error_witness :
  Demo.schema (HostRPC.trigger_input (Demo.trigger Demo.input_bad (Some 0)))
  = z.failure [ {| z.code := "invalid_type"; z.path := ["n"];
                   z.message := "Expected number" |} ]
  /\ fst (Demo.handler Demo.run_ok Demo.input_bad (Some 0) (Demo.world0 [Demo.ack]))
     = Done true
  /\ visible (trace (snd (Demo.handler Demo.run_ok Demo.input_bad (Some 0)
                            (Demo.world0 [Demo.ack]))))
     = [ESend (SEND_WORKFLOW_ERROR "r1"
                 (VObj [("name", VStr "Event validation error");
                        ("message", VStr "Expected number")])
                 "0")].
Proof.
  assert (H : Demo.schema (HostRPC.trigger_input (Demo.trigger Demo.input_bad (Some 0)))
              = z.failure [ {| z.code := "invalid_type"; z.path := ["n"];
                               z.message := "Expected number" |} ])
    by reflexivity.
  destruct (event_validation_error Demo.hrtime Demo.JSON_stringify Demo.terminalLink
              Demo.generateErrorMessage Demo.schema Demo.run_ok
              (Demo.trigger Demo.input_bad (Some 0)) _
              (Demo.world0 [Demo.ack]) H)
    as (Hv & Hack & _).
  split_and!.
  - exact H.
  - exact (Hack VUndefined [] eq_refl).
  - exact Hv.
Defined.

(** The SEND_WORKFLOW_ERROR of a validation failure times out: the handler
    throws instead of acknowledging. *)
Lemma validation_error_send_rejected :
  Demo.schema (HostRPC.trigger_input (Demo.trigger Demo.input_bad (Some 0)))
  = z.failure [ {| z.code := "invalid_type"; z.path := ["n"];
                   z.message := "Expected number" |} ]
  /\ fst (Demo.handler Demo.run_ok Demo.input_bad (Some 0) (Demo.world0 [Demo.timeout]))
     = Raised Demo.timeoutError
  /\ fst (Demo.handler Demo.run_ok Demo.input_bad (Some 0) (Demo.world0 [Demo.timeout]))
     <> Done true.
Proof. split_and!; [reflexivity|reflexivity|discriminate]. Qed.

Lemma start_is_sent_before_run_witness :
  Demo.schema (HostRPC.trigger_input Demo.r1) = z.success Demo.input_ok
  /\ visible (trace (snd (Demo.handler Demo.run_ok Demo.input_ok (Some 0)
                            (Demo.world0 [Demo.ack; Demo.ack]))))
     = [ELog Log (run_started Demo.terminalLink "https://x/" "r1");
        ESend (START_WORKFLOW_RUN "r1" "0");
        ERun Demo.input_ok;
        ELog Log (run_complete Demo.terminalLink "https://x/" "r1");
        ESend (COMPLETE_WORKFLOW_RUN "r1" (Some Demo.ok_true) "1")]
  /\ (In (ELog Log (run_started Demo.terminalLink "https://x/" "r1"))
        (visible (trace (snd (Demo.handler Demo.run_ok Demo.input_ok (Some 0)
                                (Demo.world0 [Demo.ack; Demo.ack])))))
      <-> HostRPC.attempt (HostRPC.meta Demo.r1) = Some 0)
  /\ fst (Demo.handler Demo.run_ok Demo.input_ok (Some 0)
            (Demo.world_unregistered [Demo.ack; Demo.ack]))
     = Raised cannot_read_url
  /\ visible (trace (snd (Demo.handler Demo.run_ok Demo.input_ok (Some 0)
                            (Demo.world_unregistered [Demo.ack; Demo.ack]))))
     = [].
Proof.
  assert (H : Demo.schema (HostRPC.trigger_input Demo.r1) = z.success Demo.input_ok)
    by reflexivity.
  destruct (start_is_sent_before_run Demo.hrtime Demo.JSON_stringify Demo.terminalLink
              Demo.generateErrorMessage Demo.schema Demo.run_ok Demo.r1
              Demo.input_ok (Demo.world0 [Demo.ack; Demo.ack]) H)
    as (Hregistered & _).
  destruct (Hregistered "https://x/" eq_refl) as (rest & Hv & _ & _ & _ & Hiff).
  destruct (start_is_sent_before_run Demo.hrtime Demo.JSON_stringify Demo.terminalLink
              Demo.generateErrorMessage Demo.schema Demo.run_ok Demo.r1
              Demo.input_ok (Demo.world_unregistered [Demo.ack; Demo.ack]) H)
    as (_ & Hunregistered).
  destruct (Hunregistered eq_refl) as (Hzero & _).
  destruct (Hzero eq_refl) as (Hr & Hv0).
  split_and!.
  - exact H.
  - reflexivity.
  - unfold Demo.handler. fold Demo.r1. rewrite Hv. exact Hiff.
  - exact Hr.
  - exact Hv0.
Defined.



Lemma unknown_key_is_acknowledged_witness :
  callbacks (table_of (HostRPC.RESOLVE_DELAY "r99" "d9")) (client (Demo.world0 []))
    !! key_of (HostRPC.RESOLVE_DELAY "r99" "d9") = None
  /\ exists line1 line2,
      handle (HostRPC.RESOLVE_DELAY "r99" "d9") (Demo.world0 [])
      = (Done true,
         set_trace (trace (Demo.world0 []) ++ [ELog Debug line1; ELog Debug line2])
           (Demo.world0 [])).
Proof.
  assert (H : callbacks (table_of (HostRPC.RESOLVE_DELAY "r99" "d9"))
                (client (Demo.world0 []))
                !! key_of (HostRPC.RESOLVE_DELAY "r99" "d9") = None) by reflexivity.
  split; [exact H|].
  exact (unknown_key_is_acknowledged (HostRPC.RESOLVE_DELAY "r99" "d9") (Demo.world0 []) H).
Defined.

Lemma runOnce_runs_callback_unless_hasRun_witness :
  runOnce_reply Demo.hrtime Demo.r1 "k" REMOTE
    (Demo.world0 [Demo.ack; Inbound (HostRPC.RESOLVE_RUN_ONCE "r1" "k" Demo.cache_hit)])
  = (Done Demo.cache_hit,
     snd (runOnce_reply Demo.hrtime Demo.r1 "k" REMOTE
            (Demo.world0
               [Demo.ack; Inbound (HostRPC.RESOLVE_RUN_ONCE "r1" "k" Demo.cache_hit)])))
  /\ fst (runOnce Demo.hrtime Demo.JSON_stringify Demo.r1 "k" Demo.callback_throws
            (Demo.world0
               [Demo.ack; Inbound (HostRPC.RESOLVE_RUN_ONCE "r1" "k" Demo.cache_hit)]))
     = Done (VObj [("v", VNum 42)]).
Proof.
  assert (H : runOnce_reply Demo.hrtime Demo.r1 "k" REMOTE
                (Demo.world0
                   [Demo.ack; Inbound (HostRPC.RESOLVE_RUN_ONCE "r1" "k" Demo.cache_hit)])
              = (Done Demo.cache_hit,
                 snd (runOnce_reply Demo.hrtime Demo.r1 "k" REMOTE
                        (Demo.world0
                           [Demo.ack;
                            Inbound (HostRPC.RESOLVE_RUN_ONCE "r1" "k" Demo.cache_hit)]))))
    by reflexivity.
  split; [exact H|].
  destruct (runOnce_runs_callback_unless_hasRun Demo.hrtime Demo.JSON_stringify Demo.r1 "k"
              Demo.callback_throws _ _ _ H) as (_ & Hhit & _).
  rewrite (Hhit eq_refl). reflexivity.
Defined.

(** The reply has [hasRun] false.  The callback returns and the
    COMPLETE_RUN_ONCE send times out: [runOnce] throws, the callback's
    result is not returned.  The callback throws: no COMPLETE_RUN_ONCE is
    sent.  The callback returns 0, which [JSON.stringify] writes as the
    string 0: COMPLETE_RUN_ONCE goes out with no output.  The callback
    returns a BigInt: [runOnce] throws what [JSON.stringify] throws, and
    no COMPLETE_RUN_ONCE is sent. *)
Lemma runOnce_result_not_returned :
  fst (runOnce Demo.hrtime Demo.JSON_stringify Demo.r1 "k"
         (Demo.callback (VObj [("v", VNum 1)]))
         (Demo.world0 [Demo.ack;
                       Inbound (HostRPC.RESOLVE_RUN_ONCE "r1" "k" Demo.cache_miss);
                       Demo.timeout]))
  = Raised Demo.timeoutError
  /\ visible (trace (snd (runOnce Demo.hrtime Demo.JSON_stringify Demo.r1 "k"
                            Demo.callback_throws
                            (Demo.world0
                               [Demo.ack;
                                Inbound (HostRPC.RESOLVE_RUN_ONCE "r1" "k" Demo.cache_miss);
                                Demo.ack]))))
     = [ESet RunOnce "r1:k"; ESend (INITIALIZE_RUN_ONCE "r1" "k" REMOTE "0");
        ECallback "i"]
  /\ Demo.JSON_stringify (VNum 0) = inl (Some "0")
  /\ runOnce Demo.hrtime Demo.JSON_stringify Demo.r1 "k" (Demo.callback (VNum 0))
       (Demo.world0 [Demo.ack;
                     Inbound (HostRPC.RESOLVE_RUN_ONCE "r1" "k" Demo.cache_miss);
                     Demo.ack])
     = (Done (VNum 0),
        snd (runOnce Demo.hrtime Demo.JSON_stringify Demo.r1 "k" (Demo.callback (VNum 0))
               (Demo.world0 [Demo.ack;
                             Inbound (HostRPC.RESOLVE_RUN_ONCE "r1" "k" Demo.cache_miss);
                             Demo.ack])))
  /\ visible (trace (snd (runOnce Demo.hrtime Demo.JSON_stringify Demo.r1 "k"
                            (Demo.callback (VNum 0))
                            (Demo.world0
                               [Demo.ack;
                                Inbound (HostRPC.RESOLVE_RUN_ONCE "r1" "k" Demo.cache_miss);
                                Demo.ack]))))
     = [ESet RunOnce "r1:k"; ESend (INITIALIZE_RUN_ONCE "r1" "k" REMOTE "0");
        ECallback "i"; ESend (COMPLETE_RUN_ONCE "r1" "k" "i" None "1")]
  /\ fst (runOnce Demo.hrtime Demo.JSON_stringify Demo.r1 "k" (Demo.callback (VBigInt 1))
            (Demo.world0 [Demo.ack;
                          Inbound (HostRPC.RESOLVE_RUN_ONCE "r1" "k" Demo.cache_miss);
                          Demo.ack]))
     = Raised Demo.cannot_serialize
  /\ visible (trace (snd (runOnce Demo.hrtime Demo.JSON_stringify Demo.r1 "k"
                            (Demo.callback (VBigInt 1))
                            (Demo.world0
                               [Demo.ack;
                                Inbound (HostRPC.RESOLVE_RUN_ONCE "r1" "k" Demo.cache_miss);
                                Demo.ack]))))
     = [ESet RunOnce "r1:k"; ESend (INITIALIZE_RUN_ONCE "r1" "k" REMOTE "0");
        ECallback "i"].
Proof. split_and!; reflexivity. Qed.

Lemma fetch_body_is_parsed_when_truthy_witness :
  fetch_response Demo.hrtime Demo.r1 "f1" "https://api/" (Demo.get_options (Some Demo.z_string))
    (Demo.world0
       [Demo.ack;
        Inbound (HostRPC.RESOLVE_FETCH_REQUEST "r1" "f1" (Demo.response (VStr "hello")))])
  = (Done (Demo.response (VStr "hello")),
     snd (fetch_response Demo.hrtime Demo.r1 "f1" "https://api/"
            (Demo.get_options (Some Demo.z_string))
            (Demo.world0
               [Demo.ack;
                Inbound (HostRPC.RESOLVE_FETCH_REQUEST "r1" "f1"
                           (Demo.response (VStr "hello")))])))
  /\ fst (fetchFunction Demo.hrtime Demo.r1 "f1" "https://api/"
            (Demo.get_options (Some Demo.z_string))
            (Demo.world0
               [Demo.ack;
                Inbound (HostRPC.RESOLVE_FETCH_REQUEST "r1" "f1"
                           (Demo.response (VStr "hello")))]))
     = Done (Demo.response (VStr "hello")).
Proof.
  assert (H : fetch_response Demo.hrtime Demo.r1 "f1" "https://api/"
                (Demo.get_options (Some Demo.z_string))
                (Demo.world0
                   [Demo.ack;
                    Inbound (HostRPC.RESOLVE_FETCH_REQUEST "r1" "f1"
                               (Demo.response (VStr "hello")))])
              = (Done (Demo.response (VStr "hello")),
                 snd (fetch_response Demo.hrtime Demo.r1 "f1" "https://api/"
                        (Demo.get_options (Some Demo.z_string))
                        (Demo.world0
                           [Demo.ack;
                            Inbound (HostRPC.RESOLVE_FETCH_REQUEST "r1" "f1"
                                       (Demo.response (VStr "hello")))]))))
    by reflexivity.
  split; [exact H|].
  destruct (fetch_body_is_parsed_when_truthy Demo.hrtime Demo.r1 "f1" "https://api/"
              (Demo.get_options (Some Demo.z_string)) _ _ _ H) as (Htruthy & _).
  destruct (Htruthy eq_refl) as (Hparsed & _).
  rewrite (Hparsed Demo.z_string (VStr "hello") eq_refl eq_refl). reflexivity.
Defined.

(** Without a response schema the body 0 comes back as [undefined], not
    as it is; with the schema [z.string()] the conforming body of the
    empty string comes back as [undefined], and the body 0, which does
    not conform, does not make the call throw. *)
Lemma fetch_falsy_body_is_dropped :
  fst (fetchFunction Demo.hrtime Demo.r1 "f1" "https://api/" (Demo.get_options None)
         (Demo.world0
            [Demo.ack;
             Inbound (HostRPC.RESOLVE_FETCH_REQUEST "r1" "f1" (Demo.response (VNum 0)))]))
  = Done (Demo.response VUndefined)
  /\ Demo.z_string (VStr EmptyString) = inl (VStr EmptyString)
  /\ fst (fetchFunction Demo.hrtime Demo.r1 "f1" "https://api/"
            (Demo.get_options (Some Demo.z_string))
            (Demo.world0
               [Demo.ack;
                Inbound (HostRPC.RESOLVE_FETCH_REQUEST "r1" "f1"
                           (Demo.response (VStr EmptyString)))]))
     = Done (Demo.response VUndefined)
  /\ (exists zodError, Demo.z_string (VNum 0) = inr zodError)
  /\ fst (fetchFunction Demo.hrtime Demo.r1 "f1" "https://api/"
            (Demo.get_options (Some Demo.z_string))
            (Demo.world0
               [Demo.ack;
                Inbound (HostRPC.RESOLVE_FETCH_REQUEST "r1" "f1"
                           (Demo.response (VNum 0)))]))
     = Done (Demo.response VUndefined).
Proof. split_and!; try reflexivity. eexists. reflexivity. Qed.

(** The entry of a delay that was resolved is still in its map, and so is
    the entry of a delay still pending when the run has completed, its
    promise still pending; and so is, once the run has completed, the
    entry of the delay its run function awaited. *)
Lemma resolved_entry_stays_in_map :
  promises (snd (waitFor Demo.hrtime Demo.r1 "d1" Demo.seconds5
                   (Demo.world0 [Demo.ack; Inbound (HostRPC.RESOLVE_DELAY "r1" "d1")])))
  = [Fulfilled RVoid]
  /\ waitForCallbacks
       (client (snd (waitFor Demo.hrtime Demo.r1 "d1" Demo.seconds5
                       (Demo.world0
                          [Demo.ack; Inbound (HostRPC.RESOLVE_DELAY "r1" "d1")]))))
     !! "r1:d1" = Some 0%nat
  /\ terminals
       (trace (snd (Demo.handler Demo.run_ok Demo.input_ok (Some 0)
                      (set_inbox [Demo.ack; Demo.ack]
                         (snd (waitFor Demo.hrtime Demo.r1 "d2" Demo.seconds5
                                 (Demo.world0 [Demo.ack])))))))
     = [COMPLETE_WORKFLOW_RUN "r1" (Some Demo.ok_true) "2"]
  /\ waitForCallbacks
       (client (snd (Demo.handler Demo.run_ok Demo.input_ok (Some 0)
                       (set_inbox [Demo.ack; Demo.ack]
                          (snd (waitFor Demo.hrtime Demo.r1 "d2" Demo.seconds5
                                  (Demo.world0 [Demo.ack])))))))
     !! "r1:d2" = Some 0%nat
  /\ promises (snd (Demo.handler Demo.run_ok Demo.input_ok (Some 0)
                      (set_inbox [Demo.ack; Demo.ack]
                         (snd (waitFor Demo.hrtime Demo.r1 "d2" Demo.seconds5
                                 (Demo.world0 [Demo.ack]))))))
     = [Pending]
  /\ terminals
       (trace (snd (Demo.handler Demo.run_waits Demo.input_ok (Some 0)
                      (Demo.world0 [Demo.ack; Demo.ack;
                                    Inbound (HostRPC.RESOLVE_DELAY "r1" "d1");
                                    Demo.ack]))))
     = [COMPLETE_WORKFLOW_RUN "r1" (Some Demo.ok_true) "2"]
  /\ waitForCallbacks
       (client (snd (Demo.handler Demo.run_waits Demo.input_ok (Some 0)
                       (Demo.world0 [Demo.ack; Demo.ack;
                                     Inbound (HostRPC.RESOLVE_DELAY "r1" "d1");
                                     Demo.ack]))))
     !! "r1:d1" = Some 0%nat.
Proof. split_and!; reflexivity. Qed.

Lemma send_retries_on_timeout_witness :
  serverRPC_initialized (client (Demo.world0 [Demo.timeout; Demo.timeout; Demo.ack])) = true
  /\ outcomes (inbox (Demo.world0 [Demo.timeout; Demo.timeout; Demo.ack]))
     = List.map inr [Demo.timeoutError; Demo.timeoutError] ++ [inl VUndefined]
  /\ Forall (fun e => instanceofTimeoutError e = true) [Demo.timeoutError; Demo.timeoutError]
  /\ fst (send 3 (INITIALIZE_HOST_V2 VNull)
            (Demo.world0 [Demo.timeout; Demo.timeout; Demo.ack]))
     = Done VUndefined
  /\ List.filter (fun e => match e with ESleep _ => true | _ => false end)
       (trace (snd (send 3 (INITIALIZE_HOST_V2 VNull)
                      (Demo.world0 [Demo.timeout; Demo.timeout; Demo.ack]))))
     = [ESleep 3000; ESleep 3000].
Proof.
  assert (H1 : serverRPC_initialized
                 (client (Demo.world0 [Demo.timeout; Demo.timeout; Demo.ack])) = true)
    by reflexivity.
  assert (H2 : outcomes (inbox (Demo.world0 [Demo.timeout; Demo.timeout; Demo.ack]))
               = List.map inr [Demo.timeoutError; Demo.timeoutError] ++ [inl VUndefined])
    by reflexivity.
  assert (H3 : Forall (fun e => instanceofTimeoutError e = true)
                 [Demo.timeoutError; Demo.timeoutError])
    by (repeat constructor).
  destruct (send_retries_on_timeout (INITIALIZE_HOST_V2 VNull) _ _ _ H1 H2 H3)
    as (_ & Hreturns).
  destruct (Hreturns (inl VUndefined) [] 3%nat eq_refl) as (Hr & _).
  - intros e [=].
  - cbn. lia.
  - split_and!; try assumption. reflexivity.
Defined.

(** ** Scenarios *)

(** The happy path: START_WORKFLOW_RUN, then COMPLETE_WORKFLOW_RUN with the
    serialized output. *)
Example happy_path :
  sends (trace (snd (Demo.handler Demo.run_ok Demo.input_ok (Some 0)
                       (Demo.world0 [Demo.ack; Demo.ack]))))
  = [START_WORKFLOW_RUN "r1" "0";
     COMPLETE_WORKFLOW_RUN "r1"
       (Some ("{" +:+ Demo.dquote +:+ "ok" +:+ Demo.dquote +:+ ":true}")) "1"].
Proof. reflexivity. Qed.

(** A run function that awaits a delay: its INITIALIZE_DELAY goes out
    between START_WORKFLOW_RUN and COMPLETE_WORKFLOW_RUN, and as long as
    RESOLVE_DELAY has not arrived the run is suspended. *)
Example run_with_delay :
  sends (trace (snd (Demo.handler Demo.run_waits Demo.input_ok (Some 0)
                       (Demo.world0 [Demo.ack; Demo.ack;
                                     Inbound (HostRPC.RESOLVE_DELAY "r1" "d1");
                                     Demo.ack]))))
  = [START_WORKFLOW_RUN "r1" "0";
     INITIALIZE_DELAY "r1" "d1" (DELAY (Some 5) None None None) "1";
     COMPLETE_WORKFLOW_RUN "r1" (Some Demo.ok_true) "2"]
  /\ sends (trace (snd (Demo.handler Demo.run_waits Demo.input_ok (Some 0)
                          (Demo.world0 [Demo.ack; Demo.ack]))))
     = [START_WORKFLOW_RUN "r1" "0";
        INITIALIZE_DELAY "r1" "d1" (DELAY (Some 5) None None None) "1"].
Proof. split; reflexivity. Qed.

(** A run delivered to a client that is not registered yet: on attempt 0
    the handler throws and sends nothing; on attempt 1 the run goes on
    until its output is to be reported, and what goes out is the
    [TypeError] of reading the url. *)
Example run_before_registration :
  Demo.handler Demo.run_ok Demo.input_ok (Some 0) (Demo.world_unregistered [Demo.ack])
  = (Raised cannot_read_url,
     snd (Demo.handler Demo.run_ok Demo.input_ok (Some 0)
            (Demo.world_unregistered [Demo.ack])))
  /\ sends (trace (snd (Demo.handler Demo.run_ok Demo.input_ok (Some 0)
                          (Demo.world_unregistered [Demo.ack]))))
     = []
  /\ sends (trace (snd (Demo.handler Demo.run_ok Demo.input_ok (Some 1)
                          (Demo.world_unregistered [Demo.ack; Demo.ack]))))
     = [START_WORKFLOW_RUN "r1" "0";
        SEND_WORKFLOW_ERROR "r1"
          (VObj [("name", VStr "TypeError");
                 ("message",
                  VStr "Cannot read properties of undefined (reading 'url')");
                 ("stackTrace", VUndefined)])
          "1"].
Proof. split_and!; reflexivity. Qed.

(** A journaled delay: INITIALIZE_DELAY goes out and RESOLVE_DELAY resumes
    the call, also when it arrives ahead of the acknowledgement of the
    send. *)
Example journaled_delay :
  waitFor Demo.hrtime Demo.r1 "d1" Demo.seconds5
    (Demo.world0 [Demo.ack; Inbound (HostRPC.RESOLVE_DELAY "r1" "d1")])
  = (Done tt,
     snd (waitFor Demo.hrtime Demo.r1 "d1" Demo.seconds5
            (Demo.world0 [Demo.ack; Inbound (HostRPC.RESOLVE_DELAY "r1" "d1")])))
  /\ sends (trace (snd (waitFor Demo.hrtime Demo.r1 "d1" Demo.seconds5
                          (Demo.world0
                             [Demo.ack; Inbound (HostRPC.RESOLVE_DELAY "r1" "d1")]))))
     = [INITIALIZE_DELAY "r1" "d1" (DELAY (Some 5) None None None) "0"]
  /\ fst (waitFor Demo.hrtime Demo.r1 "d1" Demo.seconds5
            (Demo.world0 [Inbound (HostRPC.RESOLVE_DELAY "r1" "d1"); Demo.ack]))
     = Done tt
  /\ fst (waitFor Demo.hrtime Demo.r1 "d1" Demo.seconds5 (Demo.world0 [Demo.ack]))
     = Blocked.
Proof. split_and!; reflexivity. Qed.

Example stringify_nested :
  Demo.JSON_stringify
    (VArr [VNum 1; VUndefined; VObj [("a", VUndefined); ("b", VStr "x")]])
  = inl (Some ("[1,null,{" +:+ Demo.dquote +:+ "b" +:+ Demo.dquote +:+ ":"
               +:+ Demo.dquote +:+ "x" +:+ Demo.dquote +:+ "}]"))
  /\ Demo.JSON_stringify (VObj [("a", VArr [VNum 1; VBigInt 2])])
     = inr Demo.cannot_serialize.
Proof. split; reflexivity. Qed.

(** ** Further properties at work *)

Lemma allocated_world0 (script : list EnvEvent) : allocated (Demo.world0 script).
Proof. intros t k p H. destruct t; cbn in H; rewrite lookup_empty in H; discriminate H. Qed.

Lemma gatherEnvVars_lookup_witness :
  NoDup (List.map fst Demo.env)
  /\ assoc "WSS_URL" (gatherEnvVars Demo.env) = Some "wss://x"
  /\ assoc "HOME" (gatherEnvVars Demo.env) = None.
Proof.
  assert (H : NoDup (List.map fst Demo.env)) by compute_done.
  split_and!; [exact H| |].
  - rewrite (gatherEnvVars_lookup Demo.env "WSS_URL" H). reflexivity.
  - rewrite (gatherEnvVars_lookup Demo.env "HOME" H). reflexivity.
Defined.

Lemma messageKey_injective_without_colon_witness :
  colon_free "r1" = true
  /\ messageKey "r1" "k" = messageKey "r1" "k"
  /\ "r1" = "r1" /\ "k" = "k".
Proof.
  split; [reflexivity|]. split; [reflexivity|].
  exact (messageKey_injective_without_colon "r1" "k" "r1" "k" eq_refl eq_refl eq_refl).
Defined.

Lemma registered_promise_is_settled_witness :
  callbacks (table_of (HostRPC.RESOLVE_RUN_ONCE "r1" "k" Demo.cache_hit))
    (client (Demo.awaiting RunOnce "r1:k"))
    !! key_of (HostRPC.RESOLVE_RUN_ONCE "r1" "k" Demo.cache_hit) = Some 0%nat
  /\ promises (Demo.awaiting RunOnce "r1:k") !! 0%nat = Some Pending
  /\ promises (snd (handle (HostRPC.RESOLVE_RUN_ONCE "r1" "k" Demo.cache_hit)
                      (Demo.awaiting RunOnce "r1:k"))) !! 0%nat
     = Some (Fulfilled (RRunOnce Demo.cache_hit)).
Proof.
  pose (w := Demo.awaiting RunOnce "r1:k").
  pose (msg := HostRPC.RESOLVE_RUN_ONCE "r1" "k" Demo.cache_hit).
  assert (H1 : callbacks (table_of msg) (client w) !! key_of msg = Some 0%nat)
    by reflexivity.
  assert (H2 : promises w !! 0%nat = Some Pending) by reflexivity.
  split_and!; [exact H1|exact H2|].
  destruct (registered_promise_is_settled msg w 0%nat H1 H2) as (_ & H & _). exact H.
Defined.

Lemma settled_promise_is_final_witness :
  promises (snd (handle (HostRPC.RESOLVE_REQUEST "r1" "q" (VNum 1))
                   (Demo.awaiting ResponseComplete "r1:q"))) !! 0%nat
  = Some (Fulfilled (RAny (VNum 1)))
  /\ Fulfilled (RAny (VNum 1)) <> Pending
  /\ promises (deliver [HostRPC.REJECT_REQUEST "r1" "q" (VStr "late");
                        HostRPC.RESOLVE_REQUEST "r1" "q" (VNum 2)]
                 (snd (handle (HostRPC.RESOLVE_REQUEST "r1" "q" (VNum 1))
                         (Demo.awaiting ResponseComplete "r1:q")))) !! 0%nat
     = Some (Fulfilled (RAny (VNum 1))).
Proof.
  pose (w := snd (handle (HostRPC.RESOLVE_REQUEST "r1" "q" (VNum 1))
                    (Demo.awaiting ResponseComplete "r1:q"))).
  assert (H1 : promises w !! 0%nat = Some (Fulfilled (RAny (VNum 1)))) by reflexivity.
  assert (H2 : Fulfilled (RAny (VNum 1)) <> Pending) by discriminate.
  split_and!; [exact H1|exact H2|].
  exact (settled_promise_is_final _ w 0%nat _ H1 H2).
Defined.

Lemma rejected_intent_is_thrown_witness :
  outcomes (inbox (Demo.world0 [Demo.timeout])) = [inr Demo.timeoutError]
  /\ fst (invoke Demo.hrtime Demo.JSON_stringify Demo.r1 (JkvGet Demo.kv_op) (Demo.world0 [Demo.timeout]))
     = Raised Demo.timeoutError.
Proof.
  assert (H : outcomes (inbox (Demo.world0 [Demo.timeout])) = [inr Demo.timeoutError])
    by reflexivity.
  split; [exact H|].
  destruct (rejected_intent_is_thrown Demo.hrtime Demo.JSON_stringify Demo.r1 (JkvGet Demo.kv_op)
              Demo.timeoutError [] (Demo.world0 [Demo.timeout]) H) as (Hr & _).
  exact Hr.
Defined.

Lemma call_waits_for_its_own_reply_witness :
  allocated Demo.other_replies
  /\ (forall msg, In (Inbound msg) (inbox Demo.other_replies) ->
        ~ addressed (table_for (JwaitFor "d1" Demo.seconds5))
            (messageKey (HostRPC.id Demo.r1) (userKey (JwaitFor "d1" Demo.seconds5)))
            msg)
  /\ not_rejected (outcomes (inbox Demo.other_replies))
  /\ fst (invoke Demo.hrtime Demo.JSON_stringify Demo.r1 (JwaitFor "d1" Demo.seconds5) Demo.other_replies)
     = Blocked.
Proof.
  pose (j := JwaitFor "d1" Demo.seconds5).
  assert (H1 : allocated Demo.other_replies) by apply allocated_world0.
  assert (H2 : forall msg, In (Inbound msg) (inbox Demo.other_replies) ->
                 ~ addressed (table_for j) (messageKey (HostRPC.id Demo.r1) (userKey j)) msg).
  { intros msg [H|[H|[H|[]]]]; try discriminate H;
      injection H as <-; intros [Ht Hk]; discriminate. }
  assert (H3 : not_rejected (outcomes (inbox Demo.other_replies))) by exact I.
  split_and!; [exact H1|exact H2|exact H3|].
  destruct (call_waits_for_its_own_reply Demo.hrtime Demo.JSON_stringify Demo.r1 j Demo.other_replies
              H1 H2 H3) as (Hr & _).
  exact Hr.
Defined.

Lemma performRequest_returns_or_throws_witness :
  allocated (Demo.replied Demo.request_resolved)
  /\ outcomes (inbox (Demo.replied Demo.request_resolved)) = [inl VUndefined]
  /\ reply_to ResponseComplete (messageKey (HostRPC.id Demo.r1) "q")
       (inbox (Demo.replied Demo.request_resolved))
     = Some Demo.request_resolved
  /\ fst (performRequest Demo.hrtime Demo.r1 "q" (Demo.request_options None)
            (Demo.replied Demo.request_resolved))
     = Done (VNum 0)
  /\ fst (performRequest Demo.hrtime Demo.r1 "q"
            (Demo.request_options (Some Demo.z_string))
            (Demo.replied Demo.request_resolved))
     = Raised (VError ErrorClass_ZodError "ZodError" "Expected string" None).
Proof.
  pose (msg := Demo.request_resolved).
  pose (w := Demo.replied msg).
  assert (H1 : allocated w) by apply allocated_world0.
  assert (H2 : outcomes (inbox w) = [inl VUndefined]) by reflexivity.
  assert (H3 : reply_to ResponseComplete (messageKey (HostRPC.id Demo.r1) "q") (inbox w)
               = Some msg) by reflexivity.
  split_and!; [exact H1|exact H2|exact H3| |].
  - destruct (performRequest_returns_or_throws Demo.hrtime Demo.r1 "q"
                (Demo.request_options None) msg VUndefined [] w H1 H2 H3) as (Hr & _).
    exact (Hr "r1" "q" (VNum 0) eq_refl).
  - destruct (performRequest_returns_or_throws Demo.hrtime Demo.r1 "q"
                (Demo.request_options (Some Demo.z_string)) msg VUndefined [] w H1 H2 H3)
      as (Hr & _).
    exact (Hr "r1" "q" (VNum 0) eq_refl).
Defined.

Lemma fetch_rejection_is_thrown_witness :
  allocated (Demo.replied Demo.fetch_rejected)
  /\ outcomes (inbox (Demo.replied Demo.fetch_rejected)) = [inl VUndefined]
  /\ reply_to Fetch (messageKey (HostRPC.id Demo.r1) "f")
       (inbox (Demo.replied Demo.fetch_rejected))
     = Some Demo.fetch_rejected
  /\ fst (fetchFunction Demo.hrtime Demo.r1 "f" "https://api"
            (Demo.get_options (Some Demo.z_string)) (Demo.replied Demo.fetch_rejected))
     = Raised (VStr "unreachable").
Proof.
  pose (w := Demo.replied Demo.fetch_rejected).
  assert (H1 : allocated w) by apply allocated_world0.
  assert (H2 : outcomes (inbox w) = [inl VUndefined]) by reflexivity.
  assert (H3 : reply_to Fetch (messageKey (HostRPC.id Demo.r1) "f") (inbox w)
               = Some Demo.fetch_rejected) by reflexivity.
  split_and!; [exact H1|exact H2|exact H3|].
  destruct (fetch_rejection_is_thrown Demo.hrtime Demo.r1 "f" "https://api"
              (Demo.get_options (Some Demo.z_string)) "r1" "f" (VStr "unreachable")
              VUndefined [] w H1 H2 H3) as (Hr & _).
  exact Hr.
Defined.

Lemma runOnceLocalOnly_always_calls_back_witness :
  allocated (Demo.replied Demo.once_resolved)
  /\ outcomes (inbox (Demo.replied Demo.once_resolved)) = [inl VUndefined]
  /\ reply_to RunOnce (messageKey (HostRPC.id Demo.r1) "k")
       (inbox (Demo.replied Demo.once_resolved))
     = Some Demo.once_resolved
  /\ HostRPC.hasRun Demo.cache_hit = true
  /\ fst (runOnceLocalOnly Demo.hrtime Demo.r1 "k" (Demo.callback (VNum 7))
            (Demo.replied Demo.once_resolved))
     = Done (VNum 7)
  /\ visible (trace (snd (runOnceLocalOnly Demo.hrtime Demo.r1 "k"
                            (Demo.callback (VNum 7))
                            (Demo.replied Demo.once_resolved))))
     = [ESet RunOnce "r1:k"; ESend (INITIALIZE_RUN_ONCE "r1" "k" LOCAL_ONLY "0");
        ECallback "i"].
Proof.
  pose (w := Demo.replied Demo.once_resolved).
  assert (H1 : allocated w) by apply allocated_world0.
  assert (H2 : outcomes (inbox w) = [inl VUndefined]) by reflexivity.
  assert (H3 : reply_to RunOnce (messageKey (HostRPC.id Demo.r1) "k") (inbox w)
               = Some Demo.once_resolved) by reflexivity.
  destruct (runOnceLocalOnly_always_calls_back Demo.hrtime Demo.r1 "k"
              (Demo.callback (VNum 7)) "r1" "k" Demo.cache_hit VUndefined [] w H1 H2 H3)
    as (Hr & Hv).
  split_and!; [exact H1|exact H2|exact H3|reflexivity|exact Hr|exact Hv].
Defined.

Lemma delays_resume_on_RESOLVE_DELAY_witness :
  allocated (Demo.replied Demo.delay_resolved)
  /\ outcomes (inbox (Demo.replied Demo.delay_resolved)) = [inl VUndefined]
  /\ fst (waitFor Demo.hrtime Demo.r1 "d1" Demo.seconds5
            (Demo.replied Demo.delay_resolved))
     = Done tt
  /\ fst (waitUntil Demo.hrtime Demo.r1 "d1" "2023-01-01T00:00:00.000Z"
            (Demo.replied Demo.delay_resolved))
     = Done tt.
Proof.
  pose (w := Demo.replied Demo.delay_resolved).
  assert (H1 : allocated w) by apply allocated_world0.
  assert (H2 : outcomes (inbox w) = [inl VUndefined]) by reflexivity.
  destruct (delays_resume_on_RESOLVE_DELAY Demo.hrtime Demo.r1 "d1"
              "2023-01-01T00:00:00.000Z" Demo.seconds5 VUndefined [] w H1 H2) as (Ha & Hb).
  split_and!; [exact H1|exact H2|exact Ha|exact Hb].
Defined.

Lemma kv_operations_resume_on_reply_witness :
  allocated (Demo.replied Demo.get_resolved)
  /\ outcomes (inbox (Demo.replied Demo.get_resolved)) = [inl VUndefined]
  /\ fst (kvGetFunction Demo.hrtime Demo.r1 Demo.kv_op (Demo.replied Demo.get_resolved))
     = Done (VStr "red")
  /\ fst (kvSetFunction Demo.hrtime Demo.r1 Demo.kv_op (Demo.replied Demo.get_resolved))
     = Blocked.
Proof.
  pose (w := Demo.replied Demo.get_resolved).
  assert (H1 : allocated w) by apply allocated_world0.
  assert (H2 : outcomes (inbox w) = [inl VUndefined]) by reflexivity.
  destruct (kv_operations_resume_on_reply Demo.hrtime Demo.r1 Demo.kv_op VUndefined [] w
              H1 H2) as (Hget & Hset & _).
  split_and!; [exact H1|exact H2|exact Hget|exact Hset].
Defined.

Lemma valid_event_is_acknowledged_at_once_witness :
  Demo.schema (HostRPC.trigger_input Demo.r1) = z.success Demo.input_ok
  /\ enters Demo.r1 (Demo.world0 [Demo.ack])
  /\ Demo.run_pending Demo.input_ok = Promised Hang
  /\ fst (Demo.handler Demo.run_pending Demo.input_ok (Some 0) (Demo.world0 [Demo.ack]))
     = Done true
  /\ terminals (trace (snd (Demo.handler Demo.run_pending Demo.input_ok (Some 0)
                              (Demo.world0 [Demo.ack]))))
     = []
  /\ ~ enters Demo.r1 (Demo.world_unregistered [Demo.ack])
  /\ fst (Demo.handler Demo.run_pending Demo.input_ok (Some 0)
            (Demo.world_unregistered [Demo.ack]))
     = Raised cannot_read_url.
Proof.
  assert (H1 : Demo.schema (HostRPC.trigger_input Demo.r1) = z.success Demo.input_ok)
    by reflexivity.
  assert (H2 : enters Demo.r1 (Demo.world0 [Demo.ack])) by (left; discriminate).
  assert (H3 : ~ enters Demo.r1 (Demo.world_unregistered [Demo.ack]))
    by (intros [H|H]; apply H; reflexivity).
  destruct (valid_event_is_acknowledged_at_once Demo.hrtime Demo.JSON_stringify
              Demo.terminalLink Demo.generateErrorMessage Demo.schema Demo.run_pending
              Demo.r1 Demo.input_ok (Demo.world0 [Demo.ack]) H1)
    as (Hr & _ & _ & _ & Ht).
  destruct (valid_event_is_acknowledged_at_once Demo.hrtime Demo.JSON_stringify
              Demo.terminalLink Demo.generateErrorMessage Demo.schema Demo.run_pending
              Demo.r1 Demo.input_ok (Demo.world_unregistered [Demo.ack]) H1)
    as (_ & Hthrows & _).
  destruct (Hthrows H3) as (Hr0 & _).
  split_and!; [exact H1|exact H2|reflexivity|exact (Hr H2)| |exact H3|exact Hr0].
  exact (Ht VUndefined [] Hang
           (snd (Demo.settled Hang (Some 0) (Demo.world0 [Demo.ack])))
           H2 eq_refl eq_refl eq_refl).
Defined.

Lemma start_rejected_reports_cause_witness :
  Demo.schema (HostRPC.trigger_input Demo.r1) = z.success Demo.input_ok
  /\ outcomes (inbox (Demo.world0 [Demo.timeout; Demo.ack]))
     = [inr Demo.timeoutError; inl VUndefined]
  /\ enters Demo.r1 (Demo.world0 [Demo.timeout; Demo.ack])
  /\ terminals (trace (snd (Demo.handler Demo.run_ok Demo.input_ok (Some 0)
                              (Demo.world0 [Demo.timeout; Demo.ack]))))
     = [SEND_WORKFLOW_ERROR "r1" Demo.timeoutError "1"]
  /\ List.filter is_ERun
       (visible (trace (snd (Demo.handler Demo.run_ok Demo.input_ok (Some 0)
                               (Demo.world0 [Demo.timeout; Demo.ack])))))
     = [].
Proof.
  assert (H1 : Demo.schema (HostRPC.trigger_input Demo.r1) = z.success Demo.input_ok)
    by reflexivity.
  assert (H2 : outcomes (inbox (Demo.world0 [Demo.timeout; Demo.ack]))
               = [inr Demo.timeoutError; inl VUndefined]) by reflexivity.
  assert (H3 : enters Demo.r1 (Demo.world0 [Demo.timeout; Demo.ack]))
    by (left; discriminate).
  destruct (start_rejected_reports_cause Demo.hrtime Demo.JSON_stringify
              Demo.terminalLink Demo.generateErrorMessage Demo.schema Demo.run_ok Demo.r1
              Demo.input_ok Demo.timeoutError [inl VUndefined]
              (Demo.world0 [Demo.timeout; Demo.ack]) H1 H2) as (Ht & _ & He).
  split_and!; [exact H1|exact H2|exact H3|exact (Ht H3)|exact He].
Defined.

Lemma rejected_terminal_send_is_reported_witness :
  Demo.schema (HostRPC.trigger_input Demo.r1) = z.success Demo.input_ok
  /\ enters Demo.r1 (Demo.world0 [Demo.ack; Demo.timeout; Demo.ack])
  /\ outcomes (inbox (Demo.world0 [Demo.ack; Demo.timeout; Demo.ack]))
     = [inl VUndefined; inr Demo.timeoutError; inl VUndefined]
  /\ fst (Demo.handler Demo.run_throws Demo.input_ok (Some 0)
            (Demo.world0 [Demo.ack; Demo.timeout; Demo.ack]))
     = Done true
  /\ terminals (trace (snd (Demo.handler Demo.run_throws Demo.input_ok (Some 0)
                              (Demo.world0 [Demo.ack; Demo.timeout; Demo.ack]))))
     = [SEND_WORKFLOW_ERROR "r1" (parseAnyError (VStr "boom")) "1";
        SEND_WORKFLOW_ERROR "r1" Demo.timeoutError "2"].
Proof.
  assert (H1 : Demo.schema (HostRPC.trigger_input Demo.r1) = z.success Demo.input_ok)
    by reflexivity.
  assert (H2 : enters Demo.r1 (Demo.world0 [Demo.ack; Demo.timeout; Demo.ack]))
    by (left; discriminate).
  assert (H3 : outcomes (inbox (Demo.world0 [Demo.ack; Demo.timeout; Demo.ack]))
               = [inl VUndefined; inr Demo.timeoutError; inl VUndefined]) by reflexivity.
  destruct (rejected_terminal_send_is_reported Demo.hrtime Demo.JSON_stringify
              Demo.terminalLink Demo.generateErrorMessage Demo.schema Demo.run_throws
              Demo.r1 Demo.input_ok VUndefined [inr Demo.timeoutError; inl VUndefined]
              (Demo.world0 [Demo.ack; Demo.timeout; Demo.ack]) H1 H2 H3)
    as (Hr & _ & Ht).
  split_and!; [exact H1|exact H2|exact H3|exact Hr|].
  exact (Ht Demo.throws_boom (Raised (VStr "boom"))
           (snd (Demo.settled Demo.throws_boom (Some 0)
                   (Demo.world0 [Demo.ack; Demo.timeout; Demo.ack])))
           Demo.timeoutError [inl VUndefined] eq_refl eq_refl eq_refl).
Defined.

Lemma run_complete_is_logged_iff_run_resolves_witness :
  Demo.schema (HostRPC.trigger_input (Demo.trigger Demo.input_ok (Some 2)))
  = z.success Demo.input_ok
  /\ In (ELog Log (run_complete Demo.terminalLink "https://x/" "r1"))
       (visible (trace (snd (Demo.handler Demo.run_ok Demo.input_ok (Some 2)
                               (Demo.world0 [Demo.ack; Demo.ack])))))
  /\ ~ In (ELog Log (run_started Demo.terminalLink "https://x/" "r1"))
         (visible (trace (snd (Demo.handler Demo.run_ok Demo.input_ok (Some 2)
                                 (Demo.world0 [Demo.ack; Demo.ack]))))).
Proof.
  assert (H1 : Demo.schema (HostRPC.trigger_input (Demo.trigger Demo.input_ok (Some 2)))
               = z.success Demo.input_ok) by reflexivity.
  split; [exact H1|].
  destruct (run_complete_is_logged_iff_run_resolves Demo.hrtime Demo.JSON_stringify
              Demo.terminalLink Demo.generateErrorMessage Demo.schema Demo.run_ok
              (Demo.trigger Demo.input_ok (Some 2)) Demo.input_ok
              (Demo.world0 [Demo.ack; Demo.ack]) H1) as (delta & Hv & Hiff & _).
  split.
  - unfold Demo.handler. rewrite Hv. apply in_app_iff. right.
    apply (Hiff "https://x/" eq_refl).
    exists VUndefined, [inl VUndefined], Demo.returns_ok, (VObj [("ok", VBool true)]),
      (snd (Demo.settled Demo.returns_ok (Some 2) (Demo.world0 [Demo.ack; Demo.ack]))).
    split_and!; reflexivity.
  - cbn. intros [H|[H|[H|[H|[]]]]]; discriminate H.
Defined.

Lemma initializeHost_throws_what_the_server_reports_witness :
  Host.connection Demo.host = true
  /\ serverRPC_initialized
       (client (Demo.world0 [Demo.timeout; SendSettled (inl (Demo.refused "bad key"))]))
     = true
  /\ getTriggerPackageEnvVars Demo.no_manifest Demo.env
     = Done (VObj [("region", VStr "eu")])
  /\ outcomes (inbox (Demo.world0 [Demo.timeout;
                                   SendSettled (inl (Demo.refused "bad key"))]))
     = List.map inr [Demo.timeoutError] ++ [inl (Demo.refused "bad key")]
  /\ Forall (fun e => instanceofTimeoutError e = true) [Demo.timeoutError]
  /\ fst (initializeHost None Demo.no_remote Demo.no_manifest Demo.env Demo.host 2
            (Demo.world0 [Demo.timeout; SendSettled (inl (Demo.refused "bad key"))]))
     = Raised (new_Error "bad key")
  /\ List.length
       (sends (trace (snd (initializeHost None Demo.no_remote Demo.no_manifest Demo.env
                             Demo.host 2
                             (Demo.world0 [Demo.timeout;
                                           SendSettled (inl (Demo.refused "bad key"))])))))
     = 2%nat.
Proof.
  pose (w := Demo.world0 [Demo.timeout; SendSettled (inl (Demo.refused "bad key"))]).
  assert (H1 : Host.connection Demo.host = true) by reflexivity.
  assert (H2 : serverRPC_initialized (client w) = true) by reflexivity.
  assert (H3 : getTriggerPackageEnvVars Demo.no_manifest Demo.env
               = Done (VObj [("region", VStr "eu")])) by reflexivity.
  assert (H4 : outcomes (inbox w)
               = List.map inr [Demo.timeoutError] ++ [inl (Demo.refused "bad key")])
    by reflexivity.
  assert (H5 : Forall (fun e => instanceofTimeoutError e = true) [Demo.timeoutError])
    by (repeat constructor).
  assert (H6 : forall e, @inl Value Value (Demo.refused "bad key") = inr e ->
                         instanceofTimeoutError e = false) by (intros e [=]).
  assert (H7 : (List.length [Demo.timeoutError] < 2)%nat) by (cbn; lia).
  destruct (initializeHost_throws_what_the_server_reports None Demo.no_remote
              Demo.no_manifest Demo.env Demo.host 2 w _ _ _ _ H1 H2 H3 H4 H5 H6 H7)
    as (_ & _ & Hm & _ & Hs).
  split_and!; [exact H1|exact H2|exact H3|exact H4|exact H5| |].
  - exact (Hm _ "bad key" eq_refl eq_refl eq_refl).
  - fold w. rewrite Hs. reflexivity.
Defined.

Lemma initializeHost_registers_the_dashboard_url_witness :
  Host.connection Demo.host = true
  /\ serverRPC_initialized
       (client (Demo.world0 [SendSettled (inl (Demo.registered "https://app"))])) = true
  /\ getTriggerPackageEnvVars Demo.no_manifest Demo.env
     = Done (VObj [("region", VStr "eu")])
  /\ fst (initializeHost None Demo.no_remote Demo.no_manifest Demo.env Demo.host 1
            (Demo.world0 [SendSettled (inl (Demo.registered "https://app"))]))
     = Done tt
  /\ registerResponse_url
       (client (snd (initializeHost None Demo.no_remote Demo.no_manifest Demo.env
                       Demo.host 1
                       (Demo.world0 [SendSettled (inl (Demo.registered "https://app"))]))))
     = Some "https://app".
Proof.
  pose (w := Demo.world0 [SendSettled (inl (Demo.registered "https://app"))]).
  assert (H1 : Host.connection Demo.host = true) by reflexivity.
  assert (H2 : serverRPC_initialized (client w) = true) by reflexivity.
  assert (H3 : getTriggerPackageEnvVars Demo.no_manifest Demo.env
               = Done (VObj [("region", VStr "eu")])) by reflexivity.
  assert (H4 : outcomes (inbox w)
               = List.map inr [] ++ [inl (Demo.registered "https://app")])
    by reflexivity.
  assert (H5 : Forall (fun e => instanceofTimeoutError e = true) []) by constructor.
  assert (H6 : (@List.length Value [] < 1)%nat) by (cbn; lia).
  assert (H7 : get "type" [("type", VStr "success");
                           ("data", VObj [("isNew", VBool false);
                                          ("url", VStr "https://app")])]
               <> Some (VStr "error")) by discriminate.
  destruct (initializeHost_registers_the_dashboard_url None Demo.no_remote
              Demo.no_manifest Demo.env Demo.host 1 w _ [] [] _ _ "https://app"
              H1 H2 H3 H4 H5 H6 H7 eq_refl eq_refl) as (Hr & Hu & _).
  split_and!; [exact H1|exact H2|exact H3|exact Hr|exact Hu].
Defined.

